(** * IMMOB backend: counters, response cache and notification read state

    A shallow embedding of the Django applications [properties], [reviews]
    and [notifications] of the IMMOB backend.  Database tables are finite
    maps from primary keys to rows, the response cache is a finite map from
    string keys to payloads, and a request handler is a computation in a
    small state-and-exception monad over that world.  An exception leaves
    the world as it was when it was raised (the project runs in autocommit
    mode: settings.py sets no ATOMIC_REQUESTS), except inside the atomic
    block of [get_or_create], which rolls the tables back.

    Scope of the embedding.  Rows carry the columns that the handlers read
    or write; the remaining columns are data that is stored and returned
    unchanged.  A queryset is embedded by its row filter.  The names the
    views hand to the ORM are checked against the models as Django checks
    them: a keyword given to [annotate] is resolved when the queryset is
    built (FieldError when the model has no such field or relation), and a
    lookup given to [prefetch_related] is followed when rows have been
    fetched (AttributeError when the instances have no such attribute).
    Attribute access and method calls written in the Python code itself are
    checked against the class ([Property_attributes]).  A queryset that
    aggregates in [annotate] is grouped, and Django leaves Meta.ordering out
    of a grouped query: its rows come in the order of the database. *)
From Stdlib Require Import Ascii.
From stdpp Require Import base strings gmap list option sorting pretty.

Local Open Scope string_scope.

(** ** Exceptions and the request monad *)

Inductive exn : Type :=
  | Http404
  | DoesNotExist
  | MultipleObjectsReturned
  | IntegrityError
  | DatabaseError
  | ValueError
  | ValidationError
  | FieldError (keyword : string)
  | AttributeError (obj attr : string).

Inductive result (A : Type) : Type :=
  | Ok (a : A)
  | Raise (e : exn).
Arguments Ok {A} a.
Arguments Raise {A} e.

Definition M (S A : Type) : Type := S → result A * S.

Definition ret {S A} (a : A) : M S A := λ s, (Ok a, s).
Definition raise {S A} (e : exn) : M S A := λ s, (Raise e, s).
Definition bind {S A B} (m : M S A) (f : A → M S B) : M S B :=
  λ s, match m s with
       | (Ok a, s') => f a s'
       | (Raise e, s') => (Raise e, s')
       end.
Definition get_state {S} : M S S := λ s, (Ok s, s).
Definition modify {S} (f : S → S) : M S unit := λ s, (Ok tt, f s).

(** [try_except m h]: Python's [try: m except Exception as e: h e]. *)
Definition try_except {S A} (m : M S A) (h : exn → M S A) : M S A :=
  λ s, match m s with
       | (Ok a, s') => (Ok a, s')
       | (Raise e, s') => h e s'
       end.

(** [atomic restore m]: [with transaction.atomic(): m].  When [m] raises,
    [restore old new] puts the tables of [old] back into [new]. *)
Definition atomic {S A} (restore : S → S → S) (m : M S A) : M S A :=
  λ s, match m s with
       | (Ok a, s') => (Ok a, s')
       | (Raise e, s') => (Raise e, restore s s')
       end.

Notation "'let*' x ':=' m 'in' k" := (bind m (λ x, k))
  (at level 10, x name, m at level 100, k at level 200, only parsing).
Notation "m >> k" := (bind m (λ _, k))
  (at level 100, k at level 200, right associativity, only parsing).

(** The store accesses a handler performs, in the order it performs them. *)
Inductive access : Type :=
  | Select (table : string)
  | Insert (table : string)
  | Update (table : string)
  | Delete (table : string).

(** ** Request parameters *)

(** [request.query_params.get(k)]: the last value given for [k]. *)
Definition param (q : gmap string (list string)) (k : string) : option string :=
  q !! k ≫= last.

(** Python truth of an optional string: neither None nor empty. *)
Definition truthy (o : option string) : bool :=
  match o with Some s => negb (bool_decide (s = "")) | None => false end.

(** Reading a parameter as a number: decimal digits only. *)
Definition digit (c : ascii) : option nat :=
  let n := nat_of_ascii c in
  if (48 <=? n)%nat && (n <=? 57)%nat then Some (n - 48)%nat else None.

Fixpoint parse_digits (s : string) (acc : nat) : option nat :=
  match s with
  | EmptyString => Some acc
  | String c s' => d ← digit c; parse_digits s' (10 * acc + d)%nat
  end.

Definition parse_nat (s : string) : option nat :=
  if bool_decide (s = "") then None else parse_digits s 0.

(** ** Properties and favorites (properties/models.py, properties/views.py) *)

Module Properties.

(** [Property]: the columns the handlers touch.  [status] is a CharField;
    STATUS_CHOICES lists for_sale, for_rent, sold, rented and pending. *)
Record Property : Type := mkProperty {
  title : string;
  status : string;
  owner : nat;
  is_featured : bool;
  is_verified : bool;
  views_count : nat;
  favorites_count : nat;
  created_at : nat;
  published_at : option nat;
}.

Definition STATUS_CHOICES : list string :=
  ["for_sale"; "for_rent"; "sold"; "rented"; "pending"].

(** The attributes of a [Property] instance: what the class body of
    models.py 75-144 defines, the accessors that the related_name of
    PropertyImage.property, Favorite.property and Review.property add, and
    the public members every django.db.models.Model has. *)
Definition Property_attributes : list string :=
  [ "STATUS_CHOICES"; "id"; "title"; "description"; "property_type"; "location";
    "status"; "price"; "currency"; "area"; "bedrooms"; "bathrooms";
    "parking_spaces"; "has_kitchen"; "has_living_room"; "has_dining_room";
    "has_balcony"; "has_garden"; "has_pool"; "has_garage"; "has_security";
    "has_internet"; "has_ac"; "owner"; "agent"; "is_featured"; "is_verified";
    "views_count"; "favorites_count"; "favorited_by"; "created_at";
    "updated_at"; "published_at"; "__str__"; "save";
    "property_type_id"; "location_id"; "owner_id"; "agent_id";
    "images"; "favorites"; "reviews";
    "pk"; "objects"; "delete"; "refresh_from_db"; "full_clean"; "clean";
    "clean_fields"; "validate_unique"; "validate_constraints"; "save_base";
    "serializable_value"; "get_deferred_fields"; "get_status_display";
    "get_next_by_created_at"; "get_previous_by_created_at";
    "get_next_by_updated_at"; "get_previous_by_updated_at";
    "DoesNotExist"; "MultipleObjectsReturned" ].

Definition set_favorites_count (n : nat) (p : Property) : Property :=
  mkProperty (title p) (status p) (owner p) (is_featured p) (is_verified p)
             (views_count p) n (created_at p) (published_at p).

Definition set_views_count (n : nat) (p : Property) : Property :=
  mkProperty (title p) (status p) (owner p) (is_featured p) (is_verified p)
             n (favorites_count p) (created_at p) (published_at p).

Definition set_published_at (t : option nat) (p : Property) : Property :=
  mkProperty (title p) (status p) (owner p) (is_featured p) (is_verified p)
             (views_count p) (favorites_count p) (created_at p) t.

(** [Favorite]: the join row (user, property); its key in the table is the
    AutoField id. *)
Record Favorite : Type := mkFavorite {
  fav_user : nat;
  fav_property : string;
  fav_created_at : nat;
}.

(** What the serializers put in a response. *)
Record PropertyData : Type := mkPropertyData {
  d_id : string;
  d_title : string;
  d_status : string;
  d_is_featured : bool;
  d_is_verified : bool;
  d_views_count : nat;
  d_favorites_count : nat;
  d_published_at : option nat;
}.

Record FavoriteData : Type := mkFavoriteData {
  fd_id : nat;
  fd_property : PropertyData;
  fd_created_at : nat;
}.

Record StatsData : Type := mkStatsData {
  total_properties : nat;
  stat_for_sale : nat;
  stat_for_rent : nat;
  featured_properties : nat;
  verified_properties : nat;
  total_views : nat;
}.

(** A cached value, already in response shape. *)
Inductive Payload : Type :=
  | Page (count : nat) (results : list PropertyData)
  | Detail (d : PropertyData)
  | Many (ds : list PropertyData)
  | Stats (s : StatsData).

Inductive Body : Type :=
  | Data (p : Payload)
  | FavoriteToggled (message : string) (is_favorited : bool)
                    (favorite : option FavoriteData)
  | FavoriteSaved (favorite : FavoriteData)
  | IsFavorited (b : bool)
  | Invalid (field : string)
  | ErrorBody (error : string)
  | Empty.

Record Response : Type := mkResponse { status_code : nat; body : Body }.

Definition HTTP_200_OK := 200.
Definition HTTP_201_CREATED := 201.
Definition HTTP_204_NO_CONTENT := 204.
Definition HTTP_400_BAD_REQUEST := 400.

(** The world a properties request runs in. *)
Record World : Type := mkWorld {
  properties : gmap string Property;
  favorites : gmap nat Favorite;
  cache : gmap string Payload;
  queries : list access;
}.

Definition with_properties (ps : gmap string Property) (w : World) : World :=
  mkWorld ps (favorites w) (cache w) (queries w).
Definition with_favorites (fs : gmap nat Favorite) (w : World) : World :=
  mkWorld (properties w) fs (cache w) (queries w).
Definition with_cache (c : gmap string Payload) (w : World) : World :=
  mkWorld (properties w) (favorites w) c (queries w).
Definition with_queries (q : list access) (w : World) : World :=
  mkWorld (properties w) (favorites w) (cache w) q.

(** Rolling back a transaction restores the tables; the cache is another
    service and the query log is history. *)
Definition rollback (old new : World) : World :=
  mkWorld (properties old) (favorites old) (cache new) (queries new).

Definition hit (a : access) : M World unit :=
  modify (λ w, with_queries (queries w ++ [a]) w).

(** *** ORM primitives *)

(** [property.favorites.count()], [Favorite.objects.filter(property=p).count()] *)
Definition favorites_of (pk : string) (fs : gmap nat Favorite) : gmap nat Favorite :=
  filter (λ kv, fav_property kv.2 = pk) fs.

Definition count_favorites (pk : string) : M World nat :=
  hit (Select "favorite") >>
  let* w := get_state in
  ret (size (favorites_of pk (favorites w))).

(** [Property.objects.get(id=pk)] *)
Definition Property_get (pk : string) : M World Property :=
  hit (Select "property") >>
  let* w := get_state in
  match properties w !! pk with
  | Some p => ret p
  | None => raise DoesNotExist
  end.

(** [get_object_or_404(Property, id=pk)].  Keys are the UUIDs as strings;
    a string that is no UUID at all (for which Django raises ValidationError
    rather than DoesNotExist) is not told apart from an unknown key. *)
Definition get_property_or_404 (pk : string) : M World Property :=
  try_except (Property_get pk) (λ _, raise Http404).

(** The first lines of [Property.save] (models.py 140-143): a property
    that is for sale or for rent gets its publication date on the instance. *)
Definition Property_before_save (now : nat) (p : Property) : Property :=
  if bool_decide (status p ∈ ["for_sale"; "for_rent"]) && negb (bool_decide (is_Some (published_at p)))
  then set_published_at (Some now) p
  else p.

(** [Property.save(update_fields=['favorites_count'])] on the instance [p]
    with key [pk]: the override runs on the instance, then only the listed
    column is written; Django raises DatabaseError when the UPDATE touches
    no row.  The instance as [save] leaves it is returned. *)
Definition Property_save_favorites_count (pk : string) (p : Property) (now : nat)
  : M World Property :=
  let p := Property_before_save now p in
  hit (Update "property") >>
  let* w := get_state in
  match properties w !! pk with
  | Some row =>
      modify (with_properties
                (<[pk := set_favorites_count (favorites_count p) row]> (properties w))) >>
      ret p
  | None => raise DatabaseError
  end.

(** [Favorite.objects.filter(user=u, property=pk)] as a list of (id, row). *)
Definition favorites_matching (u : nat) (pk : string) (fs : gmap nat Favorite)
  : list (nat * Favorite) :=
  map_to_list (filter (λ kv, fav_user kv.2 = u ∧ fav_property kv.2 = pk) fs).

(** [models.Model.save] of a new Favorite: INSERT under a fresh id;
    unique_together = ['user', 'property'] makes the database refuse a
    second row for the pair. *)
Definition Favorite_insert (f : Favorite) : M World nat :=
  hit (Insert "favorite") >>
  let* w := get_state in
  match favorites_matching (fav_user f) (fav_property f) (favorites w) with
  | [] =>
      let i := fresh (dom (favorites w)) in
      modify (with_favorites (<[i := f]> (favorites w))) >>
      ret i
  | _ :: _ => raise IntegrityError
  end.

(** [models.Model.delete] of the Favorite with id [i]. *)
Definition Favorite_delete_row (i : nat) : M World unit :=
  hit (Delete "favorite") >>
  modify (λ w, with_favorites (delete i (favorites w)) w).

(** *** Favorite.save and Favorite.delete (models.py 184-195) *)

(** [self.property] is the instance [p] (key [pk]) the favorite was built
    with; the method returns it with the counter it assigned. *)
Definition Favorite_save (f : Favorite) (p : Property) (now : nat)
  : M World (nat * Property) :=
  let* i := Favorite_insert f in
  let* n := count_favorites (fav_property f) in
  let* p' := Property_save_favorites_count (fav_property f) (set_favorites_count n p) now in
  ret (i, p').

(** [property_obj = self.property] loads the parent row before the delete. *)
Definition Favorite_delete (i : nat) (f : Favorite) (now : nat) : M World unit :=
  let* property_obj := Property_get (fav_property f) in
  Favorite_delete_row i >>
  let* n := count_favorites (fav_property f) in
  Property_save_favorites_count (fav_property f) (set_favorites_count n property_obj) now >>
  ret tt.

(** [Favorite.objects.get_or_create(user=u, property=p)]: a [get]; when no
    row matches, a [create] (that is, [Favorite.save]) inside an atomic
    block.  The flag tells whether the row was created. *)
Definition Favorite_get_or_create (u : nat) (pk : string) (p : Property) (now : nat)
  : M World (nat * Favorite * Property * bool) :=
  hit (Select "favorite") >>
  let* w := get_state in
  match favorites_matching u pk (favorites w) with
  | [(i, f)] => ret (i, f, p, false)
  | [] =>
      let f := mkFavorite u pk now in
      let* r := atomic rollback (Favorite_save f p now) in
      ret (r.1, f, r.2, true)
  | _ => raise MultipleObjectsReturned
  end.

Definition serialize_property (pk : string) (p : Property) : PropertyData :=
  mkPropertyData pk (title p) (status p) (is_featured p) (is_verified p)
                 (views_count p) (favorites_count p) (published_at p).

Definition serialize_favorite (i : nat) (f : Favorite) (p : Property) : FavoriteData :=
  mkFavoriteData i (serialize_property (fav_property f) p) (fav_created_at f).

(** *** FavoriteViewSet (views.py 242-303) *)

(** [create]: the toggle.  [property_id] is [request.data.get('property_id')];
    [not property_id] holds for None and for the empty string. *)
Definition FavoriteViewSet_create (user : nat) (property_id : option string) (now : nat)
  : M World Response :=
  match property_id with
  | None =>
      ret (mkResponse HTTP_400_BAD_REQUEST (ErrorBody "property_id est requis"))
  | Some pk =>
      if decide (pk = "") then
        ret (mkResponse HTTP_400_BAD_REQUEST (ErrorBody "property_id est requis"))
      else
      let* property_obj := get_property_or_404 pk in
      let* r := Favorite_get_or_create user pk property_obj now in
      let '(i, favorite, p, created) := r in
      if negb created then
        Favorite_delete i favorite now >>
        ret (mkResponse HTTP_200_OK (FavoriteToggled "Retiré des favoris" false None))
      else
        ret (mkResponse HTTP_201_CREATED
               (FavoriteToggled "Ajouté aux favoris" true
                  (Some (serialize_favorite i favorite p))))
  end.

(** [destroy] (DELETE /favorites/<id>/): [get_object] looks the row up among
    the requesting user's favorites, [perform_destroy] deletes it and drops
    the user's favorites-list cache key. *)
Definition FavoriteViewSet_get_object (user : nat) (i : nat) : M World Favorite :=
  hit (Select "favorite") >>
  let* w := get_state in
  match favorites w !! i with
  | Some f => if decide (fav_user f = user) then ret f else raise Http404
  | None => raise Http404
  end.

Definition FavoriteViewSet_perform_destroy (user : nat) (i : nat) (f : Favorite)
  (now : nat) : M World unit :=
  Favorite_delete i f now >>
  modify (λ w, with_cache (delete ("favorites_list_" +:+ pretty user) (cache w)) w).

Definition FavoriteViewSet_destroy (user : nat) (i : nat) (now : nat)
  : M World Response :=
  let* instance := FavoriteViewSet_get_object user i in
  FavoriteViewSet_perform_destroy user i instance now >>
  ret (mkResponse HTTP_204_NO_CONTENT Empty).

(** [check] (views.py 283-298): [property_id] is
    [request.query_params.get('property_id')]. *)
Definition FavoriteViewSet_check (user : nat) (property_id : option string)
  : M World Response :=
  if truthy property_id then
    let pk := default "" property_id in
    hit (Select "favorite") >>
    let* w := get_state in
    let is_favorited := negb (bool_decide (favorites_matching user pk (favorites w) = [])) in
    ret (mkResponse HTTP_200_OK (IsFavorited is_favorited))
  else
    ret (mkResponse HTTP_400_BAD_REQUEST (ErrorBody "property_id est requis")).

(** [models.Model.save] of a stored Favorite: UPDATE of the row with id [i];
    the database refuses a property that does not exist (foreign key) and a
    second row for the pair (unique_together). *)
Definition Favorite_update_row (i : nat) (f : Favorite) : M World unit :=
  hit (Update "favorite") >>
  let* w := get_state in
  match properties w !! fav_property f with
  | None => raise IntegrityError
  | Some _ =>
      match favorites_matching (fav_user f) (fav_property f) (delete i (favorites w)) with
      | [] => modify (with_favorites (<[i := f]> (favorites w)))
      | _ :: _ => raise IntegrityError
      end
  end.

(** [update] and [partial_update] of ModelViewSet (PUT and PATCH
    /favorites/<id>/), which FavoriteViewSet does not override.
    FavoriteSerializer has one writable field, [property_id]; it is required
    unless the update is partial, and [property_id] here is the value after
    validation, a well-formed UUID.  ModelSerializer.update assigns it to
    the instance and calls [Favorite.save]: the row is written, then
    [self.property] is recounted.  That is the property the row now
    references: assigning [property_id] drops the instance [get_object]
    had joined in, so it is read again by its new key; with no
    [property_id] the joined instance is used.  The property the row
    referenced before is not recounted. *)
Definition FavoriteViewSet_update (partial : bool) (user : nat) (i : nat)
    (property_id : option string) (now : nat) : M World Response :=
  let* instance := FavoriteViewSet_get_object user i in
  match property_id with
  | None =>
      if partial then
        let* w := get_state in
        match properties w !! fav_property instance with
        | None => raise DoesNotExist
        | Some joined =>
            Favorite_update_row i instance >>
            let* n := count_favorites (fav_property instance) in
            let* p := Property_save_favorites_count (fav_property instance)
                        (set_favorites_count n joined) now in
            ret (mkResponse HTTP_200_OK (FavoriteSaved (serialize_favorite i instance p)))
        end
      else ret (mkResponse HTTP_400_BAD_REQUEST (Invalid "property_id"))
  | Some pk =>
      let f := mkFavorite (fav_user instance) pk (fav_created_at instance) in
      Favorite_update_row i f >>
      let* property_obj := Property_get pk in
      let* n := count_favorites pk in
      let* p := Property_save_favorites_count pk (set_favorites_count n property_obj) now in
      ret (mkResponse HTTP_200_OK (FavoriteSaved (serialize_favorite i f p)))
  end.

(** *** The response cache (django.core.cache, django-redis)

    The cache is another service: [get], [set], [delete] and the
    [delete_pattern] of django-redis.  Expiry is not modelled (the timeout
    given to [set] is dropped): statements about the cache hold for any
    content, so also after any entry has expired. *)

Definition cache_get (key : string) : M World (option Payload) :=
  let* w := get_state in ret (cache w !! key).

Definition cache_set (key : string) (value : Payload) : M World unit :=
  modify (λ w, with_cache (<[key := value]> (cache w)) w).

Definition cache_delete (key : string) : M World unit :=
  modify (λ w, with_cache (delete key (cache w)) w).

(** Redis glob patterns: [*] stands for any run of characters and [?] for
    one character; every other character of the patterns used here stands
    for itself. *)
Fixpoint glob_match (pat : string) : string → bool :=
  match pat with
  | EmptyString => λ s, bool_decide (s = "")
  | String c pat' =>
      if Ascii.eqb c "*"%char then
        fix star (s : string) : bool :=
          glob_match pat' s ||
          match s with EmptyString => false | String _ s' => star s' end
      else
        λ s, match s with
             | EmptyString => false
             | String d s' =>
                 (Ascii.eqb c "?"%char || Ascii.eqb c d) && glob_match pat' s'
             end
  end.

Definition cache_delete_pattern (pat : string) : M World unit :=
  modify (λ w, with_cache (filter (λ kv, ¬ glob_match pat kv.1) (cache w)) w).

(** *** Request parameters and cache keys *)

Definition lower_ascii (c : ascii) : ascii :=
  let n := nat_of_ascii c in
  if (65 <=? n)%nat && (n <=? 90)%nat then ascii_of_nat (n + 32) else c.

(** [str.lower] on the ASCII letters. *)
Fixpoint lower (s : string) : string :=
  match s with
  | EmptyString => EmptyString
  | String c s' => String (lower_ascii c) (lower s')
  end.

(** [str(v)] of a list of strings that need no escaping: ['a', 'b']. *)
Definition str_of_list (v : list string) : string :=
  "[" +:+ String.concat ", " ((λ x, "'" +:+ x +:+ "'") <$> v) +:+ "]".

Definition key_le (a b : string * list string) : Prop := String.leb a.1 b.1 = true.

Global Instance key_le_dec : RelDecision key_le.
Proof. intros a b. unfold key_le. apply _. Defined.

Section CacheKey.

(** Python's built-in [hash] on strings. *)
Variable hash : string → Z.

(** [_get_cache_key] (views.py 120-125): the prefix alone when the request
    has no query parameter. *)
Definition _get_cache_key (prefix : string) (q : gmap string (list string)) : string :=
  let params := map_to_list q in
  let sorted_params :=
    String.concat "&" ((λ kv, kv.1 +:+ "=" +:+ str_of_list kv.2) <$> merge_sort key_le params) in
  if bool_decide (sorted_params = "") then prefix
  else prefix +:+ ":" +:+ pretty (hash sorted_params).

End CacheKey.

(** *** PropertyViewSet (views.py 19-240) *)

(** [get_queryset] (views.py 27-57) as the filter it puts on the rows.  The
    names given to [select_related] and [annotate] are relations of
    Property (property_type, location, owner, agent; favorites, reviews,
    reviews__rating, reviews__liked_by), so building the queryset raises
    nothing.  The names given to [prefetch_related] are looked up when rows
    have been fetched: see [prefetch_related_objects]. *)
Definition get_queryset (q : gmap string (list string)) (p : Property) : bool :=
  bool_decide (status p ∈ ["for_sale"; "for_rent"])
  && (if truthy (param q "status")
      then bool_decide (Some (status p) = param q "status") else true)
  && (if truthy (param q "verified")
         && bool_decide (lower <$> param q "verified" = Some "true")
      then is_verified p else true)
  && (if truthy (param q "featured")
         && bool_decide (lower <$> param q "featured" = Some "true")
      then is_featured p else true).

(** The first component of a lookup: [property_type] of
    [property_type__category]. *)
Fixpoint lookup_head (s : string) : string :=
  match s with
  | EmptyString => EmptyString
  | String c s' =>
      if Ascii.eqb c "_"%char
         && match s' with
            | String d _ => Ascii.eqb d "_"%char
            | EmptyString => false
            end
      then EmptyString
      else String c (lookup_head s')
  end.

(** One lookup of [prefetch_related] on fetched Property instances: Django
    looks the attribute up on the instances and raises AttributeError
    (Cannot find '...' on Property object) when there is none; otherwise the
    related rows of [table] are read. *)
Definition prefetch_one_level (lookup table : string) : M World unit :=
  if bool_decide (lookup_head lookup ∈ Property_attributes)
  then hit (Select table)
  else raise (AttributeError "Property" (lookup_head lookup)).

(** [prefetch_related('images', 'amenities', 'property_type__category')]
    (views.py 31-33) on the rows a query returned: nothing is done for no
    rows, else the lookups are followed in the order given. *)
Definition prefetch_related_objects (instances : list (string * Property)) : M World unit :=
  match instances with
  | [] => ret tt
  | _ :: _ =>
      prefetch_one_level "images" "propertyimage" >>
      prefetch_one_level "amenities" "amenities" >>
      prefetch_one_level "property_type__category" "propertycategory"
  end.

(** The rows of a queryset.  [get_queryset] annotates with aggregates, and
    Django leaves Meta.ordering out of such a grouped query: the rows come
    in the order of the database, for which the order of [map_to_list]
    stands.  No statement depends on that order. *)
Definition rows_of (keep : Property → bool) (ps : gmap string Property)
  : list (string * Property) :=
  map_to_list (filter (λ kv, keep kv.2 = true) ps).

(** [queryset.count()] *)
Definition count (keep : Property → bool) : M World nat :=
  hit (Select "property") >>
  let* w := get_state in
  ret (length (rows_of keep (properties w))).

(** Evaluating [queryset[low:high]]: a slice whose limits leave nothing is
    empty without a query; otherwise the rows are read and the prefetches
    follow. *)
Definition fetch (keep : Property → bool) (low high : nat)
  : M World (list (string * Property)) :=
  if bool_decide (high ≤ low)%nat then ret []
  else
    hit (Select "property") >>
    let* w := get_state in
    let rows := take (high - low) (drop low (rows_of keep (properties w))) in
    prefetch_related_objects rows >>
    ret rows.

(** [get_object]: [get_object_or_404] on the request's queryset; the row
    found is one fetched instance, so the prefetches follow. *)
Definition get_object (q : gmap string (list string)) (pk : string) : M World Property :=
  hit (Select "property") >>
  let* w := get_state in
  match properties w !! pk with
  | Some p =>
      if get_queryset q p
      then prefetch_related_objects [(pk, p)] >> ret p
      else raise Http404
  | None => raise Http404
  end.

(** PageNumberPagination with PAGE_SIZE = 12 (settings.py 181-182) over
    Django's Paginator. *)
Definition PAGE_SIZE : nat := 12.

Definition num_pages (count : nat) : nat :=
  (Nat.max 1 count + PAGE_SIZE - 1) / PAGE_SIZE.

Definition serialize_rows (rows : list (string * Property)) : list PropertyData :=
  (λ kv, serialize_property kv.1 kv.2) <$> rows.

Section Handlers.

Variable hash : string → Z.

(** Python's built-in [int] on a string: None where it raises ValueError. *)
Variable int : string → option Z.

(** [paginate_queryset]: the page number is [request.query_params.get('page')
    or 1]; 'last' stands for the last page; any other string goes through
    [int].  A number that is no integer or is below 1 is refused before any
    query; then the rows are counted, a number past the last page is
    refused, and the rows of the page are fetched.  Each refusal is a 404. *)
Definition paginate_queryset (q : gmap string (list string)) (keep : Property → bool)
  : M World (nat * list (string * Property)) :=
  let* page :=
    match param q "page" with
    | None => let* c := count keep in ret (1%Z, c)
    | Some s =>
        if bool_decide (s = "") then let* c := count keep in ret (1%Z, c)
        else if bool_decide (s = "last")
        then let* c := count keep in ret (Z.of_nat (num_pages c), c)
        else match int s with
             | None => raise Http404
             | Some number =>
                 if (number <? 1)%Z then raise Http404
                 else let* c := count keep in ret (number, c)
             end
    end in
  let '(number, c) := page in
  if (Z.of_nat (num_pages c) <? number)%Z then raise Http404
  else
    let bottom := ((Z.to_nat number - 1) * PAGE_SIZE)%nat in
    let top := Nat.min (bottom + PAGE_SIZE) c in
    let* rows := fetch keep bottom top in
    ret (c, rows).

(** [list] (views.py 64-80) *)
Definition PropertyViewSet_list (q : gmap string (list string)) : M World Response :=
  let cache_key := _get_cache_key hash "property_list" q in
  let* cached_response := cache_get cache_key in
  match cached_response with
  | Some payload => ret (mkResponse HTTP_200_OK (Data payload))
  | None =>
      let* page := paginate_queryset q (get_queryset q) in
      let data := Page page.1 (serialize_rows page.2) in
      cache_set cache_key data >>
      ret (mkResponse HTTP_200_OK (Data data))
  end.

End Handlers.

(** [retrieve] (views.py 82-103): the cache is written, never read.
    [retrieve_instance] is what the handler does once [get_object] has
    returned the instance (views.py 92-103). *)
Definition retrieve_instance (pk : string) : M World Response :=
  let cache_key := "property_detail_" +:+ pk in
  (* Property.objects.filter(pk=pk).update(views_count=F('views_count') + 1) *)
  hit (Update "property") >>
  modify (λ w, with_properties
                 (alter (λ p, set_views_count (views_count p + 1) p) pk (properties w)) w) >>
  (* instance.refresh_from_db() *)
  let* instance := Property_get pk in
  let data := Detail (serialize_property pk instance) in
  cache_set cache_key data >>
  ret (mkResponse HTTP_200_OK (Data data)).

Definition PropertyViewSet_retrieve (q : gmap string (list string)) (pk : string)
  : M World Response :=
  let* instance := get_object q pk in
  retrieve_instance pk.

(** [_invalidate_property_cache] (views.py 127-131) *)
Definition _invalidate_property_cache : M World unit :=
  cache_delete_pattern "property_list:*" >>
  cache_delete "property_stats".

(** The model fields PropertyCreateSerializer accepts, after validation;
    an absent field keeps the model default (on create) or the stored value
    (on update). *)
Record PropertyFields : Type := mkPropertyFields {
  in_title : option string;
  in_status : option string;
}.

(** [Property.objects.create] on the validated data, through [Property.save]:
    [pk] is the uuid4 drawn for the row.  (PropertyCreateSerializer.create
    also gets or creates the Location and stores the images; those tables
    are not part of the world.) *)
Definition Property_create (pk : string) (user : nat) (data : PropertyFields) (now : nat)
  : M World Property :=
  let p := mkProperty (default "" (in_title data)) (default "pending" (in_status data))
                      user false false 0 0 now None in
  let p := Property_before_save now p in
  hit (Insert "property") >>
  let* w := get_state in
  match properties w !! pk with
  | Some _ => raise IntegrityError
  | None => modify (with_properties (<[pk := p]> (properties w))) >> ret p
  end.

(** [perform_create] (views.py 105-108) *)
Definition PropertyViewSet_perform_create (pk : string) (user : nat)
    (data : PropertyFields) (now : nat) : M World Property :=
  let* p := Property_create pk user data now in
  _invalidate_property_cache >>
  ret p.

(** [serializer.save()] on an instance: ModelSerializer.update assigns the
    given fields and calls [Property.save], which writes the whole row. *)
Definition Property_update (pk : string) (instance : Property) (data : PropertyFields)
    (now : nat) : M World Property :=
  let p := mkProperty (default (title instance) (in_title data))
                      (default (status instance) (in_status data))
                      (owner instance) (is_featured instance) (is_verified instance)
                      (views_count instance) (favorites_count instance)
                      (created_at instance) (published_at instance) in
  let p := Property_before_save now p in
  hit (Update "property") >>
  modify (λ w, with_properties (<[pk := p]> (properties w)) w) >>
  ret p.

(** [update] / [partial_update] with [perform_update] (views.py 110-113) *)
Definition PropertyViewSet_update (q : gmap string (list string)) (pk : string)
    (data : PropertyFields) (now : nat) : M World Response :=
  let* instance := get_object q pk in
  let* p := Property_update pk instance data now in
  _invalidate_property_cache >>
  ret (mkResponse HTTP_200_OK (Data (Detail (serialize_property pk p)))).

(** [instance.delete()]: the row goes, and with it the favorites that
    reference it (on_delete=CASCADE). *)
Definition Property_delete (pk : string) : M World unit :=
  hit (Delete "favorite") >>
  modify (λ w, with_favorites (filter (λ kv, fav_property kv.2 ≠ pk) (favorites w)) w) >>
  hit (Delete "property") >>
  modify (λ w, with_properties (delete pk (properties w)) w).

(** [destroy] with [perform_destroy] (views.py 115-118) *)
Definition PropertyViewSet_destroy (q : gmap string (list string)) (pk : string)
  : M World Response :=
  let* instance := get_object q pk in
  Property_delete pk >>
  _invalidate_property_cache >>
  ret (mkResponse HTTP_204_NO_CONTENT Empty).

(** [create] of CreateModelMixin with [perform_create]. *)
Definition PropertyViewSet_create (pk : string) (user : nat) (data : PropertyFields)
    (now : nat) : M World Response :=
  let* p := PropertyViewSet_perform_create pk user data now in
  ret (mkResponse HTTP_201_CREATED (Data (Detail (serialize_property pk p)))).

(** [featured] (views.py 153-168): the serializer evaluates
    [get_queryset().filter(is_featured=True)[:8]]. *)
Definition PropertyViewSet_featured (q : gmap string (list string)) : M World Response :=
  let cache_key := "property_featured" in
  let* cached_data := cache_get cache_key in
  match cached_data with
  | Some payload => ret (mkResponse HTTP_200_OK (Data payload))
  | None =>
      let* rows := fetch (λ p, get_queryset q p && is_featured p) 0 8 in
      let data := Many (serialize_rows rows) in
      cache_set cache_key data >>
      ret (mkResponse HTTP_200_OK (Data data))
  end.

(** [stats] (views.py 170-212): the counts and the view total of the
    aggregate over all properties. *)
Definition count_where (keep : Property → bool) (ps : gmap string Property) : nat :=
  size (filter (λ kv : string * Property, keep kv.2 = true) ps).

Definition aggregate_stats (ps : gmap string Property) : StatsData :=
  mkStatsData
    (size ps)
    (count_where (λ p, bool_decide (status p = "for_sale")) ps)
    (count_where (λ p, bool_decide (status p = "for_rent")) ps)
    (count_where is_featured ps)
    (count_where is_verified ps)
    (map_fold (λ _ p acc, views_count p + acc)%nat 0%nat ps).

Definition PropertyViewSet_stats : M World Response :=
  let cache_key := "property_stats" in
  let* cached_stats := cache_get cache_key in
  match cached_stats with
  | Some payload => ret (mkResponse HTTP_200_OK (Data payload))
  | None =>
      hit (Select "property") >>
      let* w := get_state in
      let response_data := Stats (aggregate_stats (properties w)) in
      cache_set cache_key response_data >>
      ret (mkResponse HTTP_200_OK (Data response_data))
  end.

(** The two routes of the favorites API that write a Favorite row
    (urls.py: POST /favorites/ and DELETE /favorites/<id>/). *)
Inductive FavoriteWrite : Type :=
  | PostFavorite (user : nat) (property_id : option string) (now : nat)
  | DeleteFavorite (user : nat) (id : nat) (now : nat).

Definition favorites_api (q : FavoriteWrite) : M World Response :=
  match q with
  | PostFavorite user property_id now => FavoriteViewSet_create user property_id now
  | DeleteFavorite user i now => FavoriteViewSet_destroy user i now
  end.

(** The read endpoints that look their response up in the cache first. *)
Inductive CachedEndpoint : Type :=
  | ListEndpoint (q : gmap string (list string))
  | StatsEndpoint
  | FeaturedEndpoint (q : gmap string (list string)).

Definition endpoint_key (hash : string → Z) (e : CachedEndpoint) : string :=
  match e with
  | ListEndpoint q => _get_cache_key hash "property_list" q
  | StatsEndpoint => "property_stats"
  | FeaturedEndpoint _ => "property_featured"
  end.

Definition serve (hash : string → Z) (int : string → option Z) (e : CachedEndpoint)
  : M World Response :=
  match e with
  | ListEndpoint q => PropertyViewSet_list hash int q
  | StatsEndpoint => PropertyViewSet_stats
  | FeaturedEndpoint q => PropertyViewSet_featured q
  end.

(** [n] requests one after the other, each carried out whatever the
    outcome of the one before; the outcomes are returned in order. *)
Fixpoint successively {A} (n : nat) (m : M World A) (w : World)
  : list (result A) * World :=
  match n with
  | O => ([], w)
  | S n' => let '(r, w1) := m w in
            let '(rs, w2) := successively n' m w1 in
            (r :: rs, w2)
  end.

(** *** Vocabulary of the statements *)

(** The denormalised counter of property [pk] agrees with its join rows. *)
Definition in_sync (w : World) (pk : string) : Prop :=
  ∀ p, properties w !! pk = Some p →
       favorites_count p = size (favorites_of pk (favorites w)).

Definition logged (a : access) (w : World) : World :=
  with_queries (queries w ++ [a]) w.

(** What one completed call of the toggle does, case by case. *)
Inductive toggled (user : nat) (pk : string) (now : nat) (w w' : World)
  : Response → Prop :=
  | toggled_on p0 i :
      let f := mkFavorite user pk now in
      let n := size (favorites_of pk (<[i:=f]> (favorites w))) in
      properties w !! pk = Some p0 →
      favorites_matching user pk (favorites w) = [] →
      favorites w !! i = None →
      favorites w' = <[i:=f]> (favorites w) →
      properties w' = <[pk := set_favorites_count n p0]> (properties w) →
      cache w' = cache w →
      toggled user pk now w w'
        (mkResponse HTTP_201_CREATED
           (FavoriteToggled "Ajouté aux favoris" true
              (Some (serialize_favorite i f
                       (Property_before_save now (set_favorites_count n p0))))))
  | toggled_off p0 i f :
      let n := size (favorites_of pk (delete i (favorites w))) in
      properties w !! pk = Some p0 →
      favorites_matching user pk (favorites w) = [(i, f)] →
      favorites w' = delete i (favorites w) →
      properties w' = <[pk := set_favorites_count n p0]> (properties w) →
      cache w' = cache w →
      toggled user pk now w w'
        (mkResponse HTTP_200_OK (FavoriteToggled "Retiré des favoris" false None)).

(** The property a favorites write refers to, when it refers to one. *)
Definition written_property (q : FavoriteWrite) (w : World) : option string :=
  match q with
  | PostFavorite _ (Some pk) _ => if decide (pk = "") then None else Some pk
  | PostFavorite _ None _ => None
  | DeleteFavorite _ i _ => fav_property <$> favorites w !! i
  end.


(** A request changes the query log at most. *)
Definition same_tables_and_cache (w w' : World) : Prop :=
  properties w' = properties w ∧ favorites w' = favorites w ∧ cache w' = cache w.

(** The requests for the first page: no page parameter, an empty one, or
    one that [int] reads as 1. *)
Definition first_page (int : string → option Z) (q : gmap string (list string)) : Prop :=
  match param q "page" with
  | None => True
  | Some s => s = "" ∨ (s ≠ "last" ∧ int s = Some 1%Z)
  end.

(** The property rows a cached payload carries. *)
Definition results_of (payload : Payload) : list PropertyData :=
  match payload with
  | Page _ results => results
  | Detail d => [d]
  | Many ds => ds
  | Stats _ => []
  end.

(** The keys of the properties a response returns. *)
Definition returned (r : Response) : list string :=
  match body r with
  | Data payload => d_id <$> results_of payload
  | _ => []
  end.

(** No cached payload carries a property row. *)
Definition no_cached_rows (w : World) : Prop :=
  ∀ key payload, cache w !! key = Some payload → results_of payload = [].

(** The requests of the properties and favorites API (properties/urls.py). *)
Inductive Request : Type :=
  | GetList (q : gmap string (list string))
  | GetDetail (q : gmap string (list string)) (pk : string)
  | GetFeatured (q : gmap string (list string))
  | GetStats
  | PostProperty (pk : string) (user : nat) (data : PropertyFields) (now : nat)
  | PutProperty (q : gmap string (list string)) (pk : string) (data : PropertyFields)
                (now : nat)
  | DeleteProperty (q : gmap string (list string)) (pk : string)
  | WriteFavorite (fw : FavoriteWrite)
  | CheckFavorite (user : nat) (property_id : option string)
  | PutFavorite (partial : bool) (user : nat) (id : nat) (property_id : option string)
                (now : nat).

Definition api (hash : string → Z) (int : string → option Z) (req : Request)
  : M World Response :=
  match req with
  | GetList q => PropertyViewSet_list hash int q
  | GetDetail q pk => PropertyViewSet_retrieve q pk
  | GetFeatured q => PropertyViewSet_featured q
  | GetStats => PropertyViewSet_stats
  | PostProperty pk user data now => PropertyViewSet_create pk user data now
  | PutProperty q pk data now => PropertyViewSet_update q pk data now
  | DeleteProperty q pk => PropertyViewSet_destroy q pk
  | WriteFavorite fw => favorites_api fw
  | CheckFavorite user property_id => FavoriteViewSet_check user property_id
  | PutFavorite partial user i property_id now =>
      FavoriteViewSet_update partial user i property_id now
  end.

(** The worlds the API can bring about from an empty database, whatever
    the cache holds at the start and whether or not each request completes.
    Each request is served by a process with its own [hash]. *)
Inductive reachable (int : string → option Z) : World → Prop :=
  | reachable_empty c : reachable int (mkWorld ∅ ∅ c [])
  | reachable_step w hash req :
      reachable int w → reachable int (api hash int req w).2.

(** The worlds of a deployment whose cache starts empty, whatever the tables
    hold: requests of the API, served by processes each with its own
    [hash]; between them any change of the tables made by other means (the
    admin site, a shell, a cascade); and entries of the cache that expire. *)
Inductive running (int : string → option Z) : World → Prop :=
  | running_start ps fs : running int (mkWorld ps fs ∅ [])
  | running_request w hash req :
      running int w → running int (api hash int req w).2
  | running_tables w ps fs :
      running int w → running int (mkWorld ps fs (cache w) (queries w))
  | running_expiry w c :
      running int w → c ⊆ cache w → running int (with_cache c w).

(** Every property that is for sale or for rent has its publication date. *)
Definition published (w : World) : Prop :=
  ∀ pk p, properties w !! pk = Some p →
          status p ∈ ["for_sale"; "for_rent"] → is_Some (published_at p).

(** The writes to a property that go through [_invalidate_property_cache]. *)
Inductive PropertyWrite : Type :=
  | CreateProperty (pk : string) (user : nat) (data : PropertyFields) (now : nat)
  | UpdateProperty (q : gmap string (list string)) (pk : string) (data : PropertyFields)
                   (now : nat)
  | DestroyProperty (q : gmap string (list string)) (pk : string).

Definition properties_api (req : PropertyWrite) : M World Response :=
  match req with
  | CreateProperty pk user data now => PropertyViewSet_create pk user data now
  | UpdateProperty q pk data now => PropertyViewSet_update q pk data now
  | DestroyProperty q pk => PropertyViewSet_destroy q pk
  end.

(** *** Fixtures *)

(** The fixture of FavoriteViewSetTests.setUp and of
    PropertyViewSetTests.setUp (tests.py): one property, for sale, no
    favorite yet, nothing cached. *)
Definition test_property : Property :=
  mkProperty "Property to Favorite" "for_sale" 1 false false 0 0 10 (Some 10).

Definition test_world : World :=
  mkWorld {[ "p1" := test_property ]} ∅ ∅ [].

(** A catalogue with one property of each kind the queryset tells apart:
    for sale, pending (the default of a new row) and for rent. *)
Definition catalogue : World :=
  mkWorld {[ "p1" := test_property;
             "p2" := mkProperty "Pending Property" "pending" 1 false false 0 0 12 None;
             "p3" := mkProperty "Property For Rent" "for_rent" 1 true false 0 0 15 (Some 15) ]}
          ∅ ∅ [].

(** An empty database after the read endpoints have filled the cache: the
    featured selection, the unfiltered list, the list of the properties for
    rent, and the statistics. *)
Definition warm_cache (hash : string → Z) (int : string → option Z) : World :=
  let w1 := (PropertyViewSet_featured ∅ (mkWorld ∅ ∅ ∅ [])).2 in
  let w2 := (PropertyViewSet_list hash int ∅ w1).2 in
  let w3 := (PropertyViewSet_list hash int {[ "status" := ["for_rent"] ]} w2).2 in
  (PropertyViewSet_stats w3).2.

(** A stand-in for [int] in examples: it reads a string of decimal digits,
    on which it agrees with Python's [int]. *)
Definition decimal (s : string) : option Z := Z.of_nat <$> parse_nat s.

(** The outcome of a computation that completes. *)
Definition response_of {A} (d : A) (x : result A * World) : A :=
  match x.1 with Ok a => a | Raise _ => d end.

End Properties.

(** ** Property images (properties/models.py 147-167) *)

Module Images.

Record PropertyImage : Type := mkPropertyImage {
  img_property : string;
  image : string;
  is_primary : bool;
  order : nat;
  img_created_at : nat;
}.

Definition set_primary (b : bool) (i : PropertyImage) : PropertyImage :=
  mkPropertyImage (img_property i) (image i) b (order i) (img_created_at i).

(** [PropertyImage.objects.filter(property=p, is_primary=True).update(is_primary=False)] *)
Definition clear_primary (p : string) (imgs : gmap nat PropertyImage)
  : gmap nat PropertyImage :=
  (λ i, if bool_decide (img_property i = p) && is_primary i
        then set_primary false i else i) <$> imgs.

(** [PropertyImage.save] (models.py 163-167) of the instance [img]; [id] is
    None for a new image, which the database stores under a fresh id.  The
    table after the save and the id of the row are returned. *)
Definition PropertyImage_save (id : option nat) (img : PropertyImage)
    (imgs : gmap nat PropertyImage) : nat * gmap nat PropertyImage :=
  let imgs := if is_primary img then clear_primary (img_property img) imgs else imgs in
  let i := default (fresh (dom imgs)) id in
  (i, <[i := img]> imgs).

(** The image loop of PropertyCreateSerializer.create (serializers.py
    299-306): the files in order, the first one primary. *)
Fixpoint create_images (p : string) (files : list string) (i : nat) (now : nat)
    (imgs : gmap nat PropertyImage) : gmap nat PropertyImage :=
  match files with
  | [] => imgs
  | image_file :: rest =>
      let img := mkPropertyImage p image_file (bool_decide (i = 0%nat)) i now in
      create_images p rest (S i) now (PropertyImage_save None img imgs).2
  end.

(** The primary images of property [p]. *)
Definition primaries (p : string) (imgs : gmap nat PropertyImage) : gmap nat PropertyImage :=
  filter (λ kv, img_property kv.2 = p ∧ is_primary kv.2 = true) imgs.

End Images.

(** ** Reviews and likes (reviews/models.py, reviews/views.py) *)

Module Reviews.

Record Review : Type := mkReview {
  rev_user : nat;
  rev_property : string;
  rating : nat;
  rev_title : string;
  comment : string;
  likes_count : nat;
  is_approved : bool;
  is_edited : bool;
  rev_created_at : nat;
}.

Definition set_likes_count (n : nat) (r : Review) : Review :=
  mkReview (rev_user r) (rev_property r) (rating r) (rev_title r) (comment r)
           n (is_approved r) (is_edited r) (rev_created_at r).

(** [ReviewLike]: the join row (user, review). *)
Record ReviewLike : Type := mkReviewLike {
  like_user : nat;
  like_review : string;
  like_created_at : nat;
}.

Inductive Body : Type :=
  | ReviewData (pk : string) (r : Review)
  | LikeToggled (message : string) (is_liked : bool)
  | Empty.

Record Response : Type := mkResponse { status_code : nat; body : Body }.

(** The tables, and the keys present in the response cache. *)
Record World : Type := mkWorld {
  reviews : gmap string Review;
  review_likes : gmap nat ReviewLike;
  cache_keys : gset string;
}.

Definition with_reviews (rs : gmap string Review) (w : World) : World :=
  mkWorld rs (review_likes w) (cache_keys w).
Definition with_review_likes (ls : gmap nat ReviewLike) (w : World) : World :=
  mkWorld (reviews w) ls (cache_keys w).
Definition with_cache_keys (ks : gset string) (w : World) : World :=
  mkWorld (reviews w) (review_likes w) ks.

Definition rollback (old new : World) : World :=
  mkWorld (reviews old) (review_likes old) (cache_keys new).

(** Calling [obj.name()] where [obj] is an instance of a class with the
    given attributes: Python raises AttributeError when the name is not one
    of them. *)
Definition call_method (class : string) (attributes : list string) (name : string)
  : M World unit :=
  if bool_decide (name ∈ attributes) then ret tt
  else raise (AttributeError class name).

(** What [models.Model.save] is asked to do with a review. *)
Inductive SaveKind : Type :=
  | ForceInsert                            (* objects.create *)
  | UpdateRow                              (* save() of a loaded instance *)
  | UpdateFields (fields : list string).   (* save(update_fields=...) *)

Definition reviews_by (u : nat) (property : string) (rs : gmap string Review)
  : gmap string Review :=
  filter (λ kv, rev_user kv.2 = u ∧ rev_property kv.2 = property) rs.

(** [super().save(...)] for a review with key [pk];
    unique_together = ['user', 'property']. *)
Definition Model_save (kind : SaveKind) (pk : string) (r : Review) : M World unit :=
  let* w := get_state in
  match kind with
  | ForceInsert =>
      if bool_decide (is_Some (reviews w !! pk)) then raise IntegrityError
      else if bool_decide (reviews_by (rev_user r) (rev_property r) (reviews w) = ∅)
      then modify (with_reviews (<[pk := r]> (reviews w)))
      else raise IntegrityError
  | UpdateRow =>
      if bool_decide (reviews_by (rev_user r) (rev_property r) (delete pk (reviews w)) = ∅)
      then modify (with_reviews (<[pk := r]> (reviews w)))
      else raise IntegrityError
  | UpdateFields fields =>
      match reviews w !! pk with
      | Some row =>
          let row' := if bool_decide ("likes_count" ∈ fields)
                      then set_likes_count (likes_count r) row else row in
          modify (with_reviews (<[pk := row']> (reviews w)))
      | None => raise DatabaseError
      end
  end.

(** [Review.save] (models.py 42-45) *)
Definition Review_save (kind : SaveKind) (pk : string) (r : Review) : M World unit :=
  Model_save kind pk r >>
  call_method "Property" Properties.Property_attributes "update_average_rating".

(** [ReviewLike.objects.filter(review=pk)] *)
Definition likes_of (pk : string) (ls : gmap nat ReviewLike) : gmap nat ReviewLike :=
  filter (λ kv, like_review kv.2 = pk) ls.

Definition likes_matching (u : nat) (pk : string) (ls : gmap nat ReviewLike)
  : list (nat * ReviewLike) :=
  map_to_list (filter (λ kv, like_user kv.2 = u ∧ like_review kv.2 = pk) ls).

(** [ReviewLike.save] (models.py 61-64); [review] is [self.review]. *)
Definition ReviewLike_save (l : ReviewLike) (review : Review) : M World nat :=
  (* super().save(): unique_together = ['user', 'review'] *)
  let* w := get_state in
  let* i := match likes_matching (like_user l) (like_review l) (review_likes w) with
            | [] => let i := fresh (dom (review_likes w)) in
                    modify (with_review_likes (<[i := l]> (review_likes w))) >> ret i
            | _ :: _ => raise IntegrityError
            end in
  let* w := get_state in
  let n := size (likes_of (like_review l) (review_likes w)) in
  Review_save (UpdateFields ["likes_count"]) (like_review l) (set_likes_count n review) >>
  ret i.

(** [ReviewLike] does not override [delete]: [like.delete()] is
    [models.Model.delete], which removes the row. *)
Definition ReviewLike_delete (i : nat) : M World unit :=
  modify (λ w, with_review_likes (delete i (review_likes w)) w).

(** [ReviewLike.objects.create(user=u, review=review)] *)
Definition ReviewLike_create (u : nat) (pk : string) (review : Review) (now : nat)
  : M World nat :=
  ReviewLike_save (mkReviewLike u pk now) review.

(** [ReviewLike.objects.get_or_create(user=u, review=review)] *)
Definition ReviewLike_get_or_create (u : nat) (pk : string) (review : Review) (now : nat)
  : M World (nat * bool) :=
  let* w := get_state in
  match likes_matching u pk (review_likes w) with
  | [(i, _)] => ret (i, false)
  | [] => let* i := atomic rollback (ReviewLike_create u pk review now) in ret (i, true)
  | _ => raise MultipleObjectsReturned
  end.

(** *** ReviewViewSet (views.py 16-117) *)

(** The names a query on Review resolves: its fields, their column names,
    [pk], and the reverse relations, which go by the related_name of the
    foreign keys that point to Review ([liked_by] of ReviewLike.review,
    [images] of ReviewImage.review). *)
Definition Review_fields : list string :=
  [ "id"; "pk"; "user"; "user_id"; "property"; "property_id"; "rating"; "title";
    "comment"; "is_verified_purchase"; "likes_count"; "is_approved"; "is_edited";
    "created_at"; "updated_at"; "liked_by"; "images" ].

(** Resolving a keyword of an aggregate given to [annotate]: Django raises
    FieldError (Cannot resolve keyword ... into field) when Review has no
    such name; that happens when [annotate] is called. *)
Definition resolve (keyword : string) : M World unit :=
  if bool_decide (keyword ∈ Review_fields) then ret tt
  else raise (FieldError keyword).

(** [get_queryset] (views.py 24-56): the two aggregates of [annotate] are
    resolved (Count('likes', ...) twice), then the filters of the query
    parameters are added; a parameter that must be a number and is not one
    raises ValueError.  The result is the filter on the rows. *)
Definition get_queryset (q : gmap string (list string)) : M World (Review → bool) :=
  resolve "likes" >>
  resolve "likes" >>
  let* by_user :=
    (if truthy (param q "user")
     then match param q "user" ≫= parse_nat with
          | Some u => ret (λ r, bool_decide (rev_user r = u))
          | None => raise ValueError
          end
     else ret (λ _, true)) in
  let* by_rating :=
    (if truthy (param q "min_rating")
     then match param q "min_rating" ≫= parse_nat with
          | Some m => ret (λ r, bool_decide (m ≤ rating r)%nat)
          | None => raise ValueError
          end
     else ret (λ _, true)) in
  ret (λ r, is_approved r
            && (if truthy (param q "property")
                then bool_decide (Some (rev_property r) = param q "property") else true)
            && by_user r && by_rating r).

(** [get_object]: [get_object_or_404] on [get_queryset()]. *)
Definition get_object (q : gmap string (list string)) (pk : string) : M World Review :=
  let* queryset := get_queryset q in
  let* w := get_state in
  match reviews w !! pk with
  | Some r => if queryset r then ret r else raise Http404
  | None => raise Http404
  end.

(** [_invalidate_review_cache] (views.py 97-100) *)
Definition _invalidate_review_cache : M World unit :=
  modify (λ w, with_cache_keys
                 (filter (λ k, ¬ Properties.glob_match "review_list:*" k) (cache_keys w)
                    ∖ {[ "property_reviews_stats" ]}) w).

(** The fields ReviewCreateSerializer accepts, after validation. *)
Record ReviewFields : Type := mkReviewFields {
  in_property : option string;
  in_rating : option nat;
  in_title : option string;
  in_comment : option string;
}.

(** [perform_create] (views.py 78-81): [serializer.save(user=...)] runs
    ReviewCreateSerializer.create, that is [Review.objects.create]; [pk] is
    the uuid4 drawn for the row. *)
Definition new_review (user : nat) (data : ReviewFields) (now : nat) : Review :=
  mkReview user (default "" (in_property data)) (default 0%nat (in_rating data))
           (default "" (in_title data)) (default "" (in_comment data))
           0 false false now.

Definition ReviewViewSet_perform_create (pk : string) (user : nat) (data : ReviewFields)
    (now : nat) : M World Review :=
  let r := new_review user data now in
  Review_save ForceInsert pk r >>
  _invalidate_review_cache >>
  ret r.

Definition ReviewViewSet_create (pk : string) (user : nat) (data : ReviewFields) (now : nat)
  : M World Response :=
  let* r := ReviewViewSet_perform_create pk user data now in
  ret (mkResponse 201 (ReviewData pk r)).

(** [update] / [partial_update] with [perform_update] (views.py 83-85):
    ModelSerializer.update assigns the given fields and calls [save]. *)
Definition edited_review (instance : Review) (data : ReviewFields) : Review :=
  mkReview (rev_user instance)
           (default (rev_property instance) (in_property data))
           (default (rating instance) (in_rating data))
           (default (rev_title instance) (in_title data))
           (default (comment instance) (in_comment data))
           (likes_count instance) (is_approved instance) (is_edited instance)
           (rev_created_at instance).

Definition ReviewViewSet_update (q : gmap string (list string)) (pk : string)
    (data : ReviewFields) : M World Response :=
  let* instance := get_object q pk in
  let r := edited_review instance data in
  Review_save UpdateRow pk r >>
  _invalidate_review_cache >>
  ret (mkResponse 200 (ReviewData pk r)).

(** [like] (views.py 102-117) *)
Definition ReviewViewSet_like (q : gmap string (list string)) (user : nat) (pk : string)
    (now : nat) : M World Response :=
  let* review := get_object q pk in
  let* r := ReviewLike_get_or_create user pk review now in
  if negb r.2 then
    ReviewLike_delete r.1 >>
    ret (mkResponse 200 (LikeToggled "Like retiré" false))
  else
    ret (mkResponse 200 (LikeToggled "Like ajouté" true)).

(** The fixture of ReviewViewSetTests.setUp (tests.py): one approved
    review, not liked yet. *)
Definition test_review : Review :=
  mkReview 1 "p1" 5 "Great property" "Really enjoyed my stay" 0 true false 10.

Definition test_world : World := mkWorld {[ "r1" := test_review ]} ∅ ∅.

(** *** Deleting a review *)

(** [instance.delete()]: [Review] does not override [delete]; the row goes,
    and with it the likes that reference it (on_delete=CASCADE). *)
Definition Review_delete (pk : string) : M World unit :=
  modify (λ w, with_review_likes
                 (filter (λ kv, like_review kv.2 ≠ pk) (review_likes w)) w) >>
  modify (λ w, with_reviews (delete pk (reviews w)) w).

(** [destroy] with [perform_destroy] (views.py 87-89) *)
Definition ReviewViewSet_destroy (q : gmap string (list string)) (pk : string)
  : M World Response :=
  let* instance := get_object q pk in
  Review_delete pk >>
  _invalidate_review_cache >>
  ret (mkResponse 204 Empty).

End Reviews.

(** ** Notifications (notifications/models.py, serializers.py, views.py) *)

Module Notifications.

Record Notification : Type := mkNotification {
  user : nat;
  title : string;
  message : string;
  notification_type : string;
  is_read : bool;
  read_at : option nat;
  link : option string;
  created_at : nat;
}.

(** NotificationType.choices *)
Definition NotificationType : list string :=
  ["property_update"; "new_message"; "favorite_update"; "system";
   "review_response"; "payment"; "booking"].

Definition set_read (b : bool) (t : option nat) (n : Notification) : Notification :=
  mkNotification (user n) (title n) (message n) (notification_type n) b t
                 (link n) (created_at n).

Record World : Type := mkWorld {
  notifications : gmap nat Notification;
}.

Inductive Body : Type :=
  | NotificationData (id : nat) (n : Notification)
  | Marked (message : string) (count : nat).

Record Response : Type := mkResponse { status_code : nat; body : Body }.

(** [get_queryset] (views.py 39-41): the requesting user's notifications. *)
Definition get_queryset (u : nat) (ns : gmap nat Notification) : gmap nat Notification :=
  filter (λ kv, user kv.2 = u) ns.

(** [.filter(is_read=False)] *)
Definition unread (ns : gmap nat Notification) : gmap nat Notification :=
  filter (λ kv, is_read kv.2 = false) ns.

(** Meta.ordering = ['-created_at'] *)
Definition newest_first (a b : nat * Notification) : Prop :=
  (created_at b.2 ≤ created_at a.2)%nat.

Global Instance newest_first_dec : RelDecision newest_first.
Proof. intros a b. unfold newest_first. apply _. Defined.

Global Instance newest_first_trans : Transitive newest_first.
Proof. unfold newest_first. intros a b c ??. lia. Qed.

Global Instance newest_first_total : Total newest_first.
Proof. unfold newest_first. intros a b. lia. Qed.

(** [queryset.first()] *)
Definition first (ns : gmap nat Notification) : option (nat * Notification) :=
  head (merge_sort newest_first (map_to_list ns)).

Definition get_object (u : nat) (id : nat) : M World Notification :=
  let* w := get_state in
  match get_queryset u (notifications w) !! id with
  | Some n => ret n
  | None => raise Http404
  end.

(** [save(update_fields=['is_read', 'read_at'])] of the instance [n]. *)
Definition save_read_state (id : nat) (n : Notification) : M World unit :=
  let* w := get_state in
  match notifications w !! id with
  | Some row =>
      modify (λ w, mkWorld (<[id := set_read (is_read n) (read_at n) row]> (notifications w)))
  | None => raise DatabaseError
  end.

(** [Notification.mark_as_read] (models.py 51-57); the instance as the
    method leaves it is returned. *)
Definition mark_as_read (id : nat) (n : Notification) (now : nat) : M World Notification :=
  if negb (is_read n) then
    let n' := set_read true (Some now) n in
    save_read_state id n' >> ret n'
  else ret n.

(** [refresh_from_db] *)
Definition refresh_from_db (id : nat) : M World Notification :=
  let* w := get_state in
  match notifications w !! id with
  | Some n => ret n
  | None => raise DoesNotExist
  end.

(** [retrieve] (views.py 74-85) *)
Definition NotificationViewSet_retrieve (u : nat) (id : nat) (now : nat) : M World Response :=
  let* instance := get_object u id in
  if negb (is_read instance) then
    mark_as_read id instance now >>
    let* instance := refresh_from_db id in
    ret (mkResponse 200 (NotificationData id instance))
  else ret (mkResponse 200 (NotificationData id instance)).

(** [queryset.update(is_read=True, read_at=now)] on the rows selected by
    [sel] among all notifications. *)
Definition update_read (sel : gmap nat Notification) (now : nat) : M World unit :=
  modify (λ w, mkWorld (((λ n, set_read true (Some now) n) <$> sel) ∪ notifications w)).

Definition plural (count : nat) : string :=
  pretty count +:+ " notifications marked as read.".

(** [mark_all_read] (views.py 98-112) *)
Definition NotificationViewSet_mark_all_read (u : nat) (now : nat) : M World Response :=
  let* w := get_state in
  let queryset := unread (get_queryset u (notifications w)) in
  let count := size queryset in
  (if bool_decide (0 < count)%nat then update_read queryset now else ret tt) >>
  ret (mkResponse 200 (Marked (plural count) count)).

(** [mark_read] (views.py 114-147).  [notification_ids] is None when the
    body has no such field; NotificationMarkReadSerializer accepts the
    empty list. *)
Definition NotificationViewSet_mark_read (u : nat) (notification_ids : option (list nat))
    (now : nat) : M World Response :=
  let notification_ids := default [] notification_ids in
  let* w := get_state in
  if negb (bool_decide (notification_ids = [])) then
    let queryset :=
      filter (λ kv, kv.1 ∈ notification_ids) (unread (get_queryset u (notifications w))) in
    let count := size queryset in
    update_read queryset now >>
    ret (mkResponse 200 (Marked (plural count) count))
  else
    match first (unread (get_queryset u (notifications w))) with
    | Some (id, instance) =>
        mark_as_read id instance now >>
        ret (mkResponse 200 (Marked "1 notification marked as read." 1))
    | None =>
        ret (mkResponse 200 (Marked "No unread notifications to mark." 0))
    end.

(** The writable fields of NotificationSerializer: every listed field that
    is neither in read_only_fields (id, user, created_at) nor declared
    read-only (is_read_display).  A field is None when the body omits it;
    [read_at] and [link] may be given as null. *)
Record NotificationFields : Type := mkNotificationFields {
  in_title : option string;
  in_message : option string;
  in_notification_type : option string;
  in_is_read : option bool;
  in_read_at : option (option nat);
  in_link : option (option string);
}.

(** What [serializer.is_valid] makes of a request body: it is rejected, or
    accepted, and then [data] holds the value of every writable field that
    the body gives, as the field cleaned it. *)
Inductive Validation : Type :=
  | Rejected
  | Accepted (data : NotificationFields).

(** [serializer.validated_data].  A body sent as a form (form-encoded or
    multipart, the parsers beside JSON that settings.py leaves enabled) has
    no way to say false for a BooleanField but to leave it out, so for such
    a body, unless the update is partial, rest_framework reads an omitted
    [is_read] as False; a field omitted from a JSON body, or from any body
    of a partial update, is left out. *)
Definition validated_data (partial html : bool) (data : NotificationFields)
  : NotificationFields :=
  if html && negb partial
  then mkNotificationFields (in_title data) (in_message data) (in_notification_type data)
                            (Some (default false (in_is_read data)))
                            (in_read_at data) (in_link data)
  else data.

(** ModelSerializer.update: assign the given fields, then [instance.save()]. *)
Definition apply_fields (data : NotificationFields) (n : Notification) : Notification :=
  mkNotification (user n)
                 (default (title n) (in_title data))
                 (default (message n) (in_message data))
                 (default (notification_type n) (in_notification_type data))
                 (default (is_read n) (in_is_read data))
                 (default (read_at n) (in_read_at data))
                 (default (link n) (in_link data))
                 (created_at n).

(** [update] (PUT, [partial] false) and [partial_update] (PATCH) of
    ModelViewSet with NotificationSerializer; [html] tells whether the body
    was sent as a form. *)
Definition NotificationViewSet_update (partial html : bool) (u : nat) (id : nat)
    (body : Validation) : M World Response :=
  let* instance := get_object u id in
  match body with
  | Accepted data =>
      let n := apply_fields (validated_data partial html data) instance in
      modify (λ w, mkWorld (<[id := n]> (notifications w))) >>
      ret (mkResponse 200 (NotificationData id n))
  | Rejected => raise ValidationError
  end.

(** The operations of the notification API on existing notifications. *)
Inductive Request : Type :=
  | Retrieve (id : nat)
  | Update (html : bool) (id : nat) (body : Validation)
  | PartialUpdate (html : bool) (id : nat) (body : Validation)
  | MarkRead (notification_ids : option (list nat))
  | MarkAllRead.

Definition handle (u : nat) (now : nat) (req : Request) : M World Response :=
  match req with
  | Retrieve id => NotificationViewSet_retrieve u id now
  | Update html id body => NotificationViewSet_update false html u id body
  | PartialUpdate html id body => NotificationViewSet_update true html u id body
  | MarkRead ids => NotificationViewSet_mark_read u ids now
  | MarkAllRead => NotificationViewSet_mark_all_read u now
  end.

(** *** Vocabulary of the statements *)

(** The values an accepted update or partial update carries for the
    writable fields; no other request carries any. *)
Definition written_fields (req : Request) : option NotificationFields :=
  match req with
  | Update html _ (Accepted data) => Some (validated_data false html data)
  | PartialUpdate html _ (Accepted data) => Some (validated_data true html data)
  | _ => None
  end.

(** Whether a request carries a value for [is_read] or [read_at]. *)
Definition writes_read_state (req : Request) : bool :=
  match written_fields req with
  | Some data =>
      bool_decide (is_Some (in_is_read data)) || bool_decide (is_Some (in_read_at data))
  | None => false
  end.

(** A notification keeps its read state from [n] to [n']. *)
Definition read_state_kept (n n' : Notification) : Prop :=
  (is_read n = true → is_read n' = true ∧ read_at n' = read_at n) ∧
  (is_Some (read_at n) → is_Some (read_at n')).

(** An inbox of user 1: an old read notification and two unread ones; and
    one unread notification of user 2. *)
Definition inbox : World :=
  mkWorld {[ 1%nat := mkNotification 1 "Welcome" "Hello" "system" true (Some 5) None 3;
             2%nat := mkNotification 1 "Price change" "Lower" "property_update" false None None 7;
             3%nat := mkNotification 1 "New message" "Hi" "new_message" false None None 9;
             4%nat := mkNotification 2 "Payment" "Paid" "payment" false None None 8 ]}.

(** *** The other operations of NotificationViewSet *)

(** [queryset] in Meta ordering. *)
Definition in_order (ns : gmap nat Notification) : list (nat * Notification) :=
  merge_sort newest_first (map_to_list ns).

(** The body of the [list] response. *)
Record NotificationList : Type := mkNotificationList {
  nl_count : nat;
  nl_unread_count : nat;
  nl_notifications : list (nat * Notification);
}.

(** [list] (views.py 53-72).  The [is_read] parameter filters as soon as it
    is given; the [type] parameter when it is not empty. *)
Definition NotificationViewSet_list (u : nat) (q : gmap string (list string))
  : M World NotificationList :=
  let* w := get_state in
  let queryset := get_queryset u (notifications w) in
  let queryset :=
    match param q "is_read" with
    | Some v => filter (λ kv, is_read kv.2 = bool_decide (Properties.lower v = "true"))
                       queryset
    | None => queryset
    end in
  let queryset :=
    if truthy (param q "type")
    then filter (λ kv, Some (notification_type kv.2) = param q "type") queryset
    else queryset in
  ret (mkNotificationList (size queryset) (size (unread queryset)) (in_order queryset)).

(** The body of the [unread_count] response. *)
Record UnreadCount : Type := mkUnreadCount {
  uc_count : nat;
  uc_unread_notifications : list (nat * Notification);
}.

(** [unread_count] (views.py 87-96) *)
Definition NotificationViewSet_unread_count (u : nat) : M World UnreadCount :=
  let* w := get_state in
  let count := size (unread (get_queryset u (notifications w))) in
  let unread_notifications := take 5 (in_order (unread (get_queryset u (notifications w)))) in
  ret (mkUnreadCount count unread_notifications).

(** [create] (views.py 149-166) with NotificationCreateSerializer, whose
    fields are title, message, notification_type and link: what the body
    gives for [is_read] and [read_at] is dropped, title and message are
    required, and the user is the one of the request.  The id is the one
    the database draws for the new row. *)
Definition NotificationViewSet_create (u : nat) (body : Validation) (now : nat)
  : M World Response :=
  match body with
  | Accepted data =>
      match in_title data, in_message data with
      | Some title, Some message =>
          let* w := get_state in
          let notification :=
            mkNotification u title message
                           (default "system" (in_notification_type data))
                           false None (default None (in_link data)) now in
          let id := fresh (dom (notifications w)) in
          modify (λ w, mkWorld (<[id := notification]> (notifications w))) >>
          ret (mkResponse 201 (NotificationData id notification))
      | _, _ => raise ValidationError
      end
  | Rejected => raise ValidationError
  end.

(** [destroy] (views.py 168-176); the response has no body. *)
Definition NotificationViewSet_destroy (u : nat) (id : nat) : M World nat :=
  let* instance := get_object u id in
  modify (λ w, mkWorld (delete id (notifications w))) >>
  ret 204%nat.

(** Every request of the notification API, and the world it leaves. *)
Inductive AnyRequest : Type :=
  | OnExisting (req : Request)
  | List (q : gmap string (list string))
  | GetUnreadCount
  | Create (body : Validation)
  | Destroy (id : nat).

Definition world_after (u : nat) (now : nat) (req : AnyRequest) (w : World) : World :=
  match req with
  | OnExisting req => (handle u now req w).2
  | List q => (NotificationViewSet_list u q w).2
  | GetUnreadCount => (NotificationViewSet_unread_count u w).2
  | Create body => (NotificationViewSet_create u body now w).2
  | Destroy id => (NotificationViewSet_destroy u id w).2
  end.

End Notifications.

(** * Theorems *)

Lemma bind_Ok_inv {S A B} (m : M S A) (f : A → M S B) s b s' :
  bind m f s = (Ok b, s') → ∃ a s1, m s = (Ok a, s1) ∧ f a s1 = (Ok b, s').
Proof.
  unfold bind. destruct (m s) as [[a|e] s1]; [eauto|discriminate].
Qed.

Lemma bind_Ok {S A B} (m : M S A) (f : A → M S B) s a s1 :
  m s = (Ok a, s1) → bind m f s = f a s1.
Proof. unfold bind. by intros ->. Qed.

Lemma bind_Raise {S A B} (m : M S A) (f : A → M S B) s e s1 :
  m s = (Raise e, s1) → bind m f s = (Raise e, s1).
Proof. unfold bind. by intros ->. Qed.

Module PropertiesFacts.
Import Properties.

Lemma get_property_or_404_run pk w :
  get_property_or_404 pk w =
    match properties w !! pk with
    | Some p => (Ok p, logged (Select "property") w)
    | None => (Raise Http404, logged (Select "property") w)
    end.
Proof.
  unfold get_property_or_404, try_except, Property_get, hit, modify, bind,
    get_state, ret, raise. simpl.
  by destruct (properties w !! pk).
Qed.

Lemma favorites_of_insert_other pk i f (fs : gmap nat Favorite) :
  fs !! i = None → fav_property f ≠ pk →
  favorites_of pk (<[i:=f]> fs) = favorites_of pk fs.
Proof.
  intros Hi Hne. unfold favorites_of.
  rewrite map_filter_insert_False by (simpl; done).
  by rewrite delete_id.
Qed.

Lemma favorites_of_delete_other pk i f (fs : gmap nat Favorite) :
  fs !! i = Some f → fav_property f ≠ pk →
  favorites_of pk (delete i fs) = favorites_of pk fs.
Proof.
  intros Hi Hne. unfold favorites_of.
  rewrite map_filter_delete. apply delete_id.
  apply map_lookup_filter_None. right. intros x Hx. simpl.
  rewrite Hi in Hx. by simplify_eq.
Qed.

Lemma before_save_favorites_count now p :
  favorites_count (Property_before_save now p) = favorites_count p.
Proof. unfold Property_before_save. by destruct (_ && _). Qed.

Lemma Favorite_save_ok f p now w i p' w' :
  Favorite_save f p now w = (Ok (i, p'), w') →
  let fs' := <[i:=f]> (favorites w) in
  let n := size (favorites_of (fav_property f) fs') in
  favorites w !! i = None ∧ favorites w' = fs' ∧
  p' = Property_before_save now (set_favorites_count n p) ∧
  cache w' = cache w ∧
  ∃ row, properties w !! fav_property f = Some row ∧
         properties w' = <[fav_property f := set_favorites_count n row]> (properties w).
Proof.
  unfold Favorite_save, Favorite_insert, count_favorites,
    Property_save_favorites_count, hit, bind, modify, get_state, ret, raise.
  simpl. intros H.
  destruct (favorites_matching _ _ _) eqn:Em; simpl in H; [|discriminate].
  destruct (properties w !! fav_property f) as [row|] eqn:Ep; simpl in H;
    [|discriminate].
  injection H as <- <- <-. simpl.
  split; [apply not_elem_of_dom, is_fresh|].
  rewrite before_save_favorites_count. repeat split; eauto.
Qed.

Lemma Favorite_delete_ok i f now w u w' :
  Favorite_delete i f now w = (Ok u, w') →
  let fs' := delete i (favorites w) in
  let n := size (favorites_of (fav_property f) fs') in
  favorites w' = fs' ∧ cache w' = cache w ∧
  ∃ row, properties w !! fav_property f = Some row ∧
         properties w' = <[fav_property f := set_favorites_count n row]> (properties w).
Proof.
  unfold Favorite_delete, Favorite_delete_row, Property_get, count_favorites,
    Property_save_favorites_count, hit, bind, modify, get_state, ret, raise.
  simpl. intros H.
  destruct (properties w !! fav_property f) as [row|] eqn:Ep; simpl in H;
    [|discriminate].
  rewrite Ep in H. simpl in H.
  rewrite before_save_favorites_count in H.
  injection H as <- <-. simpl. repeat split; eauto.
Qed.

Lemma favorites_matching_elem u pk (fs : gmap nat Favorite) i f :
  (i, f) ∈ favorites_matching u pk fs ↔
  fs !! i = Some f ∧ fav_user f = u ∧ fav_property f = pk.
Proof.
  unfold favorites_matching. rewrite elem_of_map_to_list, map_lookup_filter_Some.
  simpl. tauto.
Qed.

Lemma FavoriteViewSet_create_ok user pk now w r w' :
  pk ≠ "" →
  FavoriteViewSet_create user (Some pk) now w = (Ok r, w') →
  toggled user pk now w w' r.
Proof.
  intros Hpk. unfold FavoriteViewSet_create.
  destruct (decide (pk = "")) as [|_]; [done|].
  intros H. apply bind_Ok_inv in H as (p0 & w1 & Hget & H).
  rewrite get_property_or_404_run in Hget.
  destruct (properties w !! pk) as [p0'|] eqn:Ep; [|discriminate].
  injection Hget as -> <-.
  apply bind_Ok_inv in H as ([[[i f] p1] created] & w2 & Hgc & H).
  unfold Favorite_get_or_create in Hgc.
  apply bind_Ok_inv in Hgc as ([] & w3 & Hhit & Hgc).
  injection Hhit as <-.
  apply bind_Ok_inv in Hgc as (w4 & w5 & Hst & Hgc).
  injection Hst as <- <-. simpl in Hgc.
  destruct (favorites_matching user pk (favorites w)) as [|[i0 f0] [|]] eqn:Em;
    [| |discriminate].
  - (* no row: create *)
    apply bind_Ok_inv in Hgc as ([i1 p'] & w6 & Hat & Hgc).
    injection Hgc as <- <- <- <- <-. simpl in H. injection H as <- <-.
    unfold atomic in Hat.
    match type of Hat with context [Favorite_save ?f ?p ?w0] =>
      destruct (Favorite_save f p w0) as [[[i2 p2]|e] w7] eqn:Es end;
      [|discriminate].
    injection Hat as -> -> ->.
    apply Favorite_save_ok in Es. simpl in Es.
    destruct Es as (Hi & Hf & -> & Hc & row & Hrow & Hp).
    rewrite Ep in Hrow. injection Hrow as <-.
    by eapply toggled_on.
  - (* one row: delete *)
    injection Hgc as <- <- <- <- <-. simpl in H.
    apply bind_Ok_inv in H as ([] & w6 & Hd & H). injection H as <- <-.
    apply Favorite_delete_ok in Hd. simpl in Hd.
    assert (Hin : (i0, f0) ∈ favorites_matching user pk (favorites w))
      by (rewrite Em; apply list_elem_of_here).
    apply favorites_matching_elem in Hin as (Hi & Hu & Hfp).
    rewrite Hfp in Hd. destruct Hd as (Hf & Hc & row & Hrow & Hp).
    rewrite Ep in Hrow. injection Hrow as <-.
    by eapply toggled_off.
Qed.

Lemma FavoriteViewSet_destroy_ok user i now w r w' :
  FavoriteViewSet_destroy user i now w = (Ok r, w') →
  ∃ f p0,
    let pk := fav_property f in
    let n := size (favorites_of pk (delete i (favorites w))) in
    favorites w !! i = Some f ∧ fav_user f = user ∧
    properties w !! pk = Some p0 ∧
    favorites w' = delete i (favorites w) ∧
    properties w' = <[pk := set_favorites_count n p0]> (properties w) ∧
    cache w' = delete ("favorites_list_" +:+ pretty user) (cache w) ∧
    r = mkResponse HTTP_204_NO_CONTENT Empty.
Proof.
  unfold FavoriteViewSet_destroy. intros H.
  apply bind_Ok_inv in H as (f & w1 & Hget & H).
  unfold FavoriteViewSet_get_object in Hget.
  apply bind_Ok_inv in Hget as ([] & w2 & Hhit & Hget). injection Hhit as <-.
  apply bind_Ok_inv in Hget as (w3 & w4 & Hst & Hget). injection Hst as <- <-.
  simpl in Hget. destruct (favorites w !! i) as [f'|] eqn:Ei; [|discriminate].
  destruct (decide (fav_user f' = user)) as [Hu|]; [|discriminate].
  injection Hget as -> <-.
  apply bind_Ok_inv in H as ([] & w5 & Hd & H). injection H as <- <-.
  unfold FavoriteViewSet_perform_destroy in Hd.
  apply bind_Ok_inv in Hd as ([] & w6 & Hd & H). injection H as <-.
  apply Favorite_delete_ok in Hd. simpl in Hd.
  destruct Hd as (Hf & Hc & row & Hrow & Hp).
  exists f, row. simpl. rewrite Hc. by repeat split.
Qed.

Lemma recount_in_sync (w w' : World) pk p0 :
  properties w !! pk = Some p0 →
  properties w' =
    <[pk := set_favorites_count (size (favorites_of pk (favorites w'))) p0]> (properties w) →
  ∃ p0, properties w !! pk = Some p0 ∧
        let n := size (favorites_of pk (favorites w')) in
        properties w' = <[pk := set_favorites_count n p0]> (properties w) ∧
        (favorites_count <$> properties w' !! pk) = Some n.
Proof.
  intros Hp0 Hp. exists p0. split; [done|]. split; [done|].
  by rewrite Hp, lookup_insert_eq.
Qed.

Lemma in_sync_frame (w w' : World) pk pk' n p0 :
  properties w' = <[pk := set_favorites_count n p0]> (properties w) →
  n = size (favorites_of pk (favorites w')) →
  (pk' ≠ pk → favorites_of pk' (favorites w') = favorites_of pk' (favorites w)) →
  in_sync w pk' → in_sync w' pk'.
Proof.
  intros Hp Hn Hf Hs p. rewrite Hp. destruct (decide (pk' = pk)) as [->|Hne].
  - rewrite lookup_insert_eq. intros [= <-]. by simpl.
  - rewrite lookup_insert_ne by done. rewrite Hf by done. apply Hs.
Qed.

(** C1.  When a Favorite create or delete made through the API completes,
    the property the written row refers to has [favorites_count] equal to the
    number of Favorite rows referencing it (whatever the counter was before),
    its row differing from the one before in that one field only; and every
    property whose counter agreed with its rows before the request still
    agrees after it. *)
Theorem favorites_count_matches_rows (q : FavoriteWrite) (w w' : World) (r : Response) :
  favorites_api q w = (Ok r, w') →
  (∀ pk, written_property q w = Some pk →
     ∃ p0, properties w !! pk = Some p0 ∧
           let n := size (favorites_of pk (favorites w')) in
           properties w' = <[pk := set_favorites_count n p0]> (properties w) ∧
           (favorites_count <$> properties w' !! pk) = Some n) ∧
  (∀ pk, in_sync w pk → in_sync w' pk).
Proof.
  destruct q as [user [pk|] now|user i now]; unfold favorites_api, written_property;
    intros H.
  - destruct (decide (pk = "")) as [->|Hpk].
    { unfold FavoriteViewSet_create in H. rewrite decide_True in H by done.
      injection H as <- <-. by split. }
    apply FavoriteViewSet_create_ok in H; [|done].
    destruct H as [p0 i f n Hp0 Hm Hi Hf Hp Hc|p0 i f n Hp0 Hm Hf Hp Hc].
    + subst n. rewrite <-Hf in Hp. split.
      * intros pk' [= <-]. by eapply recount_in_sync.
      * intros pk'. eapply in_sync_frame; [done..|].
        intros Hne. rewrite Hf. by apply favorites_of_insert_other.
    + subst n. rewrite <-Hf in Hp.
      assert (Hin : (i, f) ∈ favorites_matching user pk (favorites w))
        by (rewrite Hm; apply list_elem_of_here).
      apply favorites_matching_elem in Hin as (Hi & Hu & Hfp).
      split.
      * intros pk' [= <-]. by eapply recount_in_sync.
      * intros pk'. eapply in_sync_frame; [done..|].
        intros Hne. rewrite Hf. eapply favorites_of_delete_other; [done|].
        by rewrite Hfp.
  - injection H as <- <-. by split.
  - apply FavoriteViewSet_destroy_ok in H as (f & p0 & Hi & Hu & Hp0 & Hf & Hp & Hc & ->).
    rewrite <-Hf in Hp. rewrite Hi. simpl. split.
    + intros pk' [= <-]. by eapply recount_in_sync.
    + intros pk'. eapply in_sync_frame; [done..|].
      intros Hne. rewrite Hf. by eapply favorites_of_delete_other.
Qed.

Lemma favorites_count_matches_rows_witness :
  let q := PostFavorite 2 (Some "p1") 20 in
  let out := favorites_api q test_world in
  favorites_api q test_world = (Ok (response_of (mkResponse 0 Empty) out), out.2) ∧
  (∀ pk, written_property q test_world = Some pk →
     ∃ p0, properties test_world !! pk = Some p0 ∧
           let n := size (favorites_of pk (favorites out.2)) in
           properties out.2 = <[pk := set_favorites_count n p0]> (properties test_world) ∧
           (favorites_count <$> properties out.2 !! pk) = Some n) ∧
  (∀ pk, in_sync test_world pk → in_sync out.2 pk).
Proof.
  intros q out.
  assert (H : favorites_api q test_world
              = (Ok (response_of (mkResponse 0 Empty) out), out.2))
    by (vm_compute; reflexivity).
  split; [exact H|].
  exact (favorites_count_matches_rows q test_world _ _ H).
Defined.

(** The toggle completes whenever the property exists and at most one
    Favorite row matches the pair. *)
Lemma FavoriteViewSet_create_total user pk now w p0 :
  pk ≠ "" →
  properties w !! pk = Some p0 →
  (length (favorites_matching user pk (favorites w)) ≤ 1)%nat →
  ∃ r w', FavoriteViewSet_create user (Some pk) now w = (Ok r, w').
Proof.
  intros Hpk Ep Hlen. unfold FavoriteViewSet_create.
  rewrite decide_False by done.
  erewrite bind_Ok; [|by rewrite get_property_or_404_run, Ep].
  unfold Favorite_get_or_create, hit, modify, get_state.
  unfold bind at 2. unfold bind at 2. simpl.
  destruct (favorites_matching user pk (favorites w)) as [|[i f] [|]] eqn:Em;
    [| |simpl in Hlen; lia].
  - unfold Favorite_save, Favorite_insert, count_favorites,
      Property_save_favorites_count, atomic, hit, bind, modify, get_state, ret, raise.
    repeat (simpl; rewrite ?Em, ?Ep). by eexists _, _.
  - assert (Hin : (i, f) ∈ favorites_matching user pk (favorites w))
      by (rewrite Em; apply list_elem_of_here).
    apply favorites_matching_elem in Hin as (Hi & Hu & Hfp).
    unfold Favorite_delete, Favorite_delete_row, Property_get, count_favorites,
      Property_save_favorites_count, hit, bind, modify, get_state, ret, raise.
    repeat (simpl; rewrite ?Em, ?Hfp, ?Ep). by eexists _, _.
Qed.

Lemma favorites_matching_insert_new user pk now i (fs : gmap nat Favorite) :
  favorites_matching user pk fs = [] →
  favorites_matching user pk (<[i := mkFavorite user pk now]> fs)
    = [(i, mkFavorite user pk now)].
Proof.
  unfold favorites_matching. intros Hm%map_to_list_empty_iff.
  rewrite map_filter_insert_True by done.
  rewrite Hm, insert_empty. apply map_to_list_singleton.
Qed.

Lemma favorites_of_insert_same pk i f (fs : gmap nat Favorite) :
  fs !! i = None → fav_property f = pk →
  size (favorites_of pk (<[i:=f]> fs)) = S (size (favorites_of pk fs)).
Proof.
  intros Hi Hpk. unfold favorites_of.
  rewrite map_filter_insert_True by done.
  apply map_size_insert_None, map_lookup_filter_None. by left.
Qed.

(** A toggle that creates followed by a toggle by the same user: both
    complete, and the tables after each are as follows. *)
Lemma toggle_on_then_off user pk now1 now2 w p0 :
  pk ≠ "" →
  properties w !! pk = Some p0 →
  favorites_matching user pk (favorites w) = [] →
  let f := mkFavorite user pk now1 in
  let n := size (favorites_of pk (favorites w)) in
  ∃ i r1 w1 r2 w2,
    FavoriteViewSet_create user (Some pk) now1 w = (Ok r1, w1) ∧
    FavoriteViewSet_create user (Some pk) now2 w1 = (Ok r2, w2) ∧
    favorites w !! i = None ∧
    r1 = mkResponse HTTP_201_CREATED
           (FavoriteToggled "Ajouté aux favoris" true
              (Some (serialize_favorite i f
                       (Property_before_save now1 (set_favorites_count (S n) p0))))) ∧
    favorites w1 = <[i:=f]> (favorites w) ∧
    properties w1 = <[pk := set_favorites_count (S n) p0]> (properties w) ∧
    r2 = mkResponse HTTP_200_OK (FavoriteToggled "Retiré des favoris" false None) ∧
    favorites w2 = favorites w ∧
    properties w2 = <[pk := set_favorites_count n p0]> (properties w).
Proof.
  intros Hpk Ep Em f n.
  destruct (FavoriteViewSet_create_total user pk now1 w p0) as (r1 & w1 & H1);
    [done|done|by rewrite Em; simpl; lia|].
  pose proof (FavoriteViewSet_create_ok _ _ _ _ _ _ Hpk H1) as T1.
  destruct T1 as [p0' i f' n1 Ep' _ Hi Hf1 Hp1 Hc1|p0' i f' n1 _ Em' _ _ _];
    [|by rewrite Em in Em'].
  rewrite Ep in Ep'. injection Ep' as <-.
  assert (Hn1 : n1 = S n) by (by apply favorites_of_insert_same).
  assert (Em1 : favorites_matching user pk (favorites w1) = [(i, f)])
    by (rewrite Hf1; by apply favorites_matching_insert_new).
  assert (Ep1 : properties w1 !! pk = Some (set_favorites_count n1 p0))
    by (by rewrite Hp1, lookup_insert_eq).
  destruct (FavoriteViewSet_create_total user pk now2 w1 _ Hpk Ep1) as (r2 & w2 & H2);
    [by rewrite Em1; simpl; lia|].
  pose proof (FavoriteViewSet_create_ok _ _ _ _ _ _ Hpk H2) as T2.
  destruct T2 as [p1 i2 f2 n2 _ Em2 _ _ _ _|p1 i2 f2 n2 Ep2 Em2 Hf2 Hp2 Hc2];
    [by rewrite Em1 in Em2|].
  rewrite Em1 in Em2. injection Em2 as <- <-.
  rewrite Ep1 in Ep2. injection Ep2 as <-.
  assert (Hn2 : n2 = n) by (subst n2 n; by rewrite Hf1, delete_insert_id).
  eexists i, _, w1, _, w2. split; [exact H1|]. split; [exact H2|].
  split; [done|]. split; [by rewrite Hn1|]. split; [done|].
  split; [by rewrite Hp1, Hn1|]. split; [done|].
  split; [by rewrite Hf2, Hf1, delete_insert_id|].
  by rewrite Hp2, Hp1, insert_insert_eq, Hn2.
Qed.

(** C4.  Starting with no Favorite row for the pair (user, property), two
    calls of the toggle in sequence both complete: the first creates the row
    and reports the property with [favorites_count] one more than the rows
    it had (1 when it had none), the second deletes the row; afterwards the
    favorite table is the one before the two calls, no row for the pair
    remains, the counter equals the number of rows the property had before
    (0 when it had none), and the property table is the one before the two
    calls whenever the counter agreed with the rows at the start. *)
Theorem toggle_twice_restores_membership
    (user : nat) (pk : string) (now1 now2 : nat) (w : World) (p0 : Property) :
  pk ≠ "" →
  properties w !! pk = Some p0 →
  favorites_matching user pk (favorites w) = [] →
  let n := size (favorites_of pk (favorites w)) in
  ∃ r1 w1 r2 w2 fd,
    FavoriteViewSet_create user (Some pk) now1 w = (Ok r1, w1) ∧
    r1 = mkResponse HTTP_201_CREATED
           (FavoriteToggled "Ajouté aux favoris" true (Some fd)) ∧
    d_favorites_count (fd_property fd) = S n ∧
    (favorites_count <$> properties w1 !! pk) = Some (S n) ∧
    length (favorites_matching user pk (favorites w1)) = 1 ∧
    FavoriteViewSet_create user (Some pk) now2 w1 = (Ok r2, w2) ∧
    r2 = mkResponse HTTP_200_OK (FavoriteToggled "Retiré des favoris" false None) ∧
    favorites w2 = favorites w ∧
    favorites_matching user pk (favorites w2) = [] ∧
    properties w2 = <[pk := set_favorites_count n p0]> (properties w) ∧
    (favorites_count p0 = n → properties w2 = properties w).
Proof.
  intros Hpk Ep Em n.
  destruct (toggle_on_then_off user pk now1 now2 w p0 Hpk Ep Em)
    as (i & r1 & w1 & r2 & w2 & H1 & H2 & Hi & -> & Hf1 & Hp1 & -> & Hf2 & Hp2).
  fold n in Hp1, Hp2.
  eexists _, w1, _, w2, _. split; [exact H1|].
  split; [reflexivity|]. simpl.
  split; [by rewrite before_save_favorites_count|].
  split; [by rewrite Hp1, lookup_insert_eq|].
  split; [by rewrite Hf1, (favorites_matching_insert_new _ _ _ _ _ Em)|].
  split; [exact H2|]. split; [done|]. split; [done|].
  split; [by rewrite Hf2|]. split; [done|].
  intros Hsync. rewrite Hp2. apply insert_id. rewrite Ep. f_equal.
  destruct p0; simpl in *. by rewrite Hsync.
Qed.

Lemma toggle_twice_restores_membership_witness :
  let n := size (favorites_of "p1" (favorites test_world)) in
  ∃ r1 w1 r2 w2 fd,
    FavoriteViewSet_create 2 (Some "p1") 20 test_world = (Ok r1, w1) ∧
    r1 = mkResponse HTTP_201_CREATED
           (FavoriteToggled "Ajouté aux favoris" true (Some fd)) ∧
    d_favorites_count (fd_property fd) = S n ∧
    (favorites_count <$> properties w1 !! "p1") = Some (S n) ∧
    length (favorites_matching 2 "p1" (favorites w1)) = 1 ∧
    FavoriteViewSet_create 2 (Some "p1") 30 w1 = (Ok r2, w2) ∧
    r2 = mkResponse HTTP_200_OK (FavoriteToggled "Retiré des favoris" false None) ∧
    favorites w2 = favorites test_world ∧
    favorites_matching 2 "p1" (favorites w2) = [] ∧
    properties w2 = <[ "p1" := set_favorites_count n test_property]> (properties test_world) ∧
    (favorites_count test_property = n → properties w2 = properties test_world).
Proof.
  apply (toggle_twice_restores_membership 2 "p1" 20 30 test_world test_property).
  - discriminate.
  - reflexivity.
  - reflexivity.
Defined.

(** C4, as stated, fails: the counter need not return to its pre-toggle
    value.  User 1 adds property p1 to the favorites and then moves that
    favorite to property p3 with PATCH /favorites/0/ (property_id is the
    writable field of FavoriteSerializer); [Favorite.save] recounts p3, the
    property the row now references, and p1 keeps its counter 1 with no row
    left.  User 2 then toggles p1 twice: both calls complete, no row for the
    pair remains, and the counter of p1 is 0, not the 1 it was before the
    two calls. *)
Lemma toggle_twice_after_moved_favorite :
  let added := FavoriteViewSet_create 1 (Some "p1") 20 catalogue in
  let moved := FavoriteViewSet_update true 1 0 (Some "p3") 21 added.2 in
  let on := FavoriteViewSet_create 2 (Some "p1") 22 moved.2 in
  let off := FavoriteViewSet_create 2 (Some "p1") 23 on.2 in
  (∃ r, added.1 = Ok r ∧ status_code r = HTTP_201_CREATED) ∧
  (∃ r, moved.1 = Ok r ∧ status_code r = HTTP_200_OK) ∧
  favorites_of "p1" (favorites moved.2) = ∅ ∧
  (favorites_count <$> properties moved.2 !! "p1") = Some 1%nat ∧
  (∃ r, on.1 = Ok r ∧ status_code r = HTTP_201_CREATED) ∧
  off.1 = Ok (mkResponse HTTP_200_OK (FavoriteToggled "Retiré des favoris" false None)) ∧
  favorites_matching 2 "p1" (favorites off.2) = [] ∧
  (favorites_count <$> properties off.2 !! "p1") = Some 0%nat.
Proof.
  split; [eexists; by vm_compute|]. split; [eexists; by vm_compute|].
  split; [by vm_compute|]. split; [by vm_compute|].
  split; [eexists; by vm_compute|]. by vm_compute.
Qed.

(** *** The lookups of prefetch_related *)

Lemma prefetch_related_objects_run instances w :
  prefetch_related_objects instances w =
    match instances with
    | [] => (Ok tt, w)
    | _ :: _ => (Raise (AttributeError "Property" "amenities"),
                 logged (Select "propertyimage") w)
    end.
Proof. by destruct instances. Qed.

Lemma get_object_run q pk w :
  get_object q pk w =
    match properties w !! pk with
    | Some p => if get_queryset q p
                then (Raise (AttributeError "Property" "amenities"),
                      logged (Select "propertyimage") (logged (Select "property") w))
                else (Raise Http404, logged (Select "property") w)
    | None => (Raise Http404, logged (Select "property") w)
    end.
Proof.
  unfold get_object. unfold bind at 1, hit at 1, modify at 1. unfold bind at 1, get_state at 1.
  cbn [properties with_queries].
  destruct (properties w !! pk) as [p|]; [|done].
  destruct (get_queryset q p); [|done].
  unfold bind. by rewrite prefetch_related_objects_run.
Qed.

(** [get_object] never returns: it answers 404 for a property outside the
    queryset and fails on the prefetch for one inside. *)
Lemma get_object_raises q pk w :
  ∃ e w', get_object q pk w = (Raise e, w') ∧ same_tables_and_cache w w'.
Proof.
  rewrite get_object_run. destruct (properties w !! pk) as [p|]; [|by eexists _, _].
  destruct (get_queryset q p); by eexists _, _.
Qed.

Lemma rows_of_elem keep (ps : gmap string Property) pk p :
  (pk, p) ∈ rows_of keep ps ↔ ps !! pk = Some p ∧ keep p = true.
Proof.
  unfold rows_of. by rewrite elem_of_map_to_list, map_lookup_filter_Some.
Qed.

Lemma rows_of_nil keep (ps : gmap string Property) :
  rows_of keep ps = [] ↔ ∀ pk p, ps !! pk = Some p → keep p = false.
Proof.
  split.
  - intros E pk p Hp. destruct (keep p) eqn:Hk; [|done].
    assert (Hin : (pk, p) ∈ rows_of keep ps) by (by apply rows_of_elem).
    rewrite E in Hin. by apply elem_of_nil in Hin.
  - intros H. destruct (rows_of keep ps) as [|[pk p] l] eqn:E; [done|].
    assert (Hin : (pk, p) ∈ rows_of keep ps) by (rewrite E; apply list_elem_of_here).
    apply rows_of_elem in Hin as [Hp Hk]. by rewrite (H _ _ Hp) in Hk.
Qed.

Lemma count_run keep w :
  count keep w = (Ok (length (rows_of keep (properties w))), logged (Select "property") w).
Proof. done. Qed.

Lemma fetch_run keep low high w :
  fetch keep low high w =
    if bool_decide (high ≤ low)%nat then (Ok [], w)
    else match take (high - low) (drop low (rows_of keep (properties w))) with
         | [] => (Ok [], logged (Select "property") w)
         | _ :: _ => (Raise (AttributeError "Property" "amenities"),
                      logged (Select "propertyimage") (logged (Select "property") w))
         end.
Proof.
  unfold fetch. case_bool_decide; [done|].
  unfold bind at 1, hit at 1, modify at 1. unfold bind at 1, get_state at 1.
  cbn [properties with_queries]. unfold bind. rewrite prefetch_related_objects_run.
  by destruct (take _ _).
Qed.

(** A fetch that completes has returned no row. *)
Lemma fetch_Ok keep low high w rows w' :
  fetch keep low high w = (Ok rows, w') → rows = [] ∧ same_tables_and_cache w w'.
Proof.
  rewrite fetch_run. case_bool_decide; [by intros [= <- <-]|].
  destruct (take _ _); [by intros [= <- <-]|discriminate].
Qed.

Lemma fetch_same keep low high w :
  same_tables_and_cache w (fetch keep low high w).2.
Proof.
  rewrite fetch_run. case_bool_decide; [done|]. by destruct (take _ _).
Qed.

Lemma same_tables_and_cache_trans w1 w2 w3 :
  same_tables_and_cache w1 w2 → same_tables_and_cache w2 w3 →
  same_tables_and_cache w1 w3.
Proof. intros (? & ? & ?) (? & ? & ?). repeat split; congruence. Qed.

Lemma bind_same {A B} (m : M World A) (f : A → M World B) w0 w :
  same_tables_and_cache w0 (m w).2 →
  (∀ a w1, same_tables_and_cache w0 w1 → same_tables_and_cache w0 (f a w1).2) →
  same_tables_and_cache w0 (bind m f w).2.
Proof.
  intros Hm Hf. unfold bind. destruct (m w) as [[a|e] w1]; [|done]. by apply Hf.
Qed.

Section Pagination.

Variable int : string → option Z.

Lemma paginate_queryset_same q keep w :
  same_tables_and_cache w (paginate_queryset int q keep w).2.
Proof.
  unfold paginate_queryset. apply bind_same.
  - destruct (param q "page") as [s|].
    + case_bool_decide; [by apply bind_same|].
      case_bool_decide; [by apply bind_same|].
      destruct (int s) as [number|]; [|done].
      destruct (number <? 1)%Z; [done|]. by apply bind_same.
    + by apply bind_same.
  - intros [number c] w0 H0. destruct (_ <? _)%Z; [done|].
    apply bind_same; [|done].
    eapply same_tables_and_cache_trans; [done|apply fetch_same].
Qed.

(** A page that is returned holds no row. *)
Lemma paginate_queryset_Ok q keep w c rows w' :
  paginate_queryset int q keep w = (Ok (c, rows), w') → rows = [].
Proof.
  unfold paginate_queryset. intros ([number c0] & w0 & _ & H)%bind_Ok_inv.
  destruct (_ <? _)%Z; [discriminate|].
  apply bind_Ok_inv in H as (rows0 & w1 & Hf & H). injection H as _ <- _.
  by apply fetch_Ok in Hf as [-> _].
Qed.

End Pagination.

(** *** The list and the featured selection *)

Lemma PropertyViewSet_list_run hash int q w :
  PropertyViewSet_list hash int q w =
    match cache w !! _get_cache_key hash "property_list" q with
    | Some payload => (Ok (mkResponse HTTP_200_OK (Data payload)), w)
    | None =>
        match paginate_queryset int q (get_queryset q) w with
        | (Ok page, w1) =>
            (Ok (mkResponse HTTP_200_OK (Data (Page page.1 (serialize_rows page.2)))),
             with_cache (<[_get_cache_key hash "property_list" q
                           := Page page.1 (serialize_rows page.2)]> (cache w1)) w1)
        | (Raise e, w1) => (Raise e, w1)
        end
    end.
Proof.
  unfold PropertyViewSet_list. unfold bind at 1, cache_get at 1, bind at 1, get_state, ret.
  destruct (cache w !! _); [done|]. unfold bind.
  by destruct (paginate_queryset _ _ _ _) as [[page|e] w1].
Qed.

Lemma PropertyViewSet_featured_run q w :
  PropertyViewSet_featured q w =
    match cache w !! "property_featured" with
    | Some payload => (Ok (mkResponse HTTP_200_OK (Data payload)), w)
    | None =>
        match fetch (λ p, get_queryset q p && is_featured p) 0 8 w with
        | (Ok rows, w1) =>
            (Ok (mkResponse HTTP_200_OK (Data (Many (serialize_rows rows)))),
             with_cache (<["property_featured" := Many (serialize_rows rows)]> (cache w1)) w1)
        | (Raise e, w1) => (Raise e, w1)
        end
    end.
Proof.
  unfold PropertyViewSet_featured. unfold bind at 1, cache_get at 1, bind at 1, get_state, ret.
  destruct (cache w !! _); [done|]. unfold bind.
  by destruct (fetch _ _ _ _) as [[rows|e] w1].
Qed.

Lemma PropertyViewSet_stats_run w :
  PropertyViewSet_stats w =
    match cache w !! "property_stats" with
    | Some payload => (Ok (mkResponse HTTP_200_OK (Data payload)), w)
    | None =>
        let data := Stats (aggregate_stats (properties w)) in
        (Ok (mkResponse HTTP_200_OK (Data data)),
         with_cache (<["property_stats" := data]> (cache w)) (logged (Select "property") w))
    end.
Proof.
  unfold PropertyViewSet_stats, cache_get, cache_set, hit, modify, bind, get_state, ret.
  simpl. by destruct (cache w !! _).
Qed.

(** What a list request that completes has answered: the cached payload,
    or, from the store, a page without rows, which it has cached. *)
Lemma PropertyViewSet_list_Ok hash int q w r w' :
  PropertyViewSet_list hash int q w = (Ok r, w') →
  let key := _get_cache_key hash "property_list" q in
  (∃ payload, cache w !! key = Some payload ∧
              r = mkResponse HTTP_200_OK (Data payload) ∧ w' = w) ∨
  (∃ c, cache w !! key = None ∧
        r = mkResponse HTTP_200_OK (Data (Page c [])) ∧
        properties w' = properties w ∧ favorites w' = favorites w ∧
        cache w' = <[key := Page c []]> (cache w)).
Proof.
  rewrite PropertyViewSet_list_run. intros H key. fold key in H.
  destruct (cache w !! key) as [payload|] eqn:E.
  { injection H as <- <-. left. by exists payload. }
  pose proof (paginate_queryset_same int q (get_queryset q) w) as (Hp & Hf & Hc).
  destruct (paginate_queryset _ _ _ _) as [[[c rows]|e] w1] eqn:Ep; [|discriminate].
  apply paginate_queryset_Ok in Ep as ->. injection H as <- <-. right.
  exists c. simpl in *. by rewrite Hc.
Qed.

Lemma PropertyViewSet_list_Raise hash int q w e w' :
  PropertyViewSet_list hash int q w = (Raise e, w') → same_tables_and_cache w w'.
Proof.
  rewrite PropertyViewSet_list_run. destruct (cache w !! _); [discriminate|].
  pose proof (paginate_queryset_same int q (get_queryset q) w) as H.
  destruct (paginate_queryset _ _ _ _) as [[page|e'] w1]; [discriminate|].
  by intros [= _ <-].
Qed.

Lemma PropertyViewSet_featured_Ok q w r w' :
  PropertyViewSet_featured q w = (Ok r, w') →
  (∃ payload, cache w !! "property_featured" = Some payload ∧
              r = mkResponse HTTP_200_OK (Data payload) ∧ w' = w) ∨
  (cache w !! "property_featured" = None ∧
   r = mkResponse HTTP_200_OK (Data (Many [])) ∧
   properties w' = properties w ∧ favorites w' = favorites w ∧
   cache w' = <["property_featured" := Many []]> (cache w)).
Proof.
  rewrite PropertyViewSet_featured_run.
  destruct (cache w !! "property_featured") as [payload|] eqn:E.
  { intros [= <- <-]. left. by exists payload. }
  destruct (fetch _ _ _ _) as [[rows|e] w1] eqn:Ef; [|discriminate].
  apply fetch_Ok in Ef as (-> & Hp & Hf & Hc). intros [= <- <-]. right.
  simpl. by rewrite Hc.
Qed.

Lemma PropertyViewSet_featured_Raise q w e w' :
  PropertyViewSet_featured q w = (Raise e, w') → same_tables_and_cache w w'.
Proof.
  rewrite PropertyViewSet_featured_run. destruct (cache w !! _); [discriminate|].
  pose proof (fetch_same (λ p, get_queryset q p && is_featured p) 0 8 w) as H.
  destruct (fetch _ _ _ _) as [[rows|e'] w1]; [discriminate|].
  by intros [= _ <-].
Qed.

(** *** Detail views and the view counter *)




Lemma PropertyViewSet_retrieve_run q pk w :
  PropertyViewSet_retrieve q pk w =
    match properties w !! pk with
    | Some p => if get_queryset q p
                then (Raise (AttributeError "Property" "amenities"),
                      logged (Select "propertyimage") (logged (Select "property") w))
                else (Raise Http404, logged (Select "property") w)
    | None => (Raise Http404, logged (Select "property") w)
    end.
Proof.
  unfold PropertyViewSet_retrieve, bind. rewrite get_object_run.
  destruct (properties w !! pk) as [p|]; [|done]. by destruct (get_queryset q p).
Qed.




(** *** Which properties the read endpoints serve *)

Lemma get_queryset_status q p :
  get_queryset q p = true → status p ∈ ["for_sale"; "for_rent"].
Proof.
  unfold get_queryset. intros H.
  repeat (apply andb_prop in H as [H _]). by apply bool_decide_eq_true in H.
Qed.

Lemma hidden_status_not_served q p :
  status p ∈ ["sold"; "rented"; "pending"] → get_queryset q p = false.
Proof.
  intros Hs. destruct (get_queryset q p) eqn:E; [|done].
  apply get_queryset_status in E.
  destruct p as [t st o f v vc fc c pa]. simpl in *.
  repeat (apply elem_of_cons in Hs as [->|Hs]); [..|by apply elem_of_nil in Hs];
    repeat (apply elem_of_cons in E as [E|E]);
    try discriminate E; by apply elem_of_nil in E.
Qed.

Lemma FavoriteViewSet_create_failed user property_id now w e w' :
  FavoriteViewSet_create user property_id now w = (Raise e, w') →
  same_tables_and_cache w w'.
Proof.
  destruct property_id as [pk|]; [|discriminate].
  destruct (decide (pk = "")) as [->|Hpk].
  { unfold FavoriteViewSet_create. rewrite decide_True by done. discriminate. }
  destruct (properties w !! pk) as [p0|] eqn:Ep.
  - destruct (favorites_matching user pk (favorites w)) as [|x [|y l]] eqn:Em.
    + destruct (FavoriteViewSet_create_total user pk now w p0) as (r & w1 & ->);
        [done|done|rewrite Em; simpl; lia|discriminate].
    + destruct (FavoriteViewSet_create_total user pk now w p0) as (r & w1 & ->);
        [done|done|rewrite Em; simpl; lia|discriminate].
    + unfold FavoriteViewSet_create. rewrite decide_False by done.
      erewrite bind_Ok; [|by rewrite get_property_or_404_run, Ep].
      erewrite bind_Raise; cycle 1.
      { unfold Favorite_get_or_create, hit, modify, get_state, bind, raise. simpl.
        rewrite Em. destruct x. reflexivity. }
      by intros [= _ <-].
  - unfold FavoriteViewSet_create. rewrite decide_False by done.
    erewrite bind_Raise; cycle 1.
    { by rewrite get_property_or_404_run, Ep. }
    by intros [= _ <-].
Qed.

Lemma FavoriteViewSet_destroy_failed user i now w e w' :
  FavoriteViewSet_destroy user i now w = (Raise e, w') →
  same_tables_and_cache w w'.
Proof.
  unfold FavoriteViewSet_destroy, FavoriteViewSet_get_object, FavoriteViewSet_perform_destroy,
    Favorite_delete, Favorite_delete_row, Property_get, count_favorites,
    Property_save_favorites_count, hit, bind, modify, get_state, ret, raise. simpl.
  destruct (favorites w !! i) as [f|]; simpl; [|by intros [= _ <-]].
  destruct (decide (fav_user f = user)); simpl; [|by intros [= _ <-]].
  destruct (properties w !! fav_property f) as [p0|] eqn:Ep; simpl;
    [|by intros [= _ <-]].
  rewrite Ep. simpl. discriminate.
Qed.

(** What PUT or PATCH /favorites/<id>/ does to the world: the cache is as
    it was, and the property table is as it was but for the counter of at
    most one property. *)
Lemma FavoriteViewSet_update_world partial user i property_id now w :
  let w' := (FavoriteViewSet_update partial user i property_id now w).2 in
  cache w' = cache w ∧
  (properties w' = properties w ∨
   ∃ pk row n, properties w !! pk = Some row ∧
               properties w' = <[pk := set_favorites_count n row]> (properties w)).
Proof.
  unfold FavoriteViewSet_update, FavoriteViewSet_get_object, Favorite_update_row,
    Property_get, count_favorites, Property_save_favorites_count, hit, bind, modify,
    get_state, ret, raise. simpl.
  destruct (favorites w !! i) as [f|]; simpl; [|by split; [|left]].
  destruct (decide (fav_user f = user)); simpl; [|by split; [|left]].
  destruct property_id as [pk|]; simpl.
  - destruct (properties w !! pk) as [row|] eqn:Ep; simpl; [|by split; [|left]].
    destruct (favorites_matching _ _ _); simpl; [|by split; [|left]].
    rewrite Ep. simpl. rewrite Ep. simpl. split; [done|]. right. by eexists _, _, _.
  - destruct partial; simpl; [|by split; [|left]].
    destruct (properties w !! fav_property f) as [row|] eqn:Ep; simpl; [|by split; [|left]].
    rewrite Ep. simpl.
    destruct (favorites_matching _ _ _); simpl; [|by split; [|left]].
    rewrite Ep. simpl. split; [done|]. right. by eexists _, _, _.
Qed.

Lemma invalidate_cache_subseteq w :
  cache (_invalidate_property_cache w).2 ⊆ cache w.
Proof.
  unfold _invalidate_property_cache, cache_delete_pattern, cache_delete, bind, modify.
  cbn -[glob_match]. etrans; [apply delete_subseteq|apply map_filter_subseteq].
Qed.

(** Whatever a request leaves in the cache was there before or carries no
    property row. *)
Lemma api_cache hash int req w key payload :
  cache (api hash int req w).2 !! key = Some payload →
  cache w !! key = Some payload ∨ results_of payload = [].
Proof.
  destruct req as [q|q pk|q| |pk user data now|q pk data now|q pk|fw|user property_id
                  |partial user i property_id now]; cbn [api].
  - destruct (PropertyViewSet_list hash int q w) as [[r|e] w'] eqn:E; simpl.
    + apply PropertyViewSet_list_Ok in E as [(p & _ & _ & ->)|(c & _ & _ & _ & _ & ->)];
        [by left|].
      destruct (decide (key = _get_cache_key hash "property_list" q)) as [->|Hne].
      * rewrite lookup_insert_eq. intros [= <-]. by right.
      * rewrite lookup_insert_ne by done. by left.
    + apply PropertyViewSet_list_Raise in E as (_ & _ & ->). by left.
  - rewrite PropertyViewSet_retrieve_run. left.
    destruct (properties w !! pk) as [p|]; [|done]. by destruct (get_queryset q p).
  - destruct (PropertyViewSet_featured q w) as [[r|e] w'] eqn:E; simpl.
    + apply PropertyViewSet_featured_Ok in E as [(p & _ & _ & ->)|(_ & _ & _ & _ & ->)];
        [by left|].
      destruct (decide (key = "property_featured")) as [->|Hne].
      * rewrite lookup_insert_eq. intros [= <-]. by right.
      * rewrite lookup_insert_ne by done. by left.
    + apply PropertyViewSet_featured_Raise in E as (_ & _ & ->). by left.
  - rewrite PropertyViewSet_stats_run. destruct (cache w !! "property_stats"); [by left|].
    simpl. destruct (decide (key = "property_stats")) as [->|Hne].
    + rewrite lookup_insert_eq. intros [= <-]. by right.
    + rewrite lookup_insert_ne by done. by left.
  - intros H. left. revert H.
    unfold PropertyViewSet_create, PropertyViewSet_perform_create, Property_create,
      _invalidate_property_cache, cache_delete_pattern, cache_delete, hit, modify,
      bind, get_state, ret, raise. cbn -[glob_match].
    destruct (properties w !! pk); cbn -[glob_match]; [done|].
    intros [_ H]%lookup_delete_Some. by apply map_lookup_filter_Some in H as [H _].
  - destruct (get_object_raises q pk w) as (e & w' & Hr & _ & _ & Hc).
    unfold PropertyViewSet_update. erewrite bind_Raise by done. simpl. rewrite Hc. by left.
  - destruct (get_object_raises q pk w) as (e & w' & Hr & _ & _ & Hc).
    unfold PropertyViewSet_destroy. erewrite bind_Raise by done. simpl. rewrite Hc. by left.
  - intros H. left. revert H. destruct fw as [user property_id now|user i now]; cbn [favorites_api].
    + destruct (FavoriteViewSet_create user property_id now w) as [[r|e] w'] eqn:E; simpl.
      * destruct property_id as [pk|]; [|by injection E as <- <-].
        destruct (decide (pk = "")) as [->|Hpk].
        { unfold FavoriteViewSet_create in E. rewrite decide_True in E by done.
          by injection E as <- <-. }
        apply FavoriteViewSet_create_ok in E; [|done]. simpl.
        destruct E as [p0 i f n Ep Em Hi Hf Hp ->|p0 i f n Ep Em Hf Hp ->]; done.
      * apply FavoriteViewSet_create_failed in E as (_ & _ & ->). done.
    + destruct (FavoriteViewSet_destroy user i now w) as [[r|e] w'] eqn:E; simpl.
      * apply FavoriteViewSet_destroy_ok in E as (f & p0 & _ & _ & _ & _ & _ & -> & _).
        by intros [_ ?]%lookup_delete_Some.
      * apply FavoriteViewSet_destroy_failed in E as (_ & _ & ->). done.
  - intros H. left. revert H. unfold FavoriteViewSet_check, hit, modify, bind, get_state, ret.
    by destruct (truthy property_id).
  - destruct (FavoriteViewSet_update_world partial user i property_id now w) as [-> _].
    by left.
Qed.

Lemma running_no_cached_rows int w : running int w → no_cached_rows w.
Proof.
  induction 1 as [ps fs|w hash req _ IH|w ps fs _ IH|w c _ IH Hsub];
    intros key payload; simpl.
  - by rewrite lookup_empty.
  - intros [H|H]%api_cache; [by eapply IH|done].
  - apply IH.
  - intros H. eapply IH, lookup_weaken; done.
Qed.

(** C6.  In a deployment whose cache starts empty, for a property whose
    status is 'sold', 'rented' or 'pending': a detail view is answered 404
    after one read of the store and leaves the tables and the cache as they
    were (so its [views_count] too); no list request that completes returns
    it; and no featured request that completes returns it. *)
Theorem hidden_statuses_are_not_served
    (int : string → option Z) (w : World) (pk : string) (p : Property) :
  running int w →
  properties w !! pk = Some p →
  status p ∈ ["sold"; "rented"; "pending"] →
  (∀ q, PropertyViewSet_retrieve q pk w = (Raise Http404, logged (Select "property") w)) ∧
  (∀ hash q r w', PropertyViewSet_list hash int q w = (Ok r, w') → pk ∉ returned r) ∧
  (∀ q r w', PropertyViewSet_featured q w = (Ok r, w') → pk ∉ returned r).
Proof.
  intros Hrun%running_no_cached_rows Ep Hs. split; [|split].
  - intros q. by rewrite PropertyViewSet_retrieve_run, Ep, (hidden_status_not_served q p Hs).
  - intros hash q r w' [(payload & Hc & -> & _)|(c & _ & -> & _)]%PropertyViewSet_list_Ok;
      unfold returned; simpl.
    + rewrite (Hrun _ _ Hc). apply not_elem_of_nil.
    + apply not_elem_of_nil.
  - intros q r w' [(payload & Hc & -> & _)|(_ & -> & _)]%PropertyViewSet_featured_Ok;
      unfold returned; simpl.
    + rewrite (Hrun _ _ Hc). apply not_elem_of_nil.
    + apply not_elem_of_nil.
Qed.

Lemma hidden_statuses_are_not_served_witness :
  (∀ q, PropertyViewSet_retrieve q "p2" catalogue
          = (Raise Http404, logged (Select "property") catalogue)) ∧
  (∀ hash q r w', PropertyViewSet_list hash decimal q catalogue = (Ok r, w') →
                  "p2" ∉ returned r) ∧
  (∀ q r w', PropertyViewSet_featured q catalogue = (Ok r, w') → "p2" ∉ returned r).
Proof.
  apply (hidden_statuses_are_not_served decimal catalogue "p2"
           (mkProperty "Pending Property" "pending" 1 false false 0 0 12 None)).
  - apply running_start.
  - reflexivity.
  - simpl. do 2 apply list_elem_of_further. apply list_elem_of_here.
Defined.

(** *** Cache hits *)

(** C7 (amended).  On the list, stats and featured endpoints, a request
    whose cache key holds an entry is answered with that entry verbatim and
    leaves the world untouched: no store access is made and no table or
    cache entry changes.  The detail endpoint does not consult the cache:
    whatever the cache holds, a detail view reads the store first, and its
    outcome, the tables it leaves and the store accesses it makes are those
    of the same view with any other cache. *)
Theorem cache_hit_bypasses_store_except_detail :
  (∀ hash int e w payload,
     cache w !! endpoint_key hash e = Some payload →
     serve hash int e w = (Ok (mkResponse HTTP_200_OK (Data payload)), w)) ∧
  (∀ q pk w c,
     let out := PropertyViewSet_retrieve q pk w in
     let out' := PropertyViewSet_retrieve q pk (with_cache c w) in
     out'.1 = out.1 ∧
     properties out'.2 = properties out.2 ∧
     favorites out'.2 = favorites out.2 ∧
     queries out'.2 = queries out.2 ∧
     ∃ rest, queries out.2 = (queries w ++ Select "property" :: rest)%list).
Proof.
  split.
  - intros hash int e w payload Hhit. destruct e as [q| |q]; simpl in *.
    + by rewrite PropertyViewSet_list_run, Hhit.
    + by rewrite PropertyViewSet_stats_run, Hhit.
    + by rewrite PropertyViewSet_featured_run, Hhit.
  - intros q pk w c. cbv zeta. rewrite !PropertyViewSet_retrieve_run. simpl.
    destruct (properties w !! pk) as [p|]; [destruct (get_queryset q p)|]; simpl;
      repeat split; try done; eexists; try done.
    by rewrite <-(assoc_L (++)).
Qed.

(** C7, as stated, fails for the detail endpoint.  The cache (a service of
    its own, shared by every process) holds entries under the detail keys of
    two properties.  A detail view of either does not answer with the
    entry: it goes to the store, and the view of the pending property is
    answered 404 from there. *)
Lemma detail_view_ignores_cached_entry :
  let entry pk := Detail (serialize_property pk test_property) in
  let w := with_cache {[ "property_detail_p1" := entry "p1";
                         "property_detail_p2" := entry "p2" ]} catalogue in
  let pending := PropertyViewSet_retrieve ∅ "p2" w in
  let for_sale := PropertyViewSet_retrieve ∅ "p1" w in
  cache w !! ("property_detail_" +:+ "p2") = Some (entry "p2") ∧
  pending.1 = Raise Http404 ∧
  queries pending.2 = [Select "property"] ∧
  cache w !! ("property_detail_" +:+ "p1") = Some (entry "p1") ∧
  for_sale.1 ≠ Ok (mkResponse HTTP_200_OK (Data (entry "p1"))) ∧
  hd_error (queries for_sale.2) = Some (Select "property").
Proof.
  split; [by vm_compute|]. split; [by vm_compute|]. split; [by vm_compute|].
  split; [by vm_compute|]. split; [by vm_compute|]. by vm_compute.
Qed.

(** *** Invalidation *)

Lemma invalidate_keeps_key (key : string) (w : World) :
  glob_match "property_list:*" key = false → key ≠ "property_stats" →
  cache (_invalidate_property_cache w).2 !! key = cache w !! key.
Proof.
  intros Hg Hne. unfold _invalidate_property_cache, cache_delete_pattern,
    cache_delete, bind, modify. cbn -[glob_match].
  rewrite lookup_delete_ne by done. rewrite map_lookup_filter.
  destruct (cache w !! key) as [v|]; [|done]. cbn -[glob_match].
  rewrite option_guard_True; [done|]. cbn -[glob_match]. rewrite Hg. by intros [].
Qed.

(** What [_invalidate_property_cache] leaves in place, for any world: the
    featured selection and the list cached for a request without query
    parameters. *)
Lemma invalidate_keeps_featured_and_bare_list (w : World) :
  cache (_invalidate_property_cache w).2 !! "property_featured"
    = cache w !! "property_featured" ∧
  cache (_invalidate_property_cache w).2 !! "property_list"
    = cache w !! "property_list".
Proof. split; by apply invalidate_keeps_key. Qed.

(** C8 fails on the code.  On an empty database the read endpoints fill the
    cache: the featured selection, the list of a request without
    parameters, the list of ?status=for_rent and the statistics.  The create
    of a property for sale then completes; it removes the list cached for
    the request with parameters and the statistics, and leaves the featured
    selection and the list cached under the bare prefix in place: the next
    list request without parameters is still answered with count 0. *)
Theorem invalidation_leaves_featured_and_bare_list :
  let hash := λ _ : string, 0%Z in
  let w := warm_cache hash decimal in
  let created :=
    PropertyViewSet_create "p1" 1 (mkPropertyFields (Some "Villa") (Some "for_sale")) 40 w in
  dom (cache w) = {[ "property_featured"; "property_list"; "property_list:0";
                     "property_stats" ]} ∧
  (∃ r, created.1 = Ok r ∧ status_code r = HTTP_201_CREATED) ∧
  (status <$> properties created.2 !! "p1") = Some "for_sale" ∧
  dom (cache created.2) = {[ "property_featured"; "property_list" ]} ∧
  cache created.2 !! "property_featured" = Some (Many []) ∧
  cache created.2 !! "property_list" = Some (Page 0 []) ∧
  (PropertyViewSet_list hash decimal ∅ created.2).1
    = Ok (mkResponse HTTP_200_OK (Data (Page 0 []))).
Proof.
  intros hash w created. split; [by vm_compute|].
  split; [eexists; by vm_compute|]. split; [by vm_compute|].
  split; [by vm_compute|]. split; [by vm_compute|]. split; by vm_compute.
Qed.

End PropertiesFacts.

Module ReviewsFacts.
Import Reviews.

(** *** Review.save *)

Lemma Property_has_no_update_average_rating :
  "update_average_rating" ∉ Properties.Property_attributes.
Proof. apply (bool_decide_unpack _). by vm_compute. Qed.

Lemma update_average_rating_raises (w : World) :
  call_method "Property" Properties.Property_attributes "update_average_rating" w
    = (Raise (AttributeError "Property" "update_average_rating"), w).
Proof.
  unfold call_method. rewrite bool_decide_eq_false_2; [done|].
  apply Property_has_no_update_average_rating.
Qed.

Lemma Review_save_run kind pk r w :
  Review_save kind pk r w =
    match Model_save kind pk r w with
    | (Ok _, w1) => (Raise (AttributeError "Property" "update_average_rating"), w1)
    | (Raise e, w1) => (Raise e, w1)
    end.
Proof.
  unfold Review_save, bind. destruct (Model_save kind pk r w) as [[[]|e] w1]; [|done].
  apply update_average_rating_raises.
Qed.

Lemma Model_save_keeps_cache kind pk r w u w1 :
  Model_save kind pk r w = (u, w1) → cache_keys w1 = cache_keys w.
Proof.
  unfold Model_save, bind, get_state, modify, raise. simpl.
  destruct kind; repeat case_bool_decide; try destruct (reviews w !! pk);
    intros [= <- <-]; done.
Qed.

(** Review has no field or relation named [likes]: building the queryset
    fails on the first aggregate of [annotate]. *)
Lemma get_queryset_raises q w :
  get_queryset q w = (Raise (FieldError "likes"), w).
Proof. done. Qed.

Lemma review_get_object_raises q pk w :
  get_object q pk w = (Raise (FieldError "likes"), w).
Proof. done. Qed.

Lemma ReviewViewSet_create_run pk user data now w :
  ReviewViewSet_create pk user data now w =
    match Model_save ForceInsert pk (new_review user data now) w with
    | (Ok _, w1) => (Raise (AttributeError "Property" "update_average_rating"), w1)
    | (Raise e, w1) => (Raise e, w1)
    end.
Proof.
  unfold ReviewViewSet_create, ReviewViewSet_perform_create.
  pose proof (Review_save_run ForceInsert pk (new_review user data now) w) as Hrun.
  destruct (Model_save ForceInsert pk (new_review user data now) w) as [[[]|e] w1];
    do 2 (erewrite bind_Raise; [done|]); exact Hrun.
Qed.

(** C3.  [Review.save] never completes: whenever the row write of
    [models.Model.save] succeeds, the call of [update_average_rating] on
    the property raises AttributeError with the row already written, and
    otherwise the error of the row write is raised.  So a create through the
    review API never answers successfully and never reaches the cache
    invalidation that follows the save: with an unused key, by a user who
    has not reviewed the property yet, it stores the row and raises
    AttributeError.  The save of an edited review that keeps (user,
    property) unique likewise stores the row and raises AttributeError; the
    update operation of the API never answers successfully either: it fails
    before it gets to the save, when [get_object] builds the queryset, and
    writes nothing. *)
Theorem review_save_raises_attribute_error
    (kind : SaveKind) (pk : string) (r : Review) (w : World) :
  (∃ e w', Review_save kind pk r w = (Raise e, w')) ∧
  (∀ w1, Model_save kind pk r w = (Ok tt, w1) →
         Review_save kind pk r w
           = (Raise (AttributeError "Property" "update_average_rating"), w1)) ∧
  (∀ user data now,
      (∃ e w', ReviewViewSet_create pk user data now w = (Raise e, w') ∧
               cache_keys w' = cache_keys w) ∧
      (reviews w !! pk = None →
       reviews_by user (default "" (in_property data)) (reviews w) = ∅ →
       ReviewViewSet_create pk user data now w
         = (Raise (AttributeError "Property" "update_average_rating"),
            with_reviews (<[pk := new_review user data now]> (reviews w)) w))) ∧
  (∀ instance data,
      let r' := edited_review instance data in
      reviews_by (rev_user r') (rev_property r') (delete pk (reviews w)) = ∅ →
      Review_save UpdateRow pk r' w
        = (Raise (AttributeError "Property" "update_average_rating"),
           with_reviews (<[pk := r']> (reviews w)) w)) ∧
  (∀ q data, ReviewViewSet_update q pk data w = (Raise (FieldError "likes"), w)).
Proof.
  split; [|split; [|split; [|split]]].
  - rewrite Review_save_run. destruct (Model_save kind pk r w) as [[[]|e] w1]; eauto.
  - intros w1 H. by rewrite Review_save_run, H.
  - intros user data now. rewrite ReviewViewSet_create_run. split.
    + destruct (Model_save _ _ _ w) as [u w1] eqn:Em.
      apply Model_save_keeps_cache in Em. destruct u as [[]|e]; eauto.
    + intros Hpk Hnone. unfold Model_save, bind, get_state, modify. simpl.
      rewrite bool_decide_eq_false_2 by (rewrite Hpk; by intros [? ?]).
      by rewrite bool_decide_eq_true_2.
  - intros instance data r' Hnone. rewrite Review_save_run.
    unfold Model_save, bind, get_state, modify. simpl. fold r'.
    by rewrite bool_decide_eq_true_2.
  - intros q data. unfold ReviewViewSet_update.
    erewrite bind_Raise; [done|]. apply review_get_object_raises.
Qed.

(** *** Likes and the like counter *)

Lemma ReviewLike_delete_keeps_reviews i w :
  reviews (ReviewLike_delete i w).2 = reviews w.
Proof. done. Qed.

(** Creating a like recounts: by the time [ReviewLike.save] raises (through
    [Review.save]), the row is in and the counter of the review is the
    number of its like rows. *)
Lemma ReviewLike_save_recounts l review w row :
  likes_matching (like_user l) (like_review l) (review_likes w) = [] →
  reviews w !! like_review l = Some row →
  ∃ w', ReviewLike_save l review w
          = (Raise (AttributeError "Property" "update_average_rating"), w') ∧
        (likes_count <$> reviews w' !! like_review l)
          = Some (size (likes_of (like_review l) (review_likes w'))).
Proof.
  intros Hm Hrow. unfold ReviewLike_save.
  unfold bind at 1. unfold get_state at 1. simpl. rewrite Hm.
  unfold bind at 1. unfold bind at 1. unfold modify at 1, ret at 1. simpl.
  unfold bind at 1. unfold get_state at 1. simpl.
  erewrite bind_Raise; [|rewrite Review_save_run; unfold Model_save, bind, get_state;
    simpl; rewrite Hrow; simpl; reflexivity].
  eexists. split; [done|]. simpl. by rewrite lookup_insert_eq.
Qed.

(** C2 fails on the code.  [ReviewLike] overrides [save] only.  Starting
    from the test fixture, [ReviewLike.objects.create] writes the like row
    and [likes_count] 1 before it raises (see C3).  [delete] called on that
    like, which is [models.Model.delete], removes the row and recounts
    nothing: [likes_count] is still 1 with no like row left, and so it is
    for every delete of a like.  The like endpoint called by the same user
    in between does not get to the delete: it raises FieldError when
    [get_object] builds the queryset and changes nothing. *)
Theorem unlike_leaves_likes_count_stale :
  let liked := ReviewLike_create 2 "r1" test_review 20 test_world in
  let toggled := ReviewViewSet_like ∅ 2 "r1" 25 liked.2 in
  let deleted := ReviewLike_delete 0 liked.2 in
  liked.1 = Raise (AttributeError "Property" "update_average_rating") ∧
  review_likes liked.2 = {[ 0%nat := mkReviewLike 2 "r1" 20 ]} ∧
  (likes_count <$> reviews liked.2 !! "r1") = Some 1%nat ∧
  toggled = (Raise (FieldError "likes"), liked.2) ∧
  deleted.1 = Ok tt ∧
  size (likes_of "r1" (review_likes deleted.2)) = 0%nat ∧
  (likes_count <$> reviews deleted.2 !! "r1") = Some 1%nat ∧
  (∀ i w, reviews (ReviewLike_delete i w).2 = reviews w).
Proof.
  split; [by vm_compute|]. split; [by vm_compute|]. split; [by vm_compute|].
  split; [done|]. split; [done|]. split; [by vm_compute|]. split; [by vm_compute|].
  done.
Qed.

End ReviewsFacts.

Module NotificationsFacts.
Import Notifications.

Lemma pending_lookup u (ns : gmap nat Notification) id n :
  unread (get_queryset u ns) !! id = Some n ↔
  ns !! id = Some n ∧ user n = u ∧ is_read n = false.
Proof.
  unfold unread, get_queryset. rewrite !map_lookup_filter_Some. simpl. tauto.
Qed.


Lemma first_Some (ns : gmap nat Notification) id n :
  first ns = Some (id, n) →
  ns !! id = Some n ∧
  ∀ id' n', ns !! id' = Some n' → (created_at n' ≤ created_at n)%nat.
Proof.
  unfold first. intros H.
  pose proof (StronglySorted_merge_sort newest_first (map_to_list ns)) as Hs.
  pose proof (merge_sort_Permutation newest_first (map_to_list ns)) as Hp.
  destruct (merge_sort newest_first (map_to_list ns)) as [|x l]; [done|].
  injection H as ->. split.
  - apply elem_of_map_to_list. rewrite <-Hp. apply list_elem_of_here.
  - intros id' n' Hin. apply elem_of_map_to_list in Hin. rewrite <-Hp in Hin.
    apply elem_of_cons in Hin as [[= -> ->]|Hin]; [done|].
    apply StronglySorted_inv in Hs as [_ Hall].
    rewrite Forall_forall in Hall. by apply (Hall (id', n')).
Qed.

Lemma mark_as_read_unread id n now w :
  notifications w !! id = Some n → is_read n = false →
  mark_as_read id n now w
    = (Ok (set_read true (Some now) n),
       mkWorld (<[id := set_read true (Some now) n]> (notifications w))).
Proof.
  intros Hid Hr. unfold mark_as_read, save_read_state, bind, get_state, modify, ret.
  rewrite Hr. simpl. by rewrite Hid.
Qed.




(** *** The read state *)

Lemma read_state_kept_refl n : read_state_kept n n.
Proof. by split. Qed.

Lemma read_state_kept_marked n now :
  is_read n = false → read_state_kept n (set_read true (Some now) n).
Proof. intros Hr. split; [by rewrite Hr|]. simpl. eauto. Qed.

Lemma update_read_kept (sel ns : gmap nat Notification) now id n :
  (∀ k m, sel !! k = Some m → ns !! k = Some m ∧ is_read m = false) →
  ns !! id = Some n →
  ∃ n', (((λ m, set_read true (Some now) m) <$> sel) ∪ ns) !! id = Some n' ∧
        read_state_kept n n'.
Proof.
  intros Hsel Hid.
  rewrite lookup_union, lookup_fmap.
  destruct (sel !! id) as [m|] eqn:Es; simpl.
  - destruct (Hsel _ _ Es) as [Hm Hr]. rewrite Hid in Hm. injection Hm as <-.
    rewrite Hid. simpl. eexists. split; [done|]. by apply read_state_kept_marked.
  - rewrite Hid. simpl. eexists. split; [done|]. apply read_state_kept_refl.
Qed.

Lemma NotificationViewSet_update_run partial html u id body w :
  NotificationViewSet_update partial html u id body w =
    match get_queryset u (notifications w) !! id, body with
    | None, _ => (Raise Http404, w)
    | Some _, Rejected => (Raise ValidationError, w)
    | Some instance, Accepted data =>
        let n := apply_fields (validated_data partial html data) instance in
        (Ok (mkResponse 200 (NotificationData id n)),
         mkWorld (<[id := n]> (notifications w)))
    end.
Proof.
  unfold NotificationViewSet_update, get_object, bind, get_state, modify, ret, raise.
  simpl. destruct (get_queryset u (notifications w) !! id); [|done]. by destruct body.
Qed.

(** C9 (amended).  Retrieve, mark_read and mark_all_read, and an update or
    partial update whose validated data carry neither [is_read] nor
    [read_at], keep the read state of every notification: one that is read
    stays read with the same [read_at], and a [read_at] that is set stays
    set.  An accepted update or partial update of a notification of one's
    own stores the validated data: [is_read] and [read_at] become the values
    carried and stay as they were where none is carried, and every other
    row is as before.  A full update sent as a form always carries
    [is_read]: false when the body leaves the field out. *)
Theorem read_state_is_kept
    (u now : nat) (req : Request) (w : World) (id : nat) (n : Notification) :
  notifications w !! id = Some n →
  (writes_read_state req = false →
   ∃ n', notifications (handle u now req w).2 !! id = Some n' ∧ read_state_kept n n') ∧
  (∀ partial html data,
     user n = u →
     let stored := validated_data partial html data in
     let n' := apply_fields stored n in
     NotificationViewSet_update partial html u id (Accepted data) w
       = (Ok (mkResponse 200 (NotificationData id n')),
          mkWorld (<[id := n']> (notifications w))) ∧
     is_read n' = default (is_read n) (in_is_read stored) ∧
     read_at n' = default (read_at n) (in_read_at stored) ∧
     in_read_at stored = in_read_at data ∧
     in_is_read stored
       = (if html && negb partial then Some (default false (in_is_read data))
          else in_is_read data)).
Proof.
  intros Hid. split.
  2:{ intros partial html data Hu stored n'. split.
      - rewrite NotificationViewSet_update_run.
        assert (get_queryset u (notifications w) !! id = Some n) as ->
          by (by apply map_lookup_filter_Some).
        done.
      - subst stored n'. unfold validated_data. by destruct (html && negb partial). }
  intros Hreq. destruct w as [ns]. simpl in Hid.
  assert (Hsame : ∃ n', ns !! id = Some n' ∧ read_state_kept n n')
    by (exists n; split; [done|apply read_state_kept_refl]).
  assert (Hupd : ∀ partial html i body,
    match body with
    | Accepted data =>
        bool_decide (is_Some (in_is_read (validated_data partial html data)))
        || bool_decide (is_Some (in_read_at (validated_data partial html data)))
    | Rejected => false
    end = false →
    ∃ n', notifications (NotificationViewSet_update partial html u i body (mkWorld ns)).2
            !! id = Some n' ∧ read_state_kept n n').
  { intros partial html i body Hb. rewrite NotificationViewSet_update_run. simpl.
    destruct (get_queryset u ns !! i) as [inst|] eqn:Ei; [|done].
    destruct body as [|data]; [done|]. simpl.
    apply map_lookup_filter_Some in Ei as [Ei _].
    apply orb_false_elim in Hb as [Hr Ht].
    apply bool_decide_eq_false in Hr. apply bool_decide_eq_false in Ht.
    destruct (decide (id = i)) as [->|Hne]; [|by rewrite lookup_insert_ne].
    rewrite lookup_insert_eq. rewrite Hid in Ei. injection Ei as <-.
    eexists. split; [done|]. unfold read_state_kept, apply_fields. simpl.
    destruct (in_is_read _); [by destruct Hr|].
    destruct (in_read_at _); [by destruct Ht|]. done. }
  destruct req as [i|html i body|html i body|ids|]; simpl in *.
  - (* retrieve *)
    unfold NotificationViewSet_retrieve, get_object, bind, get_state, ret, raise. simpl.
    destruct (get_queryset u ns !! i) as [inst|] eqn:Ei; simpl; [|done].
    apply map_lookup_filter_Some in Ei as [Ei _].
    destruct (is_read inst) eqn:Hr; simpl; [done|].
    rewrite (mark_as_read_unread i inst now (mkWorld ns)) by done. simpl.
    unfold refresh_from_db, bind, get_state, ret. simpl.
    rewrite lookup_insert_eq. simpl.
    destruct (decide (id = i)) as [->|Hne].
    + rewrite lookup_insert_eq. rewrite Hid in Ei. injection Ei as <-.
      eexists. split; [done|]. by apply read_state_kept_marked.
    + by rewrite lookup_insert_ne.
  - (* update *)
    apply Hupd. unfold writes_read_state in Hreq. simpl in Hreq. by destruct body.
  - (* partial update *)
    apply Hupd. unfold writes_read_state in Hreq. simpl in Hreq. by destruct body.
  - (* mark_read *)
    unfold NotificationViewSet_mark_read, bind at 1, get_state at 1. simpl.
    destruct (bool_decide (default [] ids = [])); simpl.
    + destruct (first (unread (get_queryset u ns))) as [[i inst]|] eqn:Ef; [|done].
      apply first_Some in Ef as [(Hi & _ & Hr)%pending_lookup _].
      unfold bind. rewrite (mark_as_read_unread i inst now (mkWorld ns)) by done.
      simpl. destruct (decide (id = i)) as [->|Hne]; [|by rewrite lookup_insert_ne].
      rewrite lookup_insert_eq. rewrite Hid in Hi. injection Hi as <-.
      eexists. split; [done|]. by apply read_state_kept_marked.
    + unfold bind. apply update_read_kept; [|done].
      intros k m (Hm & _)%map_lookup_filter_Some.
      apply pending_lookup in Hm. tauto.
  - (* mark_all_read *)
    unfold NotificationViewSet_mark_all_read, bind at 1, get_state at 1. simpl.
    case_bool_decide; [|done]. unfold bind. simpl. apply update_read_kept; [|done].
    intros k m Hm. apply pending_lookup in Hm. tauto.
Qed.

Lemma read_state_is_kept_witness :
  let n := mkNotification 1 "Welcome" "Hello" "system" true (Some 5) None 3 in
  let req := PartialUpdate false 1 (Accepted (mkNotificationFields (Some "Hello again")
                                                None None None None None)) in
  (writes_read_state req = false →
   ∃ n', notifications (handle 1 20 req inbox).2 !! 1%nat = Some n' ∧
         read_state_kept n n') ∧
  (∀ partial html data,
     user n = 1%nat →
     let stored := validated_data partial html data in
     let n' := apply_fields stored n in
     NotificationViewSet_update partial html 1 1 (Accepted data) inbox
       = (Ok (mkResponse 200 (NotificationData 1 n')),
          mkWorld (<[1%nat := n']> (notifications inbox))) ∧
     is_read n' = default (is_read n) (in_is_read stored) ∧
     read_at n' = default (read_at n) (in_read_at stored) ∧
     in_read_at stored = in_read_at data ∧
     in_is_read stored
       = (if html && negb partial then Some (default false (in_is_read data))
          else in_is_read data)).
Proof.
  intros n req. apply (read_state_is_kept 1 20 req inbox 1 n). reflexivity.
Defined.

(** C9, as stated, fails: [is_read] and [read_at] are writable fields of
    NotificationSerializer, so a partial update (and likewise a full update)
    of a read notification with is_read false and read_at null is accepted
    and stores the notification as unread with no [read_at]; and a full
    update sent as a form that leaves [is_read] out stores it as unread. *)
Lemma update_reverts_read_notification :
  let body := mkNotificationFields None None None (Some false) (Some None) None in
  let full := mkNotificationFields (Some "Welcome") (Some "Hello") None
                                   (Some false) (Some None) None in
  let form := mkNotificationFields (Some "Welcome") (Some "Hello") None None None None in
  let patched := handle 1 20 (PartialUpdate false 1 (Accepted body)) inbox in
  let put := handle 1 20 (Update false 1 (Accepted full)) inbox in
  let posted := handle 1 20 (Update true 1 (Accepted form)) inbox in
  (is_read <$> notifications inbox !! 1%nat) = Some true ∧
  (read_at <$> notifications inbox !! 1%nat) = Some (Some 5%nat) ∧
  (∃ r, patched.1 = Ok r) ∧
  (is_read <$> notifications patched.2 !! 1%nat) = Some false ∧
  (read_at <$> notifications patched.2 !! 1%nat) = Some None ∧
  (∃ r, put.1 = Ok r) ∧
  (is_read <$> notifications put.2 !! 1%nat) = Some false ∧
  (read_at <$> notifications put.2 !! 1%nat) = Some None ∧
  (∃ r, posted.1 = Ok r) ∧
  (is_read <$> notifications posted.2 !! 1%nat) = Some false.
Proof.
  repeat split; try (by vm_compute); eexists; by vm_compute.
Qed.

End NotificationsFacts.

(** * Further properties of the code *)

Module PropertiesMore.
Import Properties PropertiesFacts.

(** ** Properties outside the queryset *)

Lemma outside_queryset q p :
  status p ∉ ["for_sale"; "for_rent"] → get_queryset q p = false.
Proof.
  intros Hs. destruct (get_queryset q p) eqn:E; [|done].
  by apply get_queryset_status in E.
Qed.

(** X1.  A property whose status is neither 'for_sale' nor 'for_rent' (so
    also one created with the default 'pending') can be neither updated nor
    deleted through the API: both requests are answered 404 after one read
    of the store, and leave every table and the cache as they were. *)
Theorem hidden_property_cannot_be_changed
    (q : gmap string (list string)) (pk : string) (data : PropertyFields) (now : nat)
    (w : World) (p : Property) :
  properties w !! pk = Some p →
  status p ∉ ["for_sale"; "for_rent"] →
  PropertyViewSet_update q pk data now w = (Raise Http404, logged (Select "property") w) ∧
  PropertyViewSet_destroy q pk w = (Raise Http404, logged (Select "property") w).
Proof.
  intros Ep Hq%(outside_queryset q). split.
  - unfold PropertyViewSet_update. erewrite bind_Raise; [done|].
    by rewrite get_object_run, Ep, Hq.
  - unfold PropertyViewSet_destroy. erewrite bind_Raise; [done|].
    by rewrite get_object_run, Ep, Hq.
Qed.

Lemma hidden_property_cannot_be_changed_witness :
  PropertyViewSet_update ∅ "p2" (mkPropertyFields None (Some "for_sale")) 40 catalogue
    = (Raise Http404, logged (Select "property") catalogue) ∧
  PropertyViewSet_destroy ∅ "p2" catalogue
    = (Raise Http404, logged (Select "property") catalogue).
Proof.
  apply (hidden_property_cannot_be_changed ∅ "p2" _ 40 catalogue
           (mkProperty "Pending Property" "pending" 1 false false 0 0 12 None)).
  - reflexivity.
  - apply (bool_decide_unpack _). by vm_compute.
Defined.

(** X26.  A property that is for sale or for rent (and passes the filters
    of the request) can be neither viewed in detail, nor updated, nor
    deleted through the API: [get_object] finds the row and then follows
    the prefetch lookups of the queryset, of which 'amenities' names no
    attribute of Property, so each request raises AttributeError after the
    read of the row and of its images and leaves every table and the cache
    as they were; views repeated any number of times leave [views_count]
    where it was. *)
Theorem visible_property_fails_on_prefetch
    (q : gmap string (list string)) (pk : string) (data : PropertyFields) (now : nat)
    (w : World) (p : Property) :
  properties w !! pk = Some p →
  get_queryset q p = true →
  let e := AttributeError "Property" "amenities" in
  let w' := logged (Select "propertyimage") (logged (Select "property") w) in
  PropertyViewSet_retrieve q pk w = (Raise e, w') ∧
  PropertyViewSet_update q pk data now w = (Raise e, w') ∧
  PropertyViewSet_destroy q pk w = (Raise e, w') ∧
  (∀ n, let out := successively n (PropertyViewSet_retrieve q pk) w in
        out.1 = replicate n (Raise e) ∧ properties out.2 = properties w) ∧
  ("amenities" ∉ Property_attributes).
Proof.
  intros Ep Hq e w'. split; [|split; [|split; [|split]]].
  - by rewrite PropertyViewSet_retrieve_run, Ep, Hq.
  - unfold PropertyViewSet_update. erewrite bind_Raise; [done|].
    by rewrite get_object_run, Ep, Hq.
  - unfold PropertyViewSet_destroy. erewrite bind_Raise; [done|].
    by rewrite get_object_run, Ep, Hq.
  - intros n. clear w'. revert w Ep. induction n as [|n IH]; intros w Ep; [done|].
    simpl. rewrite PropertyViewSet_retrieve_run, Ep, Hq.
    specialize (IH (logged (Select "propertyimage") (logged (Select "property") w)) Ep).
    destruct (successively n _ _) as [rs w2]. simpl in *. destruct IH as [-> ->]. done.
  - apply (bool_decide_unpack _). by vm_compute.
Qed.

Lemma visible_property_fails_on_prefetch_witness :
  let e := AttributeError "Property" "amenities" in
  let w' := logged (Select "propertyimage") (logged (Select "property") test_world) in
  let data := mkPropertyFields None (Some "sold") in
  PropertyViewSet_retrieve ∅ "p1" test_world = (Raise e, w') ∧
  PropertyViewSet_update ∅ "p1" data 40 test_world = (Raise e, w') ∧
  PropertyViewSet_destroy ∅ "p1" test_world = (Raise e, w') ∧
  (∀ n, let out := successively n (PropertyViewSet_retrieve ∅ "p1") test_world in
        out.1 = replicate n (Raise e) ∧ properties out.2 = properties test_world) ∧
  ("amenities" ∉ Property_attributes).
Proof.
  apply (visible_property_fails_on_prefetch ∅ "p1" _ 40 test_world test_property);
    reflexivity.
Defined.

(** ** Lists *)

Section Lists.

Variable int : string → option Z.

Lemma num_pages_pos c : (1 ≤ num_pages c)%nat.
Proof. unfold num_pages, PAGE_SIZE. apply (Nat.div_le_lower_bound _ 12 1); lia. Qed.

Lemma paginate_first_page q keep w :
  first_page int q →
  paginate_queryset int q keep w =
    match rows_of keep (properties w) with
    | [] => (Ok (0%nat, []), logged (Select "property") w)
    | _ :: _ => (Raise (AttributeError "Property" "amenities"),
                 logged (Select "propertyimage")
                   (logged (Select "property") (logged (Select "property") w)))
    end.
Proof.
  intros Hq. unfold paginate_queryset.
  assert (Hpage : (match param q "page" with
            | None => let* c := count keep in ret (1%Z, c)
            | Some s =>
                if bool_decide (s = "") then let* c := count keep in ret (1%Z, c)
                else if bool_decide (s = "last")
                then let* c := count keep in ret (Z.of_nat (num_pages c), c)
                else match int s with
                     | None => raise Http404
                     | Some number =>
                         if (number <? 1)%Z then raise Http404
                         else let* c := count keep in ret (number, c)
                     end
            end) w = (Ok (1%Z, length (rows_of keep (properties w))),
                      logged (Select "property") w)).
  { unfold first_page in Hq. destruct (param q "page") as [s|]; [|done].
    destruct Hq as [->|[Hl Hi]]; [done|].
    case_bool_decide; [done|]. rewrite (bool_decide_eq_false_2 (s = "last")) by done.
    by rewrite Hi. }
  erewrite bind_Ok by exact Hpage. cbv beta iota.
  pose proof (num_pages_pos (length (rows_of keep (properties w)))) as Hn.
  rewrite (proj2 (Z.ltb_ge _ _)) by lia.
  change (Z.to_nat 1 - 1)%nat with 0%nat. cbn [Nat.mul Nat.add].
  unfold bind. rewrite fetch_run. cbn [properties logged with_queries].
  destruct (rows_of keep (properties w)) as [|x l] eqn:E; [done|].
  rewrite bool_decide_eq_false_2 by (unfold PAGE_SIZE; simpl; lia).
  rewrite drop_0. unfold PAGE_SIZE. simpl. done.
Qed.

End Lists.
(** X2.  A list request that asks for a status other than 'for_sale' and
    'for_rent' (say ?status=sold) and finds nothing cached under its key
    returns an empty first page with count 0, whatever the store holds: the
    status parameter only narrows the two visible statuses. *)
Theorem list_of_hidden_status_is_empty
    (hash : string → Z) (int : string → option Z) (q : gmap string (list string))
    (s : string) (w : World) :
  param q "status" = Some s →
  s ∉ [""; "for_sale"; "for_rent"] →
  param q "page" = None →
  cache w !! _get_cache_key hash "property_list" q = None →
  ∃ w', PropertyViewSet_list hash int q w
          = (Ok (mkResponse HTTP_200_OK (Data (Page 0 []))), w') ∧
        properties w' = properties w.
Proof.
  intros Hs Hne Hpage Hmiss.
  assert (Hrows : rows_of (get_queryset q) (properties w) = []).
  { apply rows_of_nil. intros pk p _. unfold get_queryset. rewrite Hs. simpl.
    rewrite (bool_decide_eq_false_2 (s = ""))
      by (intros ->; apply Hne, list_elem_of_here). simpl.
    destruct (bool_decide (status p ∈ _)) eqn:E; [|done]. simpl.
    apply bool_decide_eq_true in E.
    rewrite (bool_decide_eq_false_2 (Some (status p) = Some s)); [done|].
    intros [= <-]. by apply Hne, list_elem_of_further. }
  rewrite PropertyViewSet_list_run, Hmiss, paginate_first_page, Hrows
    by (unfold first_page; by rewrite Hpage).
  by eexists.
Qed.

Lemma list_of_hidden_status_is_empty_witness :
  let hash := λ _ : string, 0%Z in
  ∃ w', PropertyViewSet_list hash decimal {[ "status" := ["sold"] ]} catalogue
          = (Ok (mkResponse HTTP_200_OK (Data (Page 0 []))), w') ∧
        properties w' = properties catalogue.
Proof.
  intros hash.
  apply (list_of_hidden_status_is_empty hash decimal {[ "status" := ["sold"] ]} "sold"
           catalogue).
  - reflexivity.
  - apply (bool_decide_unpack _). by vm_compute.
  - reflexivity.
  - reflexivity.
Defined.

(** X3.  A list request for the first page (no page parameter, an empty
    one, or one that Python's [int] reads as 1) that finds nothing cached
    completes exactly when no stored property passes the filter of its
    queryset: it then answers count 0 with no result, after the one count
    query, and caches that answer under its key.  When a property passes
    the filter it raises AttributeError after the count, the page query and
    the read of the images, caches nothing and changes no table.  The rows
    concerned are the stored properties that pass the queryset's filter. *)
Theorem list_first_page
    (hash : string → Z) (int : string → option Z) (q : gmap string (list string))
    (w : World) :
  first_page int q →
  cache w !! _get_cache_key hash "property_list" q = None →
  let rows := rows_of (get_queryset q) (properties w) in
  let key := _get_cache_key hash "property_list" q in
  (rows = [] →
   PropertyViewSet_list hash int q w
     = (Ok (mkResponse HTTP_200_OK (Data (Page 0 []))),
        with_cache (<[key := Page 0 []]> (cache w)) (logged (Select "property") w))) ∧
  (rows ≠ [] →
   PropertyViewSet_list hash int q w
     = (Raise (AttributeError "Property" "amenities"),
        logged (Select "propertyimage")
          (logged (Select "property") (logged (Select "property") w)))) ∧
  (∀ pk p, (pk, p) ∈ rows ↔ properties w !! pk = Some p ∧ get_queryset q p = true).
Proof.
  intros Hpage Hmiss rows key. split; [|split].
  - intros Hrows. rewrite PropertyViewSet_list_run, Hmiss, paginate_first_page by done.
    fold rows. by rewrite Hrows.
  - intros Hrows. rewrite PropertyViewSet_list_run, Hmiss, paginate_first_page by done.
    fold rows. by destruct rows.
  - intros pk p. apply rows_of_elem.
Qed.

Lemma list_first_page_witness :
  let hash := λ _ : string, 0%Z in
  let q : gmap string (list string) := {[ "page" := ["1"] ]} in
  let w := mkWorld ∅ ∅ ∅ [] in
  let rows := rows_of (get_queryset q) (properties w) in
  let key := _get_cache_key hash "property_list" q in
  (rows = [] →
   PropertyViewSet_list hash decimal q w
     = (Ok (mkResponse HTTP_200_OK (Data (Page 0 []))),
        with_cache (<[key := Page 0 []]> (cache w)) (logged (Select "property") w))) ∧
  (rows ≠ [] →
   PropertyViewSet_list hash decimal q w
     = (Raise (AttributeError "Property" "amenities"),
        logged (Select "propertyimage")
          (logged (Select "property") (logged (Select "property") w)))) ∧
  (∀ pk p, (pk, p) ∈ rows ↔ properties w !! pk = Some p ∧ get_queryset q p = true).
Proof.
  intros hash q w. apply (list_first_page hash decimal q w).
  - right. split; [discriminate|reflexivity].
  - reflexivity.
Defined.

(** X4.  A list request that finds nothing cached and whose page parameter
    (not empty and not 'last') is no integer for Python's [int], or is
    below 1, is answered 404 without any query; one whose page number lies
    past the last page of 12 is answered 404 after the count query.  Neither
    the tables nor the cache change. *)
Theorem list_bad_page_is_404
    (hash : string → Z) (int : string → option Z) (q : gmap string (list string))
    (s : string) (w : World) :
  param q "page" = Some s →
  s ≠ "" →
  s ≠ "last" →
  cache w !! _get_cache_key hash "property_list" q = None →
  let rows := rows_of (get_queryset q) (properties w) in
  (int s = None ∨ (∃ n, int s = Some n ∧ (n < 1)%Z) →
   PropertyViewSet_list hash int q w = (Raise Http404, w)) ∧
  (∀ n, int s = Some n → (Z.of_nat (num_pages (length rows)) < n)%Z →
        PropertyViewSet_list hash int q w = (Raise Http404, logged (Select "property") w)).
Proof.
  intros Hpage Hne Hlast Hmiss rows.
  rewrite PropertyViewSet_list_run, Hmiss. unfold paginate_queryset.
  rewrite Hpage, (bool_decide_eq_false_2 (s = "")), (bool_decide_eq_false_2 (s = "last"))
    by done.
  split.
  - intros [-> | (n & -> & Hn)]; [done|]. by rewrite (proj2 (Z.ltb_lt _ _)) by done.
  - intros n -> Hn.
    pose proof (num_pages_pos (length rows)) as Hpos.
    rewrite (proj2 (Z.ltb_ge _ _)) by lia.
    unfold bind at 1. unfold bind at 1. rewrite count_run. unfold ret at 1.
    cbv beta iota. fold rows. by rewrite (proj2 (Z.ltb_lt _ _)) by done.
Qed.

Lemma list_bad_page_is_404_witness :
  let hash := λ _ : string, 0%Z in
  let q : gmap string (list string) := {[ "page" := ["2"] ]} in
  let rows := rows_of (get_queryset q) (properties catalogue) in
  (decimal "2" = None ∨ (∃ n, decimal "2" = Some n ∧ (n < 1)%Z) →
   PropertyViewSet_list hash decimal q catalogue = (Raise Http404, catalogue)) ∧
  (∀ n, decimal "2" = Some n → (Z.of_nat (num_pages (length rows)) < n)%Z →
        PropertyViewSet_list hash decimal q catalogue
          = (Raise Http404, logged (Select "property") catalogue)).
Proof.
  intros hash q.
  apply (list_bad_page_is_404 hash decimal q "2" catalogue); try reflexivity;
    discriminate.
Defined.

Lemma list_bad_page_is_404_check :
  let hash := λ _ : string, 0%Z in
  PropertyViewSet_list hash decimal {[ "page" := ["2"] ]} catalogue
    = (Raise Http404, logged (Select "property") catalogue) ∧
  PropertyViewSet_list hash decimal {[ "page" := ["0"] ]} catalogue
    = (Raise Http404, catalogue) ∧
  PropertyViewSet_list hash decimal {[ "page" := ["x"] ]} catalogue
    = (Raise Http404, catalogue).
Proof. by vm_compute. Qed.

(** X5.  A featured request that finds nothing cached completes exactly
    when no stored property is featured and passes the filter of the
    queryset: it then answers with no property and caches that answer under
    'property_featured'.  When there is such a property it raises
    AttributeError after the query and the read of the images, caches
    nothing and changes no table. *)
Theorem featured_selection (q : gmap string (list string)) (w : World) :
  cache w !! "property_featured" = None →
  let rows := rows_of (λ p, get_queryset q p && is_featured p) (properties w) in
  (rows = [] →
   PropertyViewSet_featured q w
     = (Ok (mkResponse HTTP_200_OK (Data (Many []))),
        with_cache (<["property_featured" := Many []]> (cache w))
          (logged (Select "property") w))) ∧
  (rows ≠ [] →
   PropertyViewSet_featured q w
     = (Raise (AttributeError "Property" "amenities"),
        logged (Select "propertyimage") (logged (Select "property") w))) ∧
  (∀ pk p, (pk, p) ∈ rows ↔
           properties w !! pk = Some p ∧ is_featured p = true ∧
           get_queryset q p = true) ∧
  (∀ pk p, (pk, p) ∈ rows → status p ∈ ["for_sale"; "for_rent"]).
Proof.
  intros Hmiss rows.
  assert (Hrun : PropertyViewSet_featured q w =
    match rows with
    | [] => (Ok (mkResponse HTTP_200_OK (Data (Many []))),
             with_cache (<["property_featured" := Many []]> (cache w))
               (logged (Select "property") w))
    | _ :: _ => (Raise (AttributeError "Property" "amenities"),
                 logged (Select "propertyimage") (logged (Select "property") w))
    end).
  { rewrite PropertyViewSet_featured_run, Hmiss, fetch_run.
    rewrite bool_decide_eq_false_2 by lia. rewrite drop_0. fold rows.
    by destruct rows. }
  split; [by intros Hr; rewrite Hrun, Hr|]. split; [intros Hr; rewrite Hrun; by destruct rows|].
  split.
  - intros pk p. subst rows. rewrite rows_of_elem, andb_true_iff. tauto.
  - intros pk p [_ [Hq _]%andb_prop]%rows_of_elem. by apply (get_queryset_status q).
Qed.

Lemma featured_selection_witness :
  let rows := rows_of (λ p, get_queryset ∅ p && is_featured p) (properties catalogue) in
  (rows = [] →
   PropertyViewSet_featured ∅ catalogue
     = (Ok (mkResponse HTTP_200_OK (Data (Many []))),
        with_cache (<["property_featured" := Many []]> (cache catalogue))
          (logged (Select "property") catalogue))) ∧
  (rows ≠ [] →
   PropertyViewSet_featured ∅ catalogue
     = (Raise (AttributeError "Property" "amenities"),
        logged (Select "propertyimage") (logged (Select "property") catalogue))) ∧
  (∀ pk p, (pk, p) ∈ rows ↔
           properties catalogue !! pk = Some p ∧ is_featured p = true ∧
           get_queryset ∅ p = true) ∧
  (∀ pk p, (pk, p) ∈ rows → status p ∈ ["for_sale"; "for_rent"]).
Proof. apply (featured_selection ∅ catalogue). reflexivity. Defined.

(** ** Reading twice *)

(** X6.  Once the list, stats or featured endpoint has answered a request,
    the same request made again in the world the first one left, by a
    process that computes the same cache key, is answered with the same
    response and changes nothing, not even the query log: the answer is in
    the cache under the key of the request.  (The key of a list request
    with query parameters holds Python's [hash] of them, which differs from
    process to process; every other key is the same for all.) *)
Theorem repeated_read_is_served_from_cache
    (hash hash' : string → Z) (int int' : string → option Z) (e : CachedEndpoint)
    (w w1 : World) (r : Response) :
  serve hash int e w = (Ok r, w1) →
  endpoint_key hash' e = endpoint_key hash e →
  serve hash' int' e w1 = (Ok r, w1) ∧
  ∃ payload, cache w1 !! endpoint_key hash e = Some payload ∧
             r = mkResponse HTTP_200_OK (Data payload).
Proof.
  intros Hrun Hkey.
  assert (Hc : ∃ payload, cache w1 !! endpoint_key hash e = Some payload ∧
                          r = mkResponse HTTP_200_OK (Data payload)).
  { destruct e as [q| |q]; cbn [serve endpoint_key] in *.
    - apply PropertyViewSet_list_Ok in Hrun
        as [(payload & Hc & -> & ->)|(c & _ & -> & _ & _ & Hc)]; [eauto|].
      eexists. split; [|done]. by rewrite Hc, lookup_insert_eq.
    - rewrite PropertyViewSet_stats_run in Hrun.
      destruct (cache w !! "property_stats") as [payload|] eqn:E;
        injection Hrun as <- <-; [eauto|].
      eexists. split; [|done]. simpl. by rewrite lookup_insert_eq.
    - apply PropertyViewSet_featured_Ok in Hrun
        as [(payload & Hc & -> & ->)|(_ & -> & _ & _ & Hc)]; [eauto|].
      eexists. split; [|done]. by rewrite Hc, lookup_insert_eq. }
  split; [|done]. destruct Hc as (payload & Hc & ->). rewrite <-Hkey in Hc.
  destruct e as [q| |q]; cbn [serve endpoint_key] in *.
  - by rewrite PropertyViewSet_list_run, Hc.
  - by rewrite PropertyViewSet_stats_run, Hc.
  - by rewrite PropertyViewSet_featured_run, Hc.
Qed.

Lemma repeated_read_is_served_from_cache_witness :
  let hash := λ _ : string, 0%Z in
  let hash' := λ _ : string, 1%Z in
  let out := serve hash decimal StatsEndpoint catalogue in
  let r := response_of (mkResponse 0 Empty) out in
  serve hash' decimal StatsEndpoint out.2 = (Ok r, out.2) ∧
  ∃ payload, cache out.2 !! endpoint_key hash StatsEndpoint = Some payload ∧
             r = mkResponse HTTP_200_OK (Data payload).
Proof.
  intros hash hash' out r.
  apply (repeated_read_is_served_from_cache hash hash' decimal decimal StatsEndpoint
           catalogue out.2 r); reflexivity.
Defined.

(** ** What a write invalidates *)

Lemma glob_match_star s : glob_match "*" s = true.
Proof. induction s as [|c s IH]; [done|]. simpl in *. by rewrite IH. Qed.

Lemma keyed_list_is_matched t :
  glob_match "property_list:*" ("property_list" +:+ ":" +:+ t) = true.
Proof. apply (glob_match_star t). Qed.

Lemma concat_nonempty sep x (l : list string) :
  x ≠ "" → String.concat sep (x :: l) ≠ "".
Proof.
  intros Hx. destruct x as [|c x]; [done|]. simpl. by destruct l.
Qed.

Lemma _get_cache_key_params hash prefix (q : gmap string (list string)) :
  q ≠ ∅ → ∃ t, _get_cache_key hash prefix q = prefix +:+ ":" +:+ t.
Proof.
  intros Hq. unfold _get_cache_key.
  destruct (merge_sort key_le (map_to_list q)) as [|[k v] l] eqn:E.
  { exfalso. apply Hq, map_to_list_empty_iff, Permutation_nil_r.
    by rewrite <-(merge_sort_Permutation key_le), E. }
  rewrite bool_decide_eq_false_2; [by eexists|].
  rewrite fmap_cons. apply concat_nonempty. simpl. by destruct k.
Qed.

(** X7.  A create of a property under a key no row has completes, and
    after it the cache holds no statistics and no list cached for a request
    with query parameters, so the next such read goes to the store; every
    other entry, among them the detail entries, the featured selection and
    the list of the request without parameters, is the one it was before.
    An update or a delete of a property does not get to the invalidation:
    it leaves the cache as it was. *)
Theorem write_drops_keyed_lists_and_stats
    (hash : string → Z) (pk : string) (user : nat) (data : PropertyFields) (now : nat)
    (w : World) :
  properties w !! pk = None →
  (∃ r w', PropertyViewSet_create pk user data now w = (Ok r, w') ∧
     status_code r = HTTP_201_CREATED ∧
     cache w' !! "property_stats" = None ∧
     (∀ q, q ≠ ∅ → cache w' !! _get_cache_key hash "property_list" q = None) ∧
     (∀ key, glob_match "property_list:*" key = false → key ≠ "property_stats" →
             cache w' !! key = cache w !! key)) ∧
  (∀ q pk' data',
     cache (PropertyViewSet_update q pk' data' now w).2 = cache w ∧
     cache (PropertyViewSet_destroy q pk' w).2 = cache w).
Proof.
  intros Hnew. split.
  - set (p := Property_before_save now
                (mkProperty (default "" (in_title data)) (default "pending" (in_status data))
                            user false false 0 0 now None)).
    set (w1 := with_properties (<[pk := p]> (properties (logged (Insert "property") w)))
                 (logged (Insert "property") w)).
    assert (Hrun : PropertyViewSet_create pk user data now w
              = (Ok (mkResponse HTTP_201_CREATED (Data (Detail (serialize_property pk p)))),
                 (_invalidate_property_cache w1).2)).
    { unfold PropertyViewSet_create, PropertyViewSet_perform_create, Property_create,
        _invalidate_property_cache, cache_delete_pattern, cache_delete, hit, modify,
        bind, get_state, ret, raise. cbn -[glob_match]. by rewrite Hnew. }
    eexists _, _. split; [exact Hrun|]. split; [done|]. split; [|split].
    + unfold _invalidate_property_cache, cache_delete_pattern, cache_delete, bind, modify.
      cbn -[glob_match]. apply lookup_delete_eq.
    + intros q (t & ->)%(_get_cache_key_params hash "property_list").
      unfold _invalidate_property_cache, cache_delete_pattern, cache_delete, bind, modify.
      cbn -[glob_match String.append]. apply lookup_delete_None. right.
      apply map_lookup_filter_None. right. intros x _. cbn -[glob_match String.append].
      rewrite keyed_list_is_matched. by intros H.
    + intros key Hg Hne. by rewrite invalidate_keeps_key.
  - intros q pk' data'.
    destruct (get_object_raises q pk' w) as (e & w' & Hr & _ & _ & Hc).
    unfold PropertyViewSet_update, PropertyViewSet_destroy.
    by rewrite !(bind_Raise _ _ _ _ _ Hr).
Qed.

Lemma write_drops_keyed_lists_and_stats_witness :
  let hash := λ _ : string, 0%Z in
  let w := warm_cache hash decimal in
  let data := mkPropertyFields (Some "Villa") (Some "for_sale") in
  (∃ r w', PropertyViewSet_create "p1" 1 data 40 w = (Ok r, w') ∧
     status_code r = HTTP_201_CREATED ∧
     cache w' !! "property_stats" = None ∧
     (∀ q, q ≠ ∅ → cache w' !! _get_cache_key hash "property_list" q = None) ∧
     (∀ key, glob_match "property_list:*" key = false → key ≠ "property_stats" →
             cache w' !! key = cache w !! key)) ∧
  (∀ q pk' data',
     cache (PropertyViewSet_update q pk' data' 40 w).2 = cache w ∧
     cache (PropertyViewSet_destroy q pk' w).2 = cache w).
Proof.
  intros hash w data.
  apply (write_drops_keyed_lists_and_stats hash "p1" 1 data 40 w). reflexivity.
Defined.

(** ** Statistics *)

Lemma count_where_le keep (ps : gmap string Property) : (count_where keep ps ≤ size ps)%nat.
Proof. apply map_subseteq_size, map_filter_subseteq. Qed.

Lemma count_where_exclusive keep1 keep2 (ps : gmap string Property) :
  (∀ p, keep1 p = true → keep2 p = true → False) →
  (count_where keep1 ps + count_where keep2 ps ≤ size ps)%nat.
Proof.
  intros Hx. unfold count_where. rewrite <-map_size_disj_union.
  - apply map_subseteq_size, map_union_least; apply map_filter_subseteq.
  - apply map_disjoint_spec. intros i x y [Ex H1]%map_lookup_filter_Some
      [Ey H2]%map_lookup_filter_Some. simpl in *.
    rewrite Ex in Ey. injection Ey as <-. by apply (Hx x).
Qed.

Lemma total_views_bound (ps : gmap string Property) pk p :
  ps !! pk = Some p →
  (views_count p ≤ map_fold (λ _ p acc, views_count p + acc) 0 ps)%nat.
Proof.
  revert pk p. induction ps as [|k x ps Hk IH] using map_ind; intros pk p.
  { by rewrite lookup_empty. }
  rewrite map_fold_insert_L; [|intros; lia|done].
  destruct (decide (pk = k)) as [->|Hne].
  - rewrite lookup_insert_eq. intros [= ->]. lia.
  - rewrite lookup_insert_ne by done. intros H%IH. lia.
Qed.

(** X8.  A stats request that finds nothing cached answers with the counts
    of the store as it is and caches them: the total is the number of
    properties, the properties for sale and for rent together are at most
    the total, so are the featured and the verified ones, no property has
    more views than the total of views, and all six numbers are 0 when the
    store is empty. *)
Theorem stats_are_counts_of_the_store (w : World) :
  cache w !! "property_stats" = None →
  ∃ s, PropertyViewSet_stats w
         = (Ok (mkResponse HTTP_200_OK (Data (Stats s))),
            with_cache (<["property_stats" := Stats s]> (cache w))
              (logged (Select "property") w)) ∧
       total_properties s = size (properties w) ∧
       (stat_for_sale s + stat_for_rent s ≤ total_properties s)%nat ∧
       (featured_properties s ≤ total_properties s)%nat ∧
       (verified_properties s ≤ total_properties s)%nat ∧
       (∀ pk p, properties w !! pk = Some p → (views_count p ≤ total_views s)%nat) ∧
       (properties w = ∅ → s = mkStatsData 0 0 0 0 0 0).
Proof.
  intros Hmiss. exists (aggregate_stats (properties w)). split.
  { unfold PropertyViewSet_stats, cache_get, cache_set, hit, modify, bind,
      get_state, ret. simpl. by rewrite Hmiss. }
  split; [done|]. split.
  { simpl. apply count_where_exclusive. intros p H1%bool_decide_eq_true
      H2%bool_decide_eq_true. by rewrite H1 in H2. }
  split; [apply count_where_le|]. split; [apply count_where_le|]. split.
  { intros pk p. apply total_views_bound. }
  intros ->. reflexivity.
Qed.

Lemma stats_are_counts_of_the_store_witness :
  ∃ s, PropertyViewSet_stats catalogue
         = (Ok (mkResponse HTTP_200_OK (Data (Stats s))),
            with_cache (<["property_stats" := Stats s]> (cache catalogue))
              (logged (Select "property") catalogue)) ∧
       total_properties s = size (properties catalogue) ∧
       (stat_for_sale s + stat_for_rent s ≤ total_properties s)%nat ∧
       (featured_properties s ≤ total_properties s)%nat ∧
       (verified_properties s ≤ total_properties s)%nat ∧
       (∀ pk p, properties catalogue !! pk = Some p → (views_count p ≤ total_views s)%nat) ∧
       (properties catalogue = ∅ → s = mkStatsData 0 0 0 0 0 0).
Proof. apply (stats_are_counts_of_the_store catalogue). reflexivity. Defined.

(** ** The favorites API at its edges *)

(** X9.  The favorite toggle for a property id that names no stored
    property (keys stand for well-formed UUIDs) is answered 404 after one
    read of the property table; no favorite is created and neither the
    tables nor the cache change. *)
Theorem toggle_of_unknown_property_is_404
    (user : nat) (pk : string) (now : nat) (w : World) :
  pk ≠ "" →
  properties w !! pk = None →
  FavoriteViewSet_create user (Some pk) now w
    = (Raise Http404, logged (Select "property") w).
Proof.
  intros Hpk Ep. unfold FavoriteViewSet_create. rewrite decide_False by done.
  erewrite bind_Raise; [done|]. by rewrite get_property_or_404_run, Ep.
Qed.

Lemma toggle_of_unknown_property_is_404_witness :
  FavoriteViewSet_create 2 (Some "p9") 20 test_world
    = (Raise Http404, logged (Select "property") test_world).
Proof.
  apply (toggle_of_unknown_property_is_404 2 "p9" 20 test_world).
  - discriminate.
  - reflexivity.
Defined.

Lemma favorites_matching_delete user pk i f (fs : gmap nat Favorite) :
  favorites_matching user pk fs = [(i, f)] →
  favorites_matching user pk (delete i fs) = [].
Proof.
  unfold favorites_matching. intros H. rewrite map_filter_delete.
  apply map_to_list_empty_iff. rewrite <-(list_to_map_to_list (filter _ fs)), H.
  simpl. by rewrite insert_empty, delete_singleton_eq.
Qed.

(** X10.  The check endpoint agrees with the toggle: when a toggle by a
    user for a property completes, check answered the opposite of the
    toggle's is_favorited before it and answers exactly is_favorited after
    it, for that user and property. *)
Theorem check_follows_the_toggle
    (user : nat) (pk : string) (now : nat) (w w' : World) (r : Response) :
  pk ≠ "" →
  FavoriteViewSet_create user (Some pk) now w = (Ok r, w') →
  ∃ message b favorite,
    body r = FavoriteToggled message b favorite ∧
    FavoriteViewSet_check user (Some pk) w
      = (Ok (mkResponse HTTP_200_OK (IsFavorited (negb b))), logged (Select "favorite") w) ∧
    FavoriteViewSet_check user (Some pk) w'
      = (Ok (mkResponse HTTP_200_OK (IsFavorited b)), logged (Select "favorite") w').
Proof.
  intros Hpk H.
  assert (Hc : ∀ w0, FavoriteViewSet_check user (Some pk) w0
            = (Ok (mkResponse HTTP_200_OK
                     (IsFavorited (negb (bool_decide
                        (favorites_matching user pk (favorites w0) = []))))),
               logged (Select "favorite") w0)).
  { intros w0. unfold FavoriteViewSet_check. simpl.
    by rewrite (bool_decide_eq_false_2 (pk = "")). }
  apply FavoriteViewSet_create_ok in H; [|done].
  destruct H as [p0 i f n Ep Em Hi Hf Hp Hca|p0 i f n Ep Em Hf Hp Hca].
  - subst f. eexists _, true, _. split; [reflexivity|].
    by rewrite !Hc, Hf, (favorites_matching_insert_new user pk now i _ Em), Em.
  - eexists _, false, _. split; [reflexivity|].
    by rewrite !Hc, Hf, (favorites_matching_delete user pk i f _ Em), Em.
Qed.

Lemma check_follows_the_toggle_witness :
  let out := FavoriteViewSet_create 2 (Some "p1") 20 test_world in
  let r := response_of (mkResponse 0 Empty) out in
  ∃ message b favorite,
    body r = FavoriteToggled message b favorite ∧
    FavoriteViewSet_check 2 (Some "p1") test_world
      = (Ok (mkResponse HTTP_200_OK (IsFavorited (negb b))),
         logged (Select "favorite") test_world) ∧
    FavoriteViewSet_check 2 (Some "p1") out.2
      = (Ok (mkResponse HTTP_200_OK (IsFavorited b)), logged (Select "favorite") out.2).
Proof.
  intros out r.
  apply (check_follows_the_toggle 2 "p1" 20 test_world out.2 r).
  - discriminate.
  - reflexivity.
Defined.

(** X11.  DELETE /favorites/<id>/ for an id that is no favorite of the
    requesting user, because no such row exists or because it is another
    user's, is answered 404 after one read of the favorite table; no row is
    deleted and no counter changes. *)
Theorem favorite_of_another_user_cannot_be_deleted
    (user : nat) (i : nat) (now : nat) (w : World) :
  fav_user <$> favorites w !! i ≠ Some user →
  FavoriteViewSet_destroy user i now w
    = (Raise Http404, logged (Select "favorite") w).
Proof.
  intros H. unfold FavoriteViewSet_destroy. erewrite bind_Raise; [done|].
  unfold FavoriteViewSet_get_object, hit, modify, bind, get_state, ret, raise. simpl.
  destruct (favorites w !! i) as [f|] eqn:E; [|done].
  rewrite decide_False; [done|]. intros Hu. apply H. simpl. by rewrite Hu.
Qed.

Lemma favorite_of_another_user_cannot_be_deleted_witness :
  let w := (FavoriteViewSet_create 2 (Some "p1") 20 test_world).2 in
  FavoriteViewSet_destroy 3 0 30 w = (Raise Http404, logged (Select "favorite") w).
Proof.
  intros w. apply (favorite_of_another_user_cannot_be_deleted 3 0 30 w).
  vm_compute. discriminate.
Defined.

(** ** The publication date *)

Lemma published_same_properties w w' :
  properties w' = properties w → published w → published w'.
Proof. unfold published. by intros ->. Qed.

Lemma published_insert w w' pk p1 :
  properties w' = <[pk := p1]> (properties w) →
  (status p1 ∈ ["for_sale"; "for_rent"] → is_Some (published_at p1)) →
  published w → published w'.
Proof.
  intros Hp H1 Hw k p. rewrite Hp. destruct (decide (k = pk)) as [->|Hne].
  - rewrite lookup_insert_eq. by intros [= <-].
  - rewrite lookup_insert_ne by done. apply Hw.
Qed.

Lemma published_recount w w' pk p0 n :
  properties w' = <[pk := set_favorites_count n p0]> (properties w) →
  properties w !! pk = Some p0 →
  published w → published w'.
Proof. intros Hp Ep Hw. eapply published_insert; [done| |done]. by apply (Hw pk p0). Qed.

Lemma before_save_published now p :
  status (Property_before_save now p) ∈ ["for_sale"; "for_rent"] →
  is_Some (published_at (Property_before_save now p)).
Proof.
  unfold Property_before_save.
  destruct (bool_decide (status p ∈ _)) eqn:Es; simpl.
  - destruct (bool_decide (is_Some (published_at p))) eqn:Ep; simpl; [|by eauto].
    intros _. by apply bool_decide_eq_true in Ep.
  - intros H. by apply bool_decide_eq_false in Es.
Qed.

Lemma api_keeps_published hash int req w :
  published w → published (api hash int req w).2.
Proof.
  intros Hw.
  destruct req as [q|q pk|q| |pk user data now|q pk data now|q pk|fw|user property_id
                  |partial user i property_id now]; cbn [api].
  - eapply published_same_properties; [|done].
    destruct (PropertyViewSet_list hash int q w) as [[r|e] w'] eqn:E; simpl.
    + by apply PropertyViewSet_list_Ok in E as [(? & _ & _ & ->)|(? & _ & _ & ? & _)].
    + by apply PropertyViewSet_list_Raise in E as (? & _).
  - eapply published_same_properties; [|done].
    rewrite PropertyViewSet_retrieve_run.
    destruct (properties w !! pk) as [p|]; [|done]. by destruct (get_queryset q p).
  - eapply published_same_properties; [|done].
    destruct (PropertyViewSet_featured q w) as [[r|e] w'] eqn:E; simpl.
    + by apply PropertyViewSet_featured_Ok in E as [(? & _ & _ & ->)|(_ & _ & ? & _)].
    + by apply PropertyViewSet_featured_Raise in E as (? & _).
  - eapply published_same_properties; [|done].
    rewrite PropertyViewSet_stats_run. by destruct (cache w !! _).
  - unfold PropertyViewSet_create, PropertyViewSet_perform_create, Property_create,
      _invalidate_property_cache, cache_delete_pattern, cache_delete, hit, modify, bind,
      get_state, ret, raise. simpl.
    destruct (properties w !! pk) as [p|] eqn:Ep; simpl.
    + by eapply published_same_properties.
    + eapply (published_insert w _ pk); [done| |done]. apply before_save_published.
  - eapply published_same_properties; [|done].
    destruct (get_object_raises q pk w) as (e & w' & Hr & Hp & _).
    unfold PropertyViewSet_update. by erewrite bind_Raise.
  - eapply published_same_properties; [|done].
    destruct (get_object_raises q pk w) as (e & w' & Hr & Hp & _).
    unfold PropertyViewSet_destroy. by erewrite bind_Raise.
  - destruct fw as [user property_id now|user i now]; cbn [favorites_api].
    + destruct (FavoriteViewSet_create user property_id now w) as [[r|e] w'] eqn:E.
      * destruct property_id as [pk|];
          [|injection E as <- <-; by eapply published_same_properties].
        destruct (decide (pk = "")) as [->|Hpk].
        { unfold FavoriteViewSet_create in E. rewrite decide_True in E by done.
          injection E as <- <-. by eapply published_same_properties. }
        apply FavoriteViewSet_create_ok in E; [|done]. simpl.
        destruct E as [p0 i f n Ep Em Hi Hf Hp Hca|p0 i f n Ep Em Hf Hp Hca];
          by eapply published_recount.
      * apply FavoriteViewSet_create_failed in E as (? & _).
        by eapply published_same_properties.
    + destruct (FavoriteViewSet_destroy user i now w) as [[r|e] w'] eqn:E.
      * apply FavoriteViewSet_destroy_ok in E
          as (f & p0 & Hi & Hu & Hp0 & Hf & Hp & _). simpl in *.
        by eapply published_recount.
      * apply FavoriteViewSet_destroy_failed in E as (? & _).
        by eapply published_same_properties.
  - eapply published_same_properties; [|done].
    unfold FavoriteViewSet_check, hit, modify, bind, get_state, ret.
    by destruct (truthy property_id).
  - destruct (FavoriteViewSet_update_world partial user i property_id now w)
      as [_ [Hp|(pk & row & n & Ep & Hp)]].
    + by eapply published_same_properties.
    + by eapply published_recount.
Qed.

(** X12.  In every world the properties and favorites API brings about from
    an empty database, every property that is for sale or for rent has its
    publication date: [Property.save] sets it when such a row is written,
    and no request clears it or makes a row visible without saving it. *)
Theorem visible_properties_are_published
    (int : string → option Z) (w : World) (pk : string) (p : Property) :
  reachable int w →
  properties w !! pk = Some p →
  status p ∈ ["for_sale"; "for_rent"] →
  is_Some (published_at p).
Proof.
  intros Hr. revert pk p. change (published w).
  induction Hr as [c|w hash req _ IH]; [|by apply api_keeps_published].
  intros pk p. simpl. by rewrite lookup_empty.
Qed.

Lemma visible_properties_are_published_witness :
  let hash := λ _ : string, 0%Z in
  let w := (api hash decimal
              (PostProperty "p1" 1 (mkPropertyFields (Some "Villa") (Some "for_sale")) 10)
              (mkWorld ∅ ∅ ∅ [])).2 in
  let p := mkProperty "Villa" "for_sale" 1 false false 0 0 10 (Some 10) in
  properties w !! "p1" = Some p ∧ is_Some (published_at p).
Proof.
  intros hash w p. split; [reflexivity|].
  apply (visible_properties_are_published decimal w "p1" p).
  - apply reachable_step, reachable_empty.
  - reflexivity.
  - apply (bool_decide_unpack _). by vm_compute.
Defined.

End PropertiesMore.


Module ImagesFacts.
Import Images.

Lemma clear_primary_lookup p (imgs : gmap nat PropertyImage) i :
  clear_primary p imgs !! i
    = (λ x, if bool_decide (img_property x = p) && is_primary x
            then set_primary false x else x) <$> imgs !! i.
Proof. unfold clear_primary. by rewrite lookup_fmap. Qed.

Lemma dom_clear_primary p (imgs : gmap nat PropertyImage) :
  dom (clear_primary p imgs) = dom imgs.
Proof. unfold clear_primary. by rewrite dom_fmap_L. Qed.

Lemma primaries_clear_primary p (imgs : gmap nat PropertyImage) :
  primaries p (clear_primary p imgs) = ∅.
Proof.
  apply map_empty. intros i. apply map_lookup_filter_None. right.
  intros x. rewrite clear_primary_lookup. destruct (imgs !! i) as [y|]; [|done].
  simpl. intros [= <-] [Hp Hb]. destruct (bool_decide (img_property y = p)) eqn:E.
  - destruct (is_primary y) eqn:Ey; simpl in *; [done|]. by rewrite Ey in Hb.
  - simpl in *. by apply bool_decide_eq_false in E.
Qed.

Lemma primaries_clear_other p p' (imgs : gmap nat PropertyImage) :
  p' ≠ p → primaries p' (clear_primary p imgs) = primaries p' imgs.
Proof.
  intros Hne. apply map_eq. intros i. unfold primaries.
  destruct (imgs !! i) as [y|] eqn:Ey.
  - destruct (decide (img_property y = p' ∧ is_primary y = true)) as [[Hp Hb]|Hn].
    + transitivity (Some y).
      * apply map_lookup_filter_Some. rewrite clear_primary_lookup, Ey. simpl.
        rewrite (bool_decide_eq_false_2 (img_property y = p)) by congruence. done.
      * symmetry. by apply map_lookup_filter_Some.
    + transitivity (@None PropertyImage).
      * apply map_lookup_filter_None. right. intros x.
        rewrite clear_primary_lookup, Ey. simpl. intros [= <-].
        destruct (bool_decide (img_property y = p) && is_primary y) eqn:E; [|done].
        simpl. intros [_ ?]. done.
      * symmetry. apply map_lookup_filter_None. right. intros x.
        rewrite Ey. by intros [= <-].
  - transitivity (@None PropertyImage).
    + apply map_lookup_filter_None. left. by rewrite clear_primary_lookup, Ey.
    + symmetry. apply map_lookup_filter_None. by left.
Qed.

Lemma primaries_insert p i img (imgs : gmap nat PropertyImage) :
  primaries p (<[i := img]> imgs)
    = if bool_decide (img_property img = p ∧ is_primary img = true)
      then <[i := img]> (primaries p imgs)
      else delete i (primaries p imgs).
Proof.
  unfold primaries. case_bool_decide as H.
  - by rewrite map_filter_insert_True.
  - rewrite map_filter_insert_False by done. by rewrite map_filter_delete.
Qed.

Lemma PropertyImage_save_primary id img (imgs : gmap nat PropertyImage) :
  is_primary img = true →
  let saved := PropertyImage_save id img imgs in
  primaries (img_property img) saved.2 = {[ saved.1 := img ]} ∧
  (id = None → imgs !! saved.1 = None ∧
               ∀ p, p ≠ img_property img → primaries p saved.2 = primaries p imgs).
Proof.
  intros Hb saved. subst saved. unfold PropertyImage_save. rewrite Hb. simpl. split.
  - rewrite primaries_insert, bool_decide_eq_true_2 by done.
    by rewrite primaries_clear_primary, insert_empty.
  - intros ->. simpl.
    assert (Hfresh : imgs !! fresh (dom (clear_primary (img_property img) imgs)) = None).
    { apply not_elem_of_dom. unfold clear_primary. rewrite dom_fmap_L. apply is_fresh. }
    split; [done|]. intros p Hne.
    rewrite primaries_insert, bool_decide_eq_false_2 by (intros [? _]; congruence).
    rewrite primaries_clear_other by done. apply delete_id.
    apply map_lookup_filter_None. by left.
Qed.

(** X13.  After an image flagged primary is saved, it is the only primary
    image of its property; when the image is new, it is stored under an id
    no row had, and the primary images of every other property are the
    ones before. *)
Theorem saved_primary_image_is_the_only_primary
    (id : option nat) (img : PropertyImage) (imgs : gmap nat PropertyImage) :
  is_primary img = true →
  let saved := PropertyImage_save id img imgs in
  primaries (img_property img) saved.2 = {[ saved.1 := img ]} ∧
  (id = None → imgs !! saved.1 = None ∧
               ∀ p, p ≠ img_property img → primaries p saved.2 = primaries p imgs).
Proof. apply PropertyImage_save_primary. Qed.

Lemma saved_primary_image_is_the_only_primary_witness :
  let img := mkPropertyImage "p1" "b.jpg" true 1 20 in
  let imgs : gmap nat PropertyImage :=
    {[ 0%nat := mkPropertyImage "p1" "a.jpg" true 0 10 ]} in
  let saved := PropertyImage_save None img imgs in
  primaries (img_property img) saved.2 = {[ saved.1 := img ]} ∧
  (@None nat = None → imgs !! saved.1 = None ∧
               ∀ p, p ≠ img_property img → primaries p saved.2 = primaries p imgs).
Proof.
  intros img imgs.
  apply (saved_primary_image_is_the_only_primary None img imgs). reflexivity.
Defined.

(** X14.  Saving an image, primary or not, new or existing, keeps the
    invariant that a property has at most one primary image. *)
Theorem at_most_one_primary_image_is_kept
    (id : option nat) (img : PropertyImage) (imgs : gmap nat PropertyImage) (p : string) :
  (size (primaries p imgs) ≤ 1)%nat →
  (size (primaries p (PropertyImage_save id img imgs).2) ≤ 1)%nat.
Proof.
  intros Hone. unfold PropertyImage_save. simpl.
  set (i := default _ id). clearbody i.
  rewrite primaries_insert. destruct (is_primary img) eqn:Hb.
  - destruct (decide (img_property img = p)) as [<-|Hne].
    + rewrite bool_decide_eq_true_2 by done.
      by rewrite primaries_clear_primary, insert_empty, map_size_singleton.
    + rewrite bool_decide_eq_false_2 by (by intros [? _]).
      rewrite primaries_clear_other by done.
      etrans; [|exact Hone]. apply map_subseteq_size, delete_subseteq.
  - rewrite bool_decide_eq_false_2 by (by intros [_ ?]).
    etrans; [|exact Hone]. apply map_subseteq_size, delete_subseteq.
Qed.

Lemma at_most_one_primary_image_is_kept_witness :
  let img := mkPropertyImage "p1" "b.jpg" true 1 20 in
  let imgs : gmap nat PropertyImage :=
    {[ 0%nat := mkPropertyImage "p1" "a.jpg" true 0 10 ]} in
  (size (primaries "p1" (PropertyImage_save None img imgs).2) ≤ 1)%nat.
Proof.
  intros img imgs.
  apply (at_most_one_primary_image_is_kept None img imgs "p1").
  vm_compute. lia.
Defined.

Lemma create_images_rest p files : ∀ i now (imgs : gmap nat PropertyImage) p',
  (0 < i)%nat →
  primaries p' (create_images p files i now imgs) = primaries p' imgs ∧
  size (create_images p files i now imgs) = (size imgs + length files)%nat.
Proof.
  induction files as [|f files IH]; intros i now imgs p' Hi; simpl.
  { split; [done|lia]. }
  rewrite (bool_decide_eq_false_2 (i = 0%nat)) by lia.
  unfold PropertyImage_save. simpl.
  assert (Hfresh : imgs !! fresh (dom imgs) = None)
    by (apply not_elem_of_dom, is_fresh).
  destruct (IH (S i) now
              (<[fresh (dom imgs) := mkPropertyImage p f false i now]> imgs) p')
    as [-> ->]; [lia|]. split.
  - rewrite primaries_insert, bool_decide_eq_false_2 by (by intros [_ ?]).
    apply delete_id, map_lookup_filter_None. by left.
  - rewrite map_size_insert_None by done. lia.
Qed.

(** X15.  The image loop of PropertyCreateSerializer.create leaves the first
    uploaded file as the one primary image of the property, whatever images
    the table held before, and adds one row per file; without files the
    table is unchanged. *)
Theorem first_uploaded_image_is_the_primary
    (p : string) (image_file : string) (rest : list string) (now : nat)
    (imgs : gmap nat PropertyImage) :
  let imgs' := create_images p (image_file :: rest) 0 now imgs in
  primaries p imgs' = {[ fresh (dom imgs) := mkPropertyImage p image_file true 0 now ]} ∧
  size imgs' = (size imgs + S (length rest))%nat ∧
  create_images p [] 0 now imgs = imgs.
Proof.
  simpl.
  pose proof (PropertyImage_save_primary None
                (mkPropertyImage p image_file true 0 now) imgs eq_refl) as [H1 _].
  simpl in H1. unfold PropertyImage_save. simpl.
  destruct (create_images_rest p rest 1 now
              (<[fresh (dom (clear_primary p imgs))
                 := mkPropertyImage p image_file true 0 now]> (clear_primary p imgs)) p)
    as [-> ->]; [lia|].
  rewrite H1, dom_clear_primary. split; [done|]. split; [|done].
  rewrite map_size_insert_None.
  - unfold clear_primary. rewrite map_size_fmap. lia.
  - apply not_elem_of_dom. rewrite dom_clear_primary. apply is_fresh.
Qed.

End ImagesFacts.

Module ReviewsMore.
Import Reviews ReviewsFacts.

(** X16.  The like endpoint never adds or removes a like, and the update
    and delete operations of the review API never change a review: each of
    them looks the review up through [get_queryset], whose [annotate] names
    the relation 'likes' that Review does not have (its likes go by
    'liked_by'), so each raises FieldError and leaves the reviews, the
    likes and the cache as they were, whatever the request. *)
Theorem like_update_and_delete_raise_field_error
    (q : gmap string (list string)) (user : nat) (pk : string) (data : ReviewFields)
    (now : nat) (w : World) :
  ReviewViewSet_like q user pk now w = (Raise (FieldError "likes"), w) ∧
  ReviewViewSet_update q pk data w = (Raise (FieldError "likes"), w) ∧
  ReviewViewSet_destroy q pk w = (Raise (FieldError "likes"), w) ∧
  ("likes" ∉ Review_fields) ∧ ("liked_by" ∈ Review_fields).
Proof.
  split; [|split; [|split; [|split]]].
  - unfold ReviewViewSet_like. erewrite bind_Raise; [done|]. apply review_get_object_raises.
  - unfold ReviewViewSet_update. erewrite bind_Raise; [done|]. apply review_get_object_raises.
  - unfold ReviewViewSet_destroy. erewrite bind_Raise; [done|]. apply review_get_object_raises.
  - apply (bool_decide_unpack _). by vm_compute.
  - apply (bool_decide_unpack _). by vm_compute.
Qed.

End ReviewsMore.

Module NotificationsMore.
Import Notifications NotificationsFacts.

Lemma marked_lookup (sel ns : gmap nat Notification) now id :
  (((λ n, set_read true (Some now) n) <$> sel) ∪ ns) !! id
    = match sel !! id with
      | Some n => Some (set_read true (Some now) n)
      | None => ns !! id
      end.
Proof.
  rewrite lookup_union, lookup_fmap.
  destruct (sel !! id); simpl; by destruct (ns !! id).
Qed.




(** X20.  mark_read with a non-empty list of ids marks exactly the
    requesting user's unread notifications among those ids, as read at the
    time of the request, and answers with their number; ids of other users'
    notifications, of read notifications and of no notification are passed
    over, and every other row is as before. *)
Theorem mark_read_marks_the_users_unread_ids
    (u : nat) (ids : list nat) (now : nat) (w : World) :
  ids ≠ [] →
  let chosen := filter (λ kv, kv.1 ∈ ids) (unread (get_queryset u (notifications w))) in
  ∃ w', NotificationViewSet_mark_read u (Some ids) now w
          = (Ok (mkResponse 200 (Marked (plural (size chosen)) (size chosen))), w') ∧
        (∀ id, notifications w' !! id
                 = (λ n, if bool_decide (id ∈ ids ∧ user n = u ∧ is_read n = false)
                         then set_read true (Some now) n else n)
                   <$> notifications w !! id) ∧
        (size chosen ≤ size (unread (get_queryset u (notifications w))))%nat.
Proof.
  intros Hids chosen. unfold NotificationViewSet_mark_read.
  unfold bind at 1, get_state at 1. cbv beta iota. simpl default.
  rewrite (bool_decide_eq_false_2 (ids = [])) by done. cbn [negb].
  fold chosen. unfold bind, update_read, modify, ret. simpl. eexists. split; [done|].
  split; [|apply map_subseteq_size, map_filter_subseteq].
  intros id. simpl. rewrite marked_lookup. subst chosen.
  destruct (filter _ (unread _) !! id) as [n|] eqn:E.
  - apply map_lookup_filter_Some in E as [(Hn & Hu & Hr)%pending_lookup Hin].
    simpl in Hin. rewrite Hn. simpl.
    rewrite bool_decide_eq_true_2; [done|]. by repeat split.
  - destruct (notifications w !! id) as [n|] eqn:Hn; [|done]. simpl.
    rewrite bool_decide_eq_false_2; [done|]. intros (Hin & Hu & Hr).
    apply map_lookup_filter_None in E as [E|E].
    + assert (H : unread (get_queryset u (notifications w)) !! id = Some n)
        by (by apply pending_lookup).
      by rewrite H in E.
    + apply (E n); [by apply pending_lookup|done].
Qed.

Lemma mark_read_marks_the_users_unread_ids_witness :
  let chosen := filter (λ kv, kv.1 ∈ [1; 3; 4; 9]%nat)
                       (unread (get_queryset 1 (notifications inbox))) in
  ∃ w', NotificationViewSet_mark_read 1 (Some [1; 3; 4; 9]%nat) 20 inbox
          = (Ok (mkResponse 200 (Marked (plural (size chosen)) (size chosen))), w') ∧
        (∀ id, notifications w' !! id
                 = (λ n, if bool_decide (id ∈ [1; 3; 4; 9]%nat ∧ user n = 1%nat
                                         ∧ is_read n = false)
                         then set_read true (Some 20%nat) n else n)
                   <$> notifications inbox !! id) ∧
        (size chosen ≤ size (unread (get_queryset 1 (notifications inbox))))%nat.
Proof.
  apply (mark_read_marks_the_users_unread_ids 1 [1; 3; 4; 9]%nat 20 inbox).
  discriminate.
Defined.

(** X21.  No request of the notification API (list, create, retrieve,
    update, partial update, delete, mark_read, mark_all_read, unread_count)
    changes or removes a notification of a user other than the requesting
    one. *)
Theorem other_users_notifications_are_untouched
    (u now : nat) (req : AnyRequest) (w : World) (id : nat) (n : Notification) :
  notifications w !! id = Some n →
  user n ≠ u →
  notifications (world_after u now req w) !! id = Some n.
Proof.
  intros Hid Hu. destruct w as [ns]. simpl in Hid.
  assert (Hown : ∀ i inst, get_queryset u ns !! i = Some inst → id ≠ i).
  { intros i inst [Hi Hui]%map_lookup_filter_Some ->. simpl in *.
    rewrite Hid in Hi. injection Hi as <-. done. }
  assert (Hsel : ∀ sel : gmap nat Notification,
            sel ⊆ unread (get_queryset u ns) → sel !! id = None).
  { intros sel Hsub. destruct (sel !! id) as [m|] eqn:E; [|done].
    eapply lookup_weaken in E; [|done].
    apply pending_lookup in E as (Hm & Hum & _). rewrite Hid in Hm.
    injection Hm as <-. done. }
  destruct req as [[i|html i body|html i body|ids|]|q| |body|i]; simpl.
  - unfold NotificationViewSet_retrieve, get_object, bind, get_state, ret, raise. simpl.
    destruct (get_queryset u ns !! i) as [inst|] eqn:Ei; simpl; [|done].
    pose proof (Hown _ _ Ei) as Hne.
    apply map_lookup_filter_Some in Ei as [Ei _].
    destruct (is_read inst) eqn:Hr; simpl; [done|].
    rewrite (mark_as_read_unread i inst now (mkWorld ns)) by done. simpl.
    unfold refresh_from_db, bind, get_state, ret. simpl.
    rewrite lookup_insert_eq. simpl. by rewrite lookup_insert_ne.
  - rewrite NotificationViewSet_update_run. simpl.
    destruct (get_queryset u ns !! i) as [inst|] eqn:Ei; [|done].
    pose proof (Hown _ _ Ei) as Hne.
    destruct body; simpl; [done|]. by rewrite lookup_insert_ne.
  - rewrite NotificationViewSet_update_run. simpl.
    destruct (get_queryset u ns !! i) as [inst|] eqn:Ei; [|done].
    pose proof (Hown _ _ Ei) as Hne.
    destruct body; simpl; [done|]. by rewrite lookup_insert_ne.
  - unfold NotificationViewSet_mark_read, bind at 1, get_state at 1. simpl.
    destruct (bool_decide (default [] ids = [])); simpl.
    + destruct (first (unread (get_queryset u ns))) as [[i inst]|] eqn:Ef; [|done].
      apply first_Some in Ef as [Hi _].
      pose proof (Hsel {[ i := inst ]}) as Hs.
      rewrite map_singleton_subseteq_l in Hs. specialize (Hs Hi).
      apply lookup_singleton_None in Hs.
      apply pending_lookup in Hi as (Hi & _ & Hr).
      unfold bind. rewrite (mark_as_read_unread i inst now (mkWorld ns)) by done.
      simpl. by rewrite lookup_insert_ne.
    + unfold bind. simpl. rewrite marked_lookup, Hsel; [done|].
      apply map_filter_subseteq.
  - unfold NotificationViewSet_mark_all_read, bind at 1, get_state at 1. simpl.
    case_bool_decide; [|done]. unfold bind. simpl. by rewrite marked_lookup, Hsel.
  - done.
  - done.
  - unfold NotificationViewSet_create. destruct body as [|data]; [done|].
    destruct (in_title data); [|done]. destruct (in_message data); [|done].
    unfold bind, get_state, modify, ret. simpl. rewrite lookup_insert_ne; [done|].
    intros <-. pose proof (is_fresh (dom ns)) as Hf.
    apply not_elem_of_dom in Hf. by rewrite Hf in Hid.
  - unfold NotificationViewSet_destroy, get_object, bind, get_state, modify, ret, raise.
    simpl. destruct (get_queryset u ns !! i) as [inst|] eqn:Ei; simpl; [|done].
    pose proof (Hown _ _ Ei) as Hne. by rewrite lookup_delete_ne.
Qed.

Lemma other_users_notifications_are_untouched_witness :
  notifications (world_after 1 20 (Destroy 4) inbox) !! 4%nat
    = Some (mkNotification 2 "Payment" "Paid" "payment" false None None 8).
Proof.
  apply (other_users_notifications_are_untouched 1 20 (Destroy 4) inbox 4).
  - reflexivity.
  - discriminate.
Defined.

Lemma in_order_elem (ns : gmap nat Notification) id n :
  (id, n) ∈ in_order ns ↔ ns !! id = Some n.
Proof.
  unfold in_order. rewrite merge_sort_Permutation. apply elem_of_map_to_list.
Qed.

Lemma in_order_length (ns : gmap nat Notification) : length (in_order ns) = size ns.
Proof.
  unfold in_order. rewrite merge_sort_Permutation. apply length_map_to_list.
Qed.

Lemma in_order_sorted (ns : gmap nat Notification) :
  StronglySorted newest_first (in_order ns).
Proof. apply StronglySorted_merge_sort; apply _. Qed.

(** X22.  list answers, without touching the store, with exactly the
    requesting user's notifications that pass the filters, newest first,
    and with their number as count.  The is_read parameter filters as soon
    as it is given: the value 'true' (in any case) keeps the read ones and
    makes unread_count 0, every other value, the empty one too, keeps the
    unread ones, so that unread_count equals count. *)
Theorem list_returns_the_users_notifications
    (u : nat) (q : gmap string (list string)) (w : World) :
  ∃ l, NotificationViewSet_list u q w = (Ok l, w) ∧
       nl_count l = length (nl_notifications l) ∧
       (nl_unread_count l ≤ nl_count l)%nat ∧
       StronglySorted newest_first (nl_notifications l) ∧
       (∀ id n, (id, n) ∈ nl_notifications l ↔
                notifications w !! id = Some n ∧ user n = u ∧
                (∀ v, param q "is_read" = Some v →
                      is_read n = bool_decide (Properties.lower v = "true")) ∧
                (truthy (param q "type") = true →
                 Some (notification_type n) = param q "type")) ∧
       (∀ v, param q "is_read" = Some v →
             nl_unread_count l
               = if bool_decide (Properties.lower v = "true") then 0%nat else nl_count l).
Proof.
  unfold NotificationViewSet_list, bind, get_state, ret. cbv beta iota.
  set (qs1 := match param q "is_read" with
              | Some v => filter _ (get_queryset u (notifications w))
              | None => get_queryset u (notifications w)
              end).
  set (qs := if truthy (param q "type") then filter _ qs1 else qs1).
  eexists. split; [done|]. simpl.
  assert (H1 : ∀ id n, qs1 !! id = Some n ↔
            notifications w !! id = Some n ∧ user n = u ∧
            (∀ v, param q "is_read" = Some v →
                  is_read n = bool_decide (Properties.lower v = "true"))).
  { intros id n. subst qs1. unfold get_queryset.
    destruct (param q "is_read") as [v|].
    - rewrite !map_lookup_filter_Some. simpl. split.
      + intros [[? ?] ?]. repeat split; try done. by intros ? [= <-].
      + intros (? & ? & H). repeat split; try done. by apply H.
    - rewrite map_lookup_filter_Some. simpl. split; [|tauto].
      intros [? ?]. repeat split; done. }
  assert (H2 : ∀ id n, qs !! id = Some n ↔
            qs1 !! id = Some n ∧
            (truthy (param q "type") = true →
             Some (notification_type n) = param q "type")).
  { intros id n. subst qs. destruct (truthy (param q "type")).
    - rewrite map_lookup_filter_Some. simpl. tauto.
    - split; [|tauto]. intros ?. split; [done|]. discriminate. }
  split; [by rewrite in_order_length|].
  split; [apply map_subseteq_size, map_filter_subseteq|].
  split; [apply in_order_sorted|]. split.
  - intros id n. rewrite in_order_elem, H2, H1. tauto.
  - intros v Hv. case_bool_decide as Hb.
    + apply map_size_empty_iff, map_empty. intros id.
      apply map_lookup_filter_None. right. intros n Hn%H2. simpl.
      destruct Hn as [(_ & _ & Hr)%H1 _]. rewrite (Hr v Hv).
      by rewrite bool_decide_eq_true_2.
    + f_equal. apply map_filter_id. intros id n Hn%H2. simpl.
      destruct Hn as [(_ & _ & Hr)%H1 _]. rewrite (Hr v Hv).
      by rewrite bool_decide_eq_false_2.
Qed.


(** X24.  A notification created through the API belongs to the requesting
    user and is unread with no read date, whatever the body gives for
    is_read and read_at; it is stored under an id no row had, every other
    row is as before, and the user has one unread notification more. *)
Theorem created_notification_is_unread_and_owned
    (u : nat) (body : Validation) (now : nat) (w w' : World) (r : Response) :
  NotificationViewSet_create u body now w = (Ok r, w') →
  ∃ id n,
    r = mkResponse 201 (NotificationData id n) ∧
    notifications w !! id = None ∧
    notifications w' = <[id := n]> (notifications w) ∧
    user n = u ∧ is_read n = false ∧ read_at n = None ∧ created_at n = now ∧
    size (unread (get_queryset u (notifications w')))
      = S (size (unread (get_queryset u (notifications w)))).
Proof.
  unfold NotificationViewSet_create. destruct body as [|data]; [discriminate|].
  destruct (in_title data); [|discriminate]. destruct (in_message data); [|discriminate].
  unfold bind, get_state, modify, ret. simpl. intros [= <- <-]. simpl.
  assert (Hf : notifications w !! fresh (dom (notifications w)) = None)
    by (apply not_elem_of_dom, is_fresh).
  eexists _, _. split; [done|]. split; [done|]. split; [done|]. simpl.
  repeat (split; [done|]).
  unfold unread, get_queryset. rewrite !map_filter_insert_True by done.
  apply map_size_insert_None. apply map_lookup_filter_None. left.
  apply map_lookup_filter_None. by left.
Qed.

Lemma created_notification_is_unread_and_owned_witness :
  let data := mkNotificationFields (Some "Visit") (Some "Tomorrow") None
                                   (Some true) (Some (Some 1%nat)) None in
  let out := NotificationViewSet_create 1 (Accepted data) 20 inbox in
  let r := mkResponse 201 (NotificationData 5 (mkNotification 1 "Visit" "Tomorrow" "system"
                                                  false None None 20)) in
  ∃ id n,
    r = mkResponse 201 (NotificationData id n) ∧
    notifications inbox !! id = None ∧
    notifications out.2 = <[id := n]> (notifications inbox) ∧
    user n = 1%nat ∧ is_read n = false ∧ read_at n = None ∧ created_at n = 20%nat ∧
    size (unread (get_queryset 1 (notifications out.2)))
      = S (size (unread (get_queryset 1 (notifications inbox)))).
Proof.
  intros data out r.
  apply (created_notification_is_unread_and_owned 1 (Accepted data) 20 inbox out.2 r).
  reflexivity.
Defined.

(** X25.  Deleting a notification of one's own completes with 204 and
    removes the row; after that, retrieving or deleting the same id is
    answered 404 and changes nothing. *)
Theorem destroyed_notification_is_gone
    (u : nat) (id : nat) (now : nat) (w : World) (n : Notification) :
  notifications w !! id = Some n →
  user n = u →
  let w' := mkWorld (delete id (notifications w)) in
  NotificationViewSet_destroy u id w = (Ok 204%nat, w') ∧
  NotificationViewSet_retrieve u id now w' = (Raise Http404, w') ∧
  NotificationViewSet_destroy u id w' = (Raise Http404, w').
Proof.
  intros Hid Hu w'.
  assert (Hgone : get_queryset u (notifications w') !! id = None).
  { apply map_lookup_filter_None. left. apply lookup_delete_eq. }
  unfold NotificationViewSet_destroy, NotificationViewSet_retrieve, get_object, bind,
    get_state, modify, ret, raise. cbv beta iota. rewrite Hgone.
  assert (Hown : get_queryset u (notifications w) !! id = Some n)
    by (by apply map_lookup_filter_Some).
  by rewrite Hown.
Qed.

Lemma destroyed_notification_is_gone_witness :
  let n := mkNotification 1 "Price change" "Lower" "property_update" false None None 7 in
  let w' := mkWorld (delete 2%nat (notifications inbox)) in
  NotificationViewSet_destroy 1 2 inbox = (Ok 204%nat, w') ∧
  NotificationViewSet_retrieve 1 2 20 w' = (Raise Http404, w') ∧
  NotificationViewSet_destroy 1 2 w' = (Raise Http404, w').
Proof.
  intros n. apply (destroyed_notification_is_gone 1 2 20 inbox n); reflexivity.
Defined.

End NotificationsMore.
